(** * The contour animator of the MAST plasma-equilibrium notebook

  A shallow embedding of the [Contour] helper class (the dataclass that
  draws and animates poloidal-flux contour maps) together with the library
  calls it makes, followed by the properties of its operations.

  Python objects are mutable and exceptions leave earlier mutations in
  place, so every method is a function from the state (the instance, the
  pyplot figure registry, the written files) to a result and a new state.

  Field values are rationals: the finite floats they stand for, compared
  exactly. What depends on float rounding, on rendered pixels or on the
  file system ([np.linspace], the frame comparison of the GIF writer,
  whether the file can be created) comes from an environment the
  animation methods take as a parameter. *)

From Stdlib Require Import String List Bool Arith Lia ZArith QArith Qminmax Lqa.
From Stdlib Require Import Permutation.
Import ListNotations.
Open Scope string_scope.
Open Scope list_scope.
Open Scope nat_scope.

(** ** Exceptions and the state-and-exception monad *)

Module Py.

Inductive exn : Type :=
| AttributeError | ValueError | TypeError | IndexError | KeyError
| OSError.

Inductive result (A : Type) : Type :=
| Ok (a : A)
| Raise (e : exn).
Arguments Ok {A} a.
Arguments Raise {A} e.

Definition M (S A : Type) : Type := S -> result A * S.

Definition ret {S A} (a : A) : M S A := fun s => (Ok a, s).

Definition bind {S A B} (m : M S A) (k : A -> M S B) : M S B :=
  fun s => match m s with
           | (Ok a, s') => k a s'
           | (Raise e, s') => (Raise e, s')
           end.

Definition raise {S A} (e : exn) : M S A := fun s => (Raise e, s).

Definition lift {S A} (r : result A) : M S A := fun s => (r, s).

Definition get {S} : M S S := fun s => (Ok s, s).

Definition modify {S} (f : S -> S) : M S unit := fun s => (Ok tt, f s).

(** [try: m except e => h]: only exception [e] is handled. *)
Definition try_except {S A} (m : M S A) (e : exn) (h : M S A) : M S A :=
  fun s => match m s with
           | (Raise e', s') =>
               match e, e' with
               | AttributeError, AttributeError => h s'
               | ValueError, ValueError => h s'
               | TypeError, TypeError => h s'
               | IndexError, IndexError => h s'
               | KeyError, KeyError => h s'
               | OSError, OSError => h s'
               | _, _ => (Raise e', s')
               end
           | r => r
           end.

(** [for x in l: f x] *)
Fixpoint for_each {S A} (l : list A) (f : A -> M S unit) : M S unit :=
  match l with
  | [] => ret tt
  | x :: l' => bind (f x) (fun _ => for_each l' f)
  end.

Definition is_ok {A} (r : result A) : bool :=
  match r with Ok _ => true | Raise _ => false end.

End Py.
Export Py.

Declare Scope py_scope.
Delimit Scope py_scope with py.
Notation "x <- m ;; k" := (bind m (fun x => k))
(at level 61, m at next level, right associativity) : py_scope.
Notation "' p <- m ;; k" := (bind m (fun x => let p := x in k))
(at level 61, p pattern, m at next level, right associativity) : py_scope.
Notation "m ;; k" := (bind m (fun _ => k))
(at level 61, right associativity) : py_scope.
Open Scope py_scope.

(** ** numpy: arrays, reductions, [linspace], [reshape] *)

Module Np.

(** An array is its shape and its elements in row-major order. The
    elements are the finite values of a float array, each taken as the
    rational it is; comparing them, and so [min] and [max], involves no
    rounding. *)
Record ndarray : Type := { shape : list nat; data : list Q }.

Definition size (a : ndarray) : nat := length (data a).

(** [a.reshape((r, c))]: the element count must agree, the elements keep
    their row-major order; whatever shape [a] had is forgotten. *)
Definition reshape (a : ndarray) (sh : nat * nat) : result ndarray :=
  if size a =? fst sh * snd sh
  then Ok {| shape := [fst sh; snd sh]; data := data a |}
  else Raise ValueError.

(** Reductions over all elements; numpy raises [ValueError] on a
    zero-size array. *)
Definition reduce (op : Q -> Q -> Q) (l : list Q) : result Q :=
  match l with
  | [] => Raise ValueError
  | x :: t => Ok (fold_left op t x)
  end.

(** A stacked array: the sequence of its sub-arrays along the first
    axis, so that [a[i]] is the [i]-th entry and iteration yields the
    entries in order. *)
Definition stack : Type := list ndarray.

Definition elements (a : stack) : list Q := concat (map data a).

Definition min (a : stack) : result Q := reduce Qmin (elements a).
Definition max (a : stack) : result Q := reduce Qmax (elements a).

(** [a[-1]] *)
Definition last (a : stack) : result ndarray :=
  match rev a with
  | [] => Raise IndexError
  | x :: _ => Ok x
  end.

(** [np.linspace(start, stop, num)] with the default [endpoint=True], in
    exact arithmetic: [arange(num) * step + start] with
    [step = (stop - start) / (num - 1)], the last entry overwritten by
    [stop]. numpy rounds the step and every entry to float64, so this is
    numpy's array only where the rounding does nothing, as with equal end
    points, where the step is 0 and every entry is [start]; with end
    points a few units in the last place apart numpy's entries repeat
    where these do not. The class below therefore takes [linspace] from
    its environment ([Contour.Env]), of which this function is one
    instance. *)
Definition linspace (start stop : Q) (num : nat) : list Q :=
  match num with
  | 0 => []
  | 1 => [start]
  | S div =>
      let step := ((stop - start) / inject_Z (Z.of_nat div))%Q in
      map (fun i => (inject_Z (Z.of_nat i) * step + start)%Q) (seq 0 div)
        ++ [stop]
  end.

End Np.

(** ** xarray: what the class reads off a [DataArray] *)

Module Xr.

(** [values] is the underlying array, [sizes] the mapping from dimension
    name to length, and [major_radius], [z] the outcome of attribute
    access ([None] when the attribute does not resolve). *)
Record DataArray : Type := {
  values : Np.ndarray;
  sizes : list (string * nat);
  major_radius : option (list Q);
  z : option (list Q)
}.

(** [mapping[key]] *)
Fixpoint getitem (m : list (string * nat)) (key : string) : result nat :=
  match m with
  | [] => Raise KeyError
  | (k, v) :: m' => if String.eqb k key then Ok v else getitem m' key
  end.

(** [obj.attr] on a possibly-[None] object. *)
Definition getattr {A} (obj : option DataArray)
    (attr : DataArray -> option A) : result A :=
  match obj with
  | None => Raise AttributeError
  | Some da => match attr da with
               | None => Raise AttributeError
               | Some v => Ok v
               end
  end.

End Xr.

(** ** matplotlib: figures, axes, contour sets, legends, the canvas *)

Module Mpl.

(** The [levels] argument and attribute of a contour set: an int (how many
    levels to choose), an explicit array, or the array the tick locator
    chose for [n] levels over the data range [zmin .. zmax]; the locator's
    arithmetic is not reproduced, its result is kept symbolic. *)
Inductive Levels : Type :=
| LInt (n : nat)
| LArr (l : list Q)
| LAuto (n : nat) (zmin zmax : Q).

(** A legend handle, [Line2D([0], [0], label=label, color=color)]. *)
Record Line2D : Type := { label : string; color : string }.

(** A contour set remembers the axes it was added to ([host], a figure
    number) and is told apart from its equals by [ident]. *)
Record ContourSet : Type := {
  ident : nat;
  host : nat;
  X : list Q;
  Y : list Q;
  Z : Np.ndarray;
  colors : string;
  linestyles : string;
  cs_levels : Levels
}.

Record Axes : Type := {
  aspect : string;
  axis_on : bool;
  collections : list ContourSet;
  legend_ : option (list Line2D)
}.

(** A raster image: its size (the figure size, in inches) and what was
    drawn on it ([None] for a blank canvas). *)
Record Image : Type := { extent : Q * Q; content : option Axes }.

(** [plt.subplots] makes one axes per figure, so a figure number also
    names that axes. *)
Record Figure : Type := {
  number : nat;
  figsize : Q * Q;
  ax : Axes;
  canvas : Image
}.

(** The pyplot registry: the open figures, newest first (the head is the
    current figure), and the number of artists created so far. *)
Record Pyplot : Type := { figures : list Figure; serial : nat }.

Definition new_axes : Axes :=
  {| aspect := "auto"; axis_on := true; collections := []; legend_ := None |}.

(** A new figure becomes the current one. pyplot numbers it one above
    the highest open number; the class never closes a figure, so the open
    figures are taken to be numbered from 1 to their count. *)
Definition new_figure (sz : Q * Q) (p : Pyplot) : nat * Pyplot :=
  let n := S (length (figures p)) in
  (n, {| figures := {| number := n; figsize := sz; ax := new_axes;
                       canvas := {| extent := sz; content := None |} |}
                    :: figures p;
         serial := serial p |}).

Definition find_figure (n : nat) (p : Pyplot) : option Figure :=
  find (fun f => number f =? n) (figures p).

Definition on_figure (n : nat) (g : Figure -> Figure) (p : Pyplot) : Pyplot :=
  {| figures := map (fun f => if number f =? n then g f else f) (figures p);
     serial := serial p |}.

Definition on_axes (n : nat) (g : Axes -> Axes) : Pyplot -> Pyplot :=
  on_figure n (fun f => {| number := number f; figsize := figsize f;
                           ax := g (ax f); canvas := canvas f |}).

(** [plt.subplots(figsize=sz)] *)
Definition subplots (sz : Q * Q) (p : Pyplot) : nat * Pyplot :=
  new_figure sz p.

Definition set_aspect (n : nat) (v : string) : Pyplot -> Pyplot :=
  on_axes n (fun a => {| aspect := v; axis_on := axis_on a;
                         collections := collections a;
                         legend_ := legend_ a |}).

Definition set_axis_off (n : nat) : Pyplot -> Pyplot :=
  on_axes n (fun a => {| aspect := aspect a; axis_on := false;
                         collections := collections a;
                         legend_ := legend_ a |}).

Definition Qltb (a b : Q) : bool := negb (Qle_bool b a).

Fixpoint increasing (l : list Q) : bool :=
  match l with
  | a :: ((b :: _) as t) => Qltb a b && increasing t
  | _ => true
  end.

(** The grid check of [contour(x, y, z)] with 1-D [x], [y]: [z] is 2-D and
    at least 2 by 2, [x] is as long as [z] has columns and [y] as long as
    it has rows; anything else is a [TypeError]. *)
Definition check_xyz (x y : list Q) (z : Np.ndarray) : result unit :=
  match Np.shape z with
  | [ny; nx] =>
      if (ny <? 2) || (nx <? 2) then Raise TypeError
      else if negb (length x =? nx) then Raise TypeError
      else if negb (length y =? ny) then Raise TypeError
      else Ok tt
  | _ => Raise TypeError
  end.

Definition zrange (z : Np.ndarray) : Q * Q :=
  match Np.data z with
  | [] => (0%Q, 0%Q)
  | v :: t => (fold_left Qmin t v, fold_left Qmax t v)
  end.

(** The level processing of line contours: an int asks the locator, an
    array is taken as it is and must be increasing when it has more than
    one entry ([ValueError] otherwise). *)
Definition process_levels (lv : Levels) (z : Np.ndarray) : result Levels :=
  match lv with
  | LInt n => Ok (LAuto n (fst (zrange z)) (snd (zrange z)))
  | LArr l =>
      if (1 <? length l) && negb (increasing l) then Raise ValueError
      else Ok (LArr l)
  | LAuto n lo hi => Ok (LAuto n lo hi)
  end.

(** [axes.contour(x, y, z, colors=.., linestyles=.., levels=..)] on the
    axes of figure [n]: the new contour set is appended to the axes'
    collections. *)
Definition contour (n : nat) (x y : list Q) (z : Np.ndarray)
    (cl ls : string) (lv : Levels) (p : Pyplot) : result ContourSet * Pyplot :=
  match check_xyz x y z with
  | Raise e => (Raise e, p)
  | Ok _ =>
      match process_levels lv z with
      | Raise e => (Raise e, p)
      | Ok lv' =>
          let cs := {| ident := serial p; host := n; X := x; Y := y; Z := z;
                       colors := cl; linestyles := ls; cs_levels := lv' |} in
          let p' := on_axes n (fun a =>
                      {| aspect := aspect a; axis_on := axis_on a;
                         collections := collections a ++ [cs];
                         legend_ := legend_ a |}) p in
          (Ok cs, {| figures := figures p'; serial := S (serial p) |})
      end
  end.

Definition drawn_on (cs : ContourSet) (p : Pyplot) : bool :=
  match find_figure (host cs) p with
  | Some f => existsb (fun c => ident c =? ident cs) (collections (ax f))
  | None => false
  end.

(** [artist.remove()]: takes the artist off its axes; for an artist that
    is on no axes any more the removal from the axes' list of artists
    raises [ValueError]. *)
Definition remove (cs : ContourSet) (p : Pyplot) : result unit * Pyplot :=
  if drawn_on cs p then
    (Ok tt, on_axes (host cs) (fun a =>
              {| aspect := aspect a; axis_on := axis_on a;
                 collections :=
                   filter (fun c => negb (ident c =? ident cs)) (collections a);
                 legend_ := legend_ a |}) p)
  else (Raise ValueError, p).

(** [plt.gca()]: the axes of the current figure, a new default figure
    when none is open. *)
Definition gca (p : Pyplot) : nat * Pyplot :=
  match figures p with
  | f :: _ => (number f, p)
  | [] => new_figure (32 # 5, 24 # 5)%Q p
  end.

(** [plt.legend(handles=hs, ...)]: replaces the legend of the current
    axes. *)
Definition legend (hs : list Line2D) (p : Pyplot) : Pyplot :=
  let '(n, p') := gca p in
  on_axes n (fun a => {| aspect := aspect a; axis_on := axis_on a;
                         collections := collections a;
                         legend_ := Some hs |}) p'.

(** [fig.canvas.draw()]: renders the figure as it is now. *)
Definition draw (n : nat) : Pyplot -> Pyplot :=
  on_figure n (fun f => {| number := number f; figsize := figsize f;
                           ax := ax f;
                           canvas := {| extent := figsize f;
                                        content := Some (ax f) |} |}).

(** [fig.canvas.buffer_rgba()]: the last rendering of the figure (a
    figure number handed out by the registry always resolves). *)
Definition buffer_rgba (n : nat) (p : Pyplot) : result Image :=
  match find_figure n p with
  | Some f => Ok (canvas f)
  | None => Raise AttributeError
  end.

(** Two rasters show the same picture: the same size and, contour set by
    contour set, the same grid, values, colour, line style and levels,
    under the same legend. *)
Definition same_values (a b : list Q) : bool :=
  (length a =? length b)
  && forallb (fun p => Qeq_bool (fst p) (snd p)) (combine a b).

Definition same_levels (a b : Levels) : bool :=
  match a, b with
  | LInt n, LInt m => n =? m
  | LArr l, LArr k => same_values l k
  | LAuto n lo hi, LAuto m lo' hi' =>
      (n =? m) && Qeq_bool lo lo' && Qeq_bool hi hi'
  | _, _ => false
  end.

Definition same_contours (a b : ContourSet) : bool :=
  same_values (X a) (X b) && same_values (Y a) (Y b)
  && same_values (Np.data (Z a)) (Np.data (Z b))
  && String.eqb (colors a) (colors b)
  && String.eqb (linestyles a) (linestyles b)
  && same_levels (cs_levels a) (cs_levels b).

Definition same_handles (a b : Line2D) : bool :=
  String.eqb (label a) (label b) && String.eqb (color a) (color b).

Definition same_axes (a b : Axes) : bool :=
  String.eqb (aspect a) (aspect b) && Bool.eqb (axis_on a) (axis_on b)
  && (length (collections a) =? length (collections b))
  && forallb (fun p => same_contours (fst p) (snd p))
             (combine (collections a) (collections b))
  && match legend_ a, legend_ b with
     | Some h, Some k =>
         (length h =? length k)
         && forallb (fun p => same_handles (fst p) (snd p)) (combine h k)
     | None, None => true
     | _, _ => false
     end.

Definition same_picture (a b : Image) : bool :=
  Qeq_bool (fst (extent a)) (fst (extent b))
  && Qeq_bool (snd (extent a)) (snd (extent b))
  && match content a, content b with
     | Some x, Some y => same_axes x y
     | None, None => true
     | _, _ => false
     end.

End Mpl.

(** ** Pillow: writing an animated GIF *)

Module Pil.

(** A written GIF: its frames, each with the time it is shown in
    milliseconds, and the loop count (0 loops forever). *)
Record Gif : Type := {
  frames : list (Mpl.Image * nat);
  loop : nat
}.

Definition Disk : Type := list (string * Gif).

(** The GIF writer compares every image with the frame before it: an
    image with the same pixels is not written, its duration [d] is added
    to that frame's. [same] tells whether two images have the same
    pixels. *)
Fixpoint merge (same : Mpl.Image -> Mpl.Image -> bool) (d : nat)
    (prev : Mpl.Image * nat) (l : list Mpl.Image) : list (Mpl.Image * nat) :=
  match l with
  | [] => [prev]
  | x :: l' =>
      if same (fst prev) x then merge same d (fst prev, snd prev + d) l'
      else prev :: merge same d (x, d) l'
  end.

(** [im.save(path, save_all=True, append_images=more, duration=d, loop=n)]:
    the sequence encoded is the image itself followed by [more]; the file
    replaces what was at [path]. When the file cannot be created (a
    missing directory, no permission) the call raises [OSError] and
    nothing is written. *)
Definition save (same : Mpl.Image -> Mpl.Image -> bool) (can_write : bool)
    (im : Mpl.Image) (path : string) (more : list Mpl.Image)
    (d n : nat) (fs : Disk) : result Disk :=
  if can_write
  then Ok ((path, {| frames := merge same d (im, d) more; loop := n |}) :: fs)
  else Raise OSError.

Fixpoint read (path : string) (fs : Disk) : option Gif :=
  match fs with
  | [] => None
  | (p, g) :: fs' => if String.eqb p path then Some g else read path fs'
  end.

End Pil.

(** ** The [Contour] dataclass *)

Module Contour.

(** The instance: the three dataclass fields, the [fig] attribute the
    [axes] property sets, and the instance-dictionary entries of the two
    cached properties ([None] while not yet computed, or deleted). A
    figure number stands for the reference to its axes. *)
Record t : Type := {
  magnetic_flux : option Xr.DataArray;
  levels : Mpl.Levels;
  _handles : list Mpl.Line2D;
  fig : option nat;
  axes : option nat;
  shape : option (nat * nat)
}.

(** [Contour(magnetic_flux, levels)]; the defaults are [None] and [31]. *)
Definition init (mf : option Xr.DataArray) (lv : Mpl.Levels) : t :=
  {| magnetic_flux := mf; levels := lv; _handles := [];
     fig := None; axes := None; shape := None |}.

Definition default : t := init None (Mpl.LInt 31).

(** The instance, the pyplot registry it draws through and the files
    written so far. *)
Record State : Type := { self : t; plt : Mpl.Pyplot; disk : Pil.Disk }.

Definition set_self (f : t -> t) : M State unit :=
  modify (fun s => {| self := f (self s); plt := plt s; disk := disk s |}).

Definition pyplot {A} (f : Mpl.Pyplot -> result A * Mpl.Pyplot) : M State A :=
  fun s => let '(r, p) := f (plt s) in
           (r, {| self := self s; plt := p; disk := disk s |}).

Definition pyplot_ (f : Mpl.Pyplot -> Mpl.Pyplot) : M State unit :=
  pyplot (fun p => (Ok tt, f p)).

Definition set_magnetic_flux (v : option Xr.DataArray) : M State unit :=
  set_self (fun c => {| magnetic_flux := v; levels := levels c;
                        _handles := _handles c; fig := fig c;
                        axes := axes c; shape := shape c |}).

Definition set_levels (v : Mpl.Levels) : M State unit :=
  set_self (fun c => {| magnetic_flux := magnetic_flux c; levels := v;
                        _handles := _handles c; fig := fig c;
                        axes := axes c; shape := shape c |}).

Definition set_handles (v : list Mpl.Line2D) : M State unit :=
  set_self (fun c => {| magnetic_flux := magnetic_flux c; levels := levels c;
                        _handles := v; fig := fig c;
                        axes := axes c; shape := shape c |}).

Definition set_fig (v : option nat) : M State unit :=
  set_self (fun c => {| magnetic_flux := magnetic_flux c; levels := levels c;
                        _handles := _handles c; fig := v;
                        axes := axes c; shape := shape c |}).

Definition set_axes (v : option nat) : M State unit :=
  set_self (fun c => {| magnetic_flux := magnetic_flux c; levels := levels c;
                        _handles := _handles c; fig := fig c;
                        axes := v; shape := shape c |}).

Definition set_shape (v : option (nat * nat)) : M State unit :=
  set_self (fun c => {| magnetic_flux := magnetic_flux c; levels := levels c;
                        _handles := _handles c; fig := fig c;
                        axes := axes c; shape := v |}).

Definition the {A} (f : t -> A) : M State A := fun s => (Ok (f (self s)), s).

(** [self.axes], a cached property: computed on the first access (a new
    figure, equal aspect, axis off) and kept in the instance. *)
Definition get_axes : M State nat :=
  cached <- the axes ;;
  match cached with
  | Some n => ret n
  | None =>
      n <- pyplot (fun p => let '(n, p') := Mpl.subplots (3, 9 # 2)%Q p in
                            (Ok n, p')) ;;
      set_fig (Some n) ;;
      pyplot_ (Mpl.set_aspect n "equal") ;;
      pyplot_ (Mpl.set_axis_off n) ;;
      set_axes (Some n) ;;
      ret n
  end.

(** [del self.axes]: drops the cached entry; there must be one. *)
Definition del_axes : M State unit :=
  cached <- the axes ;;
  match cached with
  | Some _ => set_axes None
  | None => raise AttributeError
  end.

(** [self.shape], a cached property:
    [(magnetic_flux.sizes["z"], magnetic_flux.sizes["major_radius"])]. *)
Definition get_shape : M State (nat * nat) :=
  cached <- the shape ;;
  match cached with
  | Some sh => ret sh
  | None =>
      mf <- the magnetic_flux ;;
      match mf with
      | None => raise AttributeError
      | Some da =>
          nz <- lift (Xr.getitem (Xr.sizes da) "z") ;;
          nr <- lift (Xr.getitem (Xr.sizes da) "major_radius") ;;
          set_shape (Some (nz, nr)) ;;
          ret (nz, nr)
      end
  end.

(** The [data] argument of [plot]. *)
Inductive Data : Type :=
| DataArray (da : Xr.DataArray)
| Ndarray (a : Np.ndarray)
| NoData.

(** The keyword arguments of [plot] that the class itself defaults. *)
Record Kwargs : Type := {
  kw_colors : option string;
  kw_linestyles : option string;
  kw_levels : option Mpl.Levels
}.

Definition no_kwargs : Kwargs :=
  {| kw_colors := None; kw_linestyles := None; kw_levels := None |}.

Definition colors_ (c : string) : Kwargs :=
  {| kw_colors := Some c; kw_linestyles := None; kw_levels := None |}.

Definition or_else {A} (o : option A) (d : A) : A :=
  match o with Some v => v | None => d end.

(** Truth value of a label: [None] and the empty string are false. *)
Definition truthy (label : option string) : bool :=
  match label with
  | None => false
  | Some s => negb (String.eqb s "")
  end.

(** [plot(data, label, **kwargs)] *)
Definition plot (data : Data) (label : option string) (kwargs : Kwargs)
  : M State Mpl.ContourSet :=
  data <- match data with
          | DataArray da =>
              set_magnetic_flux (Some da) ;; ret (Some (Xr.values da))
          | Ndarray a => ret (Some a)
          | NoData => ret None
          end ;;
  lv <- the levels ;;
  let cl := or_else (kw_colors kwargs) "gray" in
  let ls := or_else (kw_linestyles kwargs) "-" in
  let lv := or_else (kw_levels kwargs) lv in
  contour <- try_except
    (n <- get_axes ;;
     mf <- the magnetic_flux ;;
     x <- lift (Xr.getattr mf Xr.major_radius) ;;
     y <- lift (Xr.getattr mf Xr.z) ;;
     a <- lift (match data with
                | Some a => Ok a
                | None => Raise AttributeError
                end) ;;
     sh <- get_shape ;;
     zz <- lift (Np.reshape a sh) ;;
     pyplot (Mpl.contour n x y zz cl ls lv))
    AttributeError
    (raise AttributeError) ;;
  set_levels (Mpl.cs_levels contour) ;;
  (if truthy label
   then hs <- the _handles ;;
        set_handles (hs ++ [{| Mpl.label := or_else label "";
                               Mpl.color := cl |}])
   else ret tt) ;;
  ret contour.

(** [legend()] *)
Definition legend : M State unit :=
  hs <- the _handles ;;
  pyplot_ (Mpl.legend hs) ;;
  set_handles [].

(** [self(efit, prediction)] *)
Definition __call__ (efit prediction : Data) : M State (list Mpl.ContourSet) :=
  a <- plot efit (Some "EFIT++") (colors_ "gray") ;;
  b <- plot prediction (Some "Prediction") (colors_ "C0") ;;
  ret [a; b].

(** *** The generator [_next_image]

    Calling it runs nothing; the body runs piecewise, one [next] at a
    time: up to the first [yield], then from one [yield] to the next. *)

Inductive Generator : Type :=
| Created (efit prediction : Np.stack)
| Suspended (contours : list Mpl.ContourSet)
            (rest : list (Np.ndarray * Np.ndarray))
| Finished.

Definition _next_image (efit prediction : Np.stack) : Generator :=
  Created efit prediction.

(** *** What the class takes from its surroundings

    Three things the methods below use are decided outside the class:
    the array [np.linspace] returns, which numpy computes in float64;
    whether two rendered frames have the same pixels, which the GIF
    writer tests; and whether the file can be created at the path.
    The methods take them from an environment. *)
Record Env : Type := {
  linspace : Q -> Q -> nat -> list Q;
  same_pixels : Mpl.Image -> Mpl.Image -> bool;
  writable : string -> bool
}.

(** The environment of exact arithmetic, in which frames have the same
    pixels just when they show the same picture and every path can be
    written. *)
Definition ideal : Env :=
  {| linspace := Np.linspace; same_pixels := Mpl.same_picture;
     writable := fun _ => true |}.

(** The statements before the [for] loop. *)
Definition prelude_in (E : Env) (efit prediction : Np.stack)
  : M State (list Mpl.ContourSet) :=
  del_axes ;;
  set_handles [] ;;
  lo <- lift (Np.min efit) ;;
  hi <- lift (Np.max efit) ;;
  set_levels (Mpl.LArr (linspace E lo hi 51)) ;;
  e <- lift (Np.last efit) ;;
  p <- lift (Np.last prediction) ;;
  contours <- __call__ (Ndarray e) (Ndarray p) ;;
  legend ;;
  ret contours.

(** The same in the ideal environment. *)
Definition prelude : Np.stack -> Np.stack -> M State (list Mpl.ContourSet) :=
  prelude_in ideal.

(** One pass through the loop body, up to the value it yields. *)
Definition body (contours : list Mpl.ContourSet) (e p : Np.ndarray)
  : M State (Mpl.Image * list Mpl.ContourSet) :=
  for_each contours (fun c => pyplot (Mpl.remove c)) ;;
  contours <- __call__ (Ndarray e) (Ndarray p) ;;
  f <- the fig ;;
  match f with
  | None => raise AttributeError
  | Some n =>
      pyplot_ (Mpl.draw n) ;;
      img <- pyplot (fun p => (Mpl.buffer_rgba n p, p)) ;;
      ret (img, contours)
  end.

Definition resume (contours : list Mpl.ContourSet)
    (rest : list (Np.ndarray * Np.ndarray))
  : M State (option Mpl.Image * Generator) :=
  match rest with
  | [] => ret (None, Finished)
  | (e, p) :: rest' =>
      r <- body contours e p ;;
      ret (Some (fst r), Suspended (snd r) rest')
  end.

(** [next(gen)]: [Some] image for a [yield], [None] for [StopIteration];
    [zip] stops with the shorter of its arguments. *)
Definition next_in (E : Env) (g : Generator)
  : M State (option Mpl.Image * Generator) :=
  match g with
  | Created efit prediction =>
      contours <- prelude_in E efit prediction ;;
      resume contours (combine efit prediction)
  | Suspended contours rest => resume contours rest
  | Finished => ret (None, Finished)
  end.

(** [next(gen)] in the ideal environment. *)
Definition next : Generator -> M State (option Mpl.Image * Generator) :=
  next_in ideal.

(** The loop run to its end, all yielded images in order. *)
Fixpoint sweep (contours : list Mpl.ContourSet)
    (rest : list (Np.ndarray * Np.ndarray)) : M State (list Mpl.Image) :=
  match rest with
  | [] => ret []
  | (e, p) :: rest' =>
      r <- body contours e p ;;
      imgs <- sweep (snd r) rest' ;;
      ret (fst r :: imgs)
  end.

(** [[image for image in gen]] *)
Definition images_in (E : Env) (g : Generator) : M State (list Mpl.Image) :=
  match g with
  | Created efit prediction =>
      contours <- prelude_in E efit prediction ;;
      sweep contours (combine efit prediction)
  | Suspended contours rest => sweep contours rest
  | Finished => ret []
  end.

(** The list comprehension in the ideal environment. *)
Definition images : Generator -> M State (list Mpl.Image) := images_in ideal.

Definition gif_name : string := "equilibrium_animation.gif".

(** [to_gif(efit, prediction)]: [imgs[0].save(..., append_images=imgs,
    duration=100, loop=0)]. *)
Definition to_gif_in (E : Env) (efit prediction : Np.stack) : M State unit :=
  imgs <- images_in E (_next_image efit prediction) ;;
  match imgs with
  | [] => raise IndexError
  | im0 :: _ =>
      fun s =>
        match Pil.save (same_pixels E) (writable E gif_name) im0 gif_name
                       imgs 100 0 (disk s) with
        | Ok fs => (Ok tt, {| self := self s; plt := plt s; disk := fs |})
        | Raise e => (Raise e, s)
        end
  end.

(** [to_gif] in the ideal environment. *)
Definition to_gif : Np.stack -> Np.stack -> M State unit := to_gif_in ideal.

End Contour.

(** ** Vocabulary of the properties *)

Import Contour.

(** The contour set [axes.contour] makes for array [a] on the grid
    [xs], [ys] of shape [sh]. *)
Definition grid_contour (k n : nat) (xs ys : list Q) (sh : nat * nat)
    (a : Np.ndarray) (cl : string) (lv : Mpl.Levels) : Mpl.ContourSet :=
  {| Mpl.ident := k; Mpl.host := n; Mpl.X := xs; Mpl.Y := ys;
     Mpl.Z := {| Np.shape := [fst sh; snd sh]; Np.data := Np.data a |};
     Mpl.colors := cl; Mpl.linestyles := "-"; Mpl.cs_levels := lv |}.

Definition piece (xs ys : list Q) (r c : nat) (l : list Q) (n k : nat)
    (a : Np.ndarray) (cl : string) : Mpl.ContourSet :=
  grid_contour k n xs ys (r, c) a cl (Mpl.LArr l).

(** An instance in the middle of an animation: flux field [da] bound,
    levels fixed to the array [l], figure [n] live, shape cached. *)
Definition inst (da : Xr.DataArray) (r c : nat) (l : list Q) (n : nat)
    (h : list Mpl.Line2D) : t :=
  {| magnetic_flux := Some da; levels := Mpl.LArr l; _handles := h;
     fig := Some n; axes := Some n; shape := Some (r, c) |}.

(** The axes the [axes] property sets up, showing [cs] under legend [lg]. *)
Definition sheet (lg : option (list Mpl.Line2D)) (cs : list Mpl.ContourSet)
  : Mpl.Axes :=
  {| Mpl.aspect := "equal"; Mpl.axis_on := false; Mpl.collections := cs;
     Mpl.legend_ := lg |}.

(** A state whose current figure is the instance's own. *)
Definition st (da : Xr.DataArray) (r c : nat) (l : list Q) (n : nat)
    (lg : option (list Mpl.Line2D)) (h : list Mpl.Line2D)
    (cs : list Mpl.ContourSet) (cv : Mpl.Image) (rest : list Mpl.Figure)
    (k : nat) (d : Pil.Disk) : State :=
  {| self := inst da r c l n h;
     plt := {| Mpl.figures :=
                 {| Mpl.number := n; Mpl.figsize := (3, 9 # 2)%Q;
                    Mpl.ax := sheet lg cs; Mpl.canvas := cv |} :: rest;
               Mpl.serial := k |};
     disk := d |}.

Definition frame (lg : option (list Mpl.Line2D)) (cs : list Mpl.ContourSet)
  : Mpl.Image :=
  {| Mpl.extent := (3, 9 # 2)%Q; Mpl.content := Some (sheet lg cs) |}.

Definition blank : Mpl.Image :=
  {| Mpl.extent := (3, 9 # 2)%Q; Mpl.content := None |}.

(** The two legend handles one comparison plot leaves behind. *)
Definition key : list Mpl.Line2D :=
  [{| Mpl.label := "EFIT++"; Mpl.color := "gray" |};
   {| Mpl.label := "Prediction"; Mpl.color := "C0" |}].

(** The frames of a sweep: one per pair, each showing the two contour
    sets drawn for that pair and nothing else. *)
Fixpoint reel (xs ys : list Q) (r c : nat) (l : list Q) (n : nat)
    (lg : option (list Mpl.Line2D)) (k : nat)
    (pairs : list (Np.ndarray * Np.ndarray)) : list Mpl.Image :=
  match pairs with
  | [] => []
  | (e, p) :: t =>
      frame lg [piece xs ys r c l n k e "gray";
                piece xs ys r c l n (S k) p "C0"]
      :: reel xs ys r c l n lg (S (S k)) t
  end.

(** The animator is bound to an [r] by [c] grid: its drawing surface is
    live, the shape is cached, and the bound flux field carries both
    coordinates, of matching lengths. *)
Definition bound (r c : nat) (s : State) : bool :=
  match axes (self s), shape (self s), magnetic_flux (self s) with
  | Some _, Some (nz, nr), Some da =>
      match Xr.major_radius da, Xr.z da with
      | Some xs, Some ys =>
          (nz =? r) && (nr =? c) && (length xs =? c) && (length ys =? r)
          && (2 <=? r) && (2 <=? c)
      | _, _ => false
      end
  | _, _, _ => false
  end.

(** Every field of the sequence has as many elements as the grid. *)
Definition on_grid (r c : nat) (a : Np.stack) : bool :=
  forallb (fun x => Np.size x =? r * c) a.

(** The sequence has a global minimum strictly below its global maximum
    (which makes the levels increase in exact arithmetic, see
    [spread_levelled], but not always in float64). *)
Definition spread (a : Np.stack) : bool :=
  match Np.min a, Np.max a with
  | Ok lo, Ok hi => Mpl.Qltb lo hi
  | _, _ => false
  end.


(** What a list of contour sets shows: colour and values of each. *)
Definition shown (cs : list Mpl.ContourSet) : list (string * list Q) :=
  map (fun x => (Mpl.colors x, Np.data (Mpl.Z x))) cs.

(** What an image shows. *)
Definition drawn (img : Mpl.Image) : list (string * list Q) :=
  match Mpl.content img with
  | Some a => shown (Mpl.collections a)
  | None => []
  end.

(** What a comparison of ground truth [e] and prediction [p] shows. *)
Definition comparison (ep : Np.ndarray * Np.ndarray) : list (string * list Q) :=
  [("gray", Np.data (fst ep)); ("C0", Np.data (snd ep))].

(** The axes of the current figure. *)
Definition current_axes (p : Mpl.Pyplot) : option Mpl.Axes :=
  match Mpl.figures p with
  | f :: _ => Some (Mpl.ax f)
  | [] => None
  end.


Definition legend_drawn (img : Mpl.Image) : option (list Mpl.Line2D) :=
  match Mpl.content img with
  | Some a => Mpl.legend_ a
  | None => None
  end.

(** The flux field [plot] works with: the argument when it is a
    [DataArray], the one already bound otherwise. *)
Definition flux_after (data : Data) (s : State) : option Xr.DataArray :=
  match data with
  | DataArray da => Some da
  | _ => magnetic_flux (self s)
  end.

Definition has_grid (mf : option Xr.DataArray) : bool :=
  match mf with
  | Some da =>
      match Xr.major_radius da, Xr.z da with
      | Some _, Some _ => true
      | _, _ => false
      end
  | None => false
  end.

(** The array [plot] reshapes. *)
Definition payload (data : Data) : option Np.ndarray :=
  match data with
  | DataArray da => Some (Xr.values da)
  | Ndarray a => Some a
  | NoData => None
  end.

(** Levels the contour call accepts: anything but an array of several
    entries that is not increasing. *)
Definition levels_ok (lv : Mpl.Levels) : bool :=
  match lv with
  | Mpl.LArr l => (length l <=? 1) || Mpl.increasing l
  | _ => true
  end.

(** The legend of the current axes. *)
Definition current_legend (p : Mpl.Pyplot) : option (list Mpl.Line2D) :=
  match Mpl.figures p with
  | f :: _ => Mpl.legend_ (Mpl.ax f)
  | [] => None
  end.

(** A computation never changes a cached shape. *)
Definition keeps_shape {A} (m : M State A) : Prop :=
  forall s sh, shape (self s) = Some sh -> shape (self (snd (m s))) = Some sh.

Definition frames_of (r : result (list Mpl.Image)) : list Mpl.Image :=
  match r with Ok l => l | Raise _ => [] end.

(** The 51 levels the animation asks [linspace] for, from the least to
    the greatest value of the ground truth, come out strictly increasing. *)
Definition levelled (E : Env) (a : Np.stack) : bool :=
  match Np.min a, Np.max a with
  | Ok lo, Ok hi => Mpl.increasing (linspace E lo hi 51)
  | _, _ => false
  end.


(** An image has the same pixels as itself. *)
Definition same_as_itself (same : Mpl.Image -> Mpl.Image -> bool) : Prop :=
  forall x, same x x = true.

(** No image of the sequence has the same pixels as the one before it. *)
Fixpoint changing (same : Mpl.Image -> Mpl.Image -> bool)
    (l : list Mpl.Image) : bool :=
  match l with
  | a :: ((b :: _) as t) => negb (same a b) && changing same t
  | _ => true
  end.

(** The time a written GIF takes to play once, in milliseconds. *)
Definition playing_time (g : Pil.Gif) : nat :=
  fold_right (fun f t => snd f + t) 0 (Pil.frames g).

(** The frames the loop hands out before it ends or raises. *)
Fixpoint reap (contours : list Mpl.ContourSet)
    (rest : list (Np.ndarray * Np.ndarray)) (s : State) : list Mpl.Image :=
  match rest with
  | [] => []
  | (e, p) :: rest' =>
      match body contours e p s with
      | (Ok r, s') => fst r :: reap (snd r) rest' s'
      | (Raise _, _) => []
      end
  end.

(** The frames a consumer of the generator obtains, [next] after [next],
    before the generator ends or raises. *)
Definition yielded_in (E : Env) (g : Generator) (s : State) : list Mpl.Image :=
  match g with
  | Created efit prediction =>
      match prelude_in E efit prediction s with
      | (Ok contours, s') => reap contours (combine efit prediction) s'
      | (Raise _, _) => []
      end
  | Suspended contours rest => reap contours rest s
  | Finished => []
  end.

(** The shape the [shape] property computes from a flux field, when the
    field has both dimensions. *)
Definition sized (mf : option Xr.DataArray) : option (nat * nat) :=
  match mf with
  | Some da =>
      match Xr.getitem (Xr.sizes da) "z",
            Xr.getitem (Xr.sizes da) "major_radius" with
      | Ok nz, Ok nr => Some (nz, nr)
      | _, _ => None
      end
  | None => None
  end.

(** [plot] gets as far as reading [self.shape]: the flux field it works
    with has both coordinates and there is data to reshape. *)
Definition reads_shape (data : Data) (s : State) : bool :=
  has_grid (flux_after data s)
  && match payload data with Some _ => true | None => false end.

(** The figure [n] is the current one and every contour set on its axes
    carries the levels [lv]. *)
Definition heads (n : nat) (lv : Mpl.Levels) (p : Mpl.Pyplot) : Prop :=
  exists f rest,
    Mpl.figures p = f :: rest /\ Mpl.number f = n
    /\ Forall (fun x => Mpl.cs_levels x = lv) (Mpl.collections (Mpl.ax f)).


(** *** Sample data *)

Definition ints (l : list Z) : list Q := map inject_Z l.

Definition flat_array (l : list Z) : Np.ndarray :=
  {| Np.shape := [length l]; Np.data := ints l |}.

Definition constant (v : Z) (nz nr : nat) : Np.ndarray :=
  {| Np.shape := [nz; nr]; Np.data := repeat (inject_Z v) (nz * nr) |}.

(** A flux field over three time points on a grid of 2 rows by 3 columns. *)
Definition psi : Xr.DataArray :=
  {| Xr.values := {| Np.shape := [3; 2; 3];
                     Np.data := ints [0; 1; 2; 3; 4; 5; 1; 2; 3; 4; 5; 6;
                                      2; 3; 4; 5; 6; 7]%Z |};
     Xr.sizes := [("time", 3); ("z", 2); ("major_radius", 3)];
     Xr.major_radius := Some (ints [1; 2; 3]%Z);
     Xr.z := Some (ints [-1; 1]%Z) |}.

(** One time slice on a grid of 8 rows by 6 columns. *)
Definition psi86 : Xr.DataArray :=
  {| Xr.values := {| Np.shape := [8; 6];
                     Np.data := map (fun i => inject_Z (Z.of_nat i)) (seq 0 48) |};
     Xr.sizes := [("z", 8); ("major_radius", 6)];
     Xr.major_radius := Some (ints [1; 2; 3; 4; 5; 6]%Z);
     Xr.z := Some (ints [-4; -3; -2; -1; 1; 2; 3; 4]%Z) |}.

Definition no_figures : Mpl.Pyplot := {| Mpl.figures := []; Mpl.serial := 0 |}.

(** [Contour(psi)], nothing drawn yet. *)
Definition created (da : Xr.DataArray) : State :=
  {| self := init (Some da) (Mpl.LInt 31); plt := no_figures; disk := [] |}.

(** [contour = Contour(psi); contour(y_test[i], y_pred[i])], the way the
    notebook uses the class before it animates. *)
Definition compared : State :=
  snd (__call__ (Ndarray (flat_array [0; 1; 2; 3; 4; 5]%Z))
                (Ndarray (flat_array [0; 1; 2; 3; 5; 5]%Z)) (created psi)).

Definition compared86 : State :=
  snd (plot (DataArray psi86) None no_kwargs (created psi86)).

Definition efit2 : Np.stack :=
  [flat_array [0; 1; 2; 3; 4; 5]%Z; flat_array [1; 2; 3; 4; 5; 6]%Z].

Definition prediction2 : Np.stack :=
  [flat_array [0; 1; 2; 3; 5; 5]%Z; flat_array [1; 2; 3; 4; 6; 6]%Z].

Definition prediction3 : Np.stack :=
  prediction2 ++ [flat_array [2; 3; 4; 5; 6; 8]%Z].

(** A ramp field on the 8 by 6 grid, shifted by [v]. *)
Definition ramp86 (v : Z) : Np.ndarray :=
  {| Np.shape := [48];
     Np.data := map (fun i => inject_Z (v + Z.of_nat i)) (seq 0 48) |}.

(** Ten distinct ramps on the 8 by 6 grid. *)
Definition ramps86 (v : Z) : Np.stack :=
  map (fun i => ramp86 (v + Z.of_nat i)) (seq 0 10).

(** Six values laid out as 3 rows by 2 columns. *)
Definition tall : Np.ndarray :=
  {| Np.shape := [3; 2]; Np.data := ints [0; 1; 2; 3; 4; 5]%Z |}.

(** A flux field of 3 rows by 2 columns, carrying its coordinates. *)
Definition psi32 : Xr.DataArray :=
  {| Xr.values := tall;
     Xr.sizes := [("z", 3); ("major_radius", 2)];
     Xr.major_radius := Some (ints [1; 2]%Z);
     Xr.z := Some (ints [-1; 0; 1]%Z) |}.

(** The first time slice of [psi]. *)
Definition psi0 : Xr.DataArray :=
  {| Xr.values := {| Np.shape := [2; 3];
                     Np.data := ints [0; 1; 2; 3; 4; 5]%Z |};
     Xr.sizes := [("z", 2); ("major_radius", 3)];
     Xr.major_radius := Some (ints [1; 2; 3]%Z);
     Xr.z := Some (ints [-1; 1]%Z) |}.

(** [Contour()], no flux field bound. *)
Definition unbound : State :=
  {| self := default; plt := no_figures; disk := [] |}.

(** An environment whose [linspace] rounds every entry to the nearer end
    point, as float64 does for end points two units in the last place
    apart. *)
Definition collapsing : Env :=
  {| linspace := fun a b n => repeat a (n - n / 2) ++ repeat b (n / 2);
     same_pixels := Mpl.same_picture;
     writable := fun _ => true |}.

(** The ideal environment on a file system where nothing can be created. *)
Definition readonly : Env :=
  {| linspace := Np.linspace; same_pixels := Mpl.same_picture;
     writable := fun _ => false |}.

(** ** The notebook around the class *)

Module Notebook.

(** [a.reshape((t, -1))]: [t] rows whose common length is inferred from
    the element count, which [t] must divide. *)
Definition reshape_rows (a : Np.ndarray) (t : nat) : result Np.ndarray :=
  if (t =? 0) || negb (Np.size a mod t =? 0) then Raise ValueError
  else Ok {| Np.shape := [t; Np.size a / t]; Np.data := Np.data a |}.

(** [n] consecutive runs of [m] elements. *)
Fixpoint chunks (m n : nat) (l : list Q) : list (list Q) :=
  match n with
  | 0 => []
  | S n' => firstn m l :: chunks m n' (skipn m l)
  end.

(** The sub-arrays [a[0]], [a[1]], ... of an array along its first axis;
    a 0-d array has none to iterate over. *)
Definition unstack (a : Np.ndarray) : result Np.stack :=
  match Np.shape a with
  | [] => Raise TypeError
  | t :: rest =>
      Ok (map (fun d => {| Np.shape := rest; Np.data := d |})
              (chunks (fold_right Nat.mul 1 rest) t (Np.data a)))
  end.

(** [a[i]] for a non-negative [i]. *)
Definition item (a : Np.stack) (i : nat) : result Np.ndarray :=
  match nth_error a i with
  | Some x => Ok x
  | None => Raise IndexError
  end.

(** [a[mask]] with a boolean mask over the first axis. *)
Definition select (mask : list bool) (a : Np.stack) : result Np.stack :=
  if length mask =? length a
  then Ok (map snd (filter fst (combine mask a)))
  else Raise IndexError.

(** [y = train.psi.data.reshape((train.sizes["time"], -1))], as the
    sequence of its rows; the dataset's time size is read off [psi], whose
    time dimension it is. *)
Definition targets (psi : Xr.DataArray) : result Np.stack :=
  match Xr.getitem (Xr.sizes psi) "time" with
  | Raise e => Raise e
  | Ok t =>
      match reshape_rows (Xr.values psi) t with
      | Raise e => Raise e
      | Ok y => unstack y
      end
  end.

(** [index = train.shot_index.values == 3] and
    [y_train, y_test = y[~index], y[index]]. *)
Definition split (shot_index : list Z) (y : Np.stack)
  : result (Np.stack * Np.stack) :=
  let index := map (fun v => Z.eqb v 3) shot_index in
  match select (map negb index) y with
  | Raise e => Raise e
  | Ok y_train =>
      match select index y with
      | Raise e => Raise e
      | Ok y_test => Ok (y_train, y_test)
      end
  end.

Definition time_index : nat := 50.

(** [contour(y_test[time_index], y_pred[time_index])] followed by
    [contour.to_gif(y_test, y_pred)]. *)
Definition compare_then_animate (E : Contour.Env) (y_test y_pred : Np.stack)
  : M Contour.State unit :=
  e <- lift (item y_test time_index) ;;
  p <- lift (item y_pred time_index) ;;
  Contour.__call__ (Contour.Ndarray e) (Contour.Ndarray p) ;;
  Contour.to_gif_in E y_test y_pred.

End Notebook.

(** The instance carries a flux field with both coordinates on an [r] by
    [c] grid, whether or not anything was drawn yet: the shape is cached
    as [(r, c)] or will be computed as such from the field's sizes. *)
Definition ready (r c : nat) (s : State) : bool :=
  match magnetic_flux (self s) with
  | Some da =>
      match Xr.major_radius da, Xr.z da with
      | Some xs, Some ys =>
          (length xs =? c) && (length ys =? r) && (2 <=? r) && (2 <=? c)
          && match shape (self s) with
             | Some (nz, nr) => (nz =? r) && (nr =? c)
             | None =>
                 match Xr.getitem (Xr.sizes da) "z",
                       Xr.getitem (Xr.sizes da) "major_radius" with
                 | Ok nz, Ok nr => (nz =? r) && (nr =? c)
                 | _, _ => false
                 end
             end
      | _, _ => false
      end
  | None => false
  end.

(** The field has both dimensions the shape is read from. *)
Definition has_dims (da : Xr.DataArray) : bool :=
  match Xr.getitem (Xr.sizes da) "z",
        Xr.getitem (Xr.sizes da) "major_radius" with
  | Ok _, Ok _ => true
  | _, _ => false
  end.

(** A computation writes no file. *)
Definition keeps_disk {A} (m : M State A) : Prop :=
  forall s, disk (snd (m s)) = disk s.

(** A flux field with both coordinates but no [z] dimension. *)
Definition psi_stacked : Xr.DataArray :=
  {| Xr.values := tall;
     Xr.sizes := [("time", 2); ("major_radius", 3)];
     Xr.major_radius := Some (ints [1; 2; 3]%Z);
     Xr.z := Some (ints [-1; 1]%Z) |}.

(** The state of [compared] after some other code opened a figure of
    its own, which is now the current one. *)
Definition overtaken : State :=
  {| self := self compared;
     plt := snd (Mpl.new_figure (32 # 5, 24 # 5)%Q (plt compared));
     disk := disk compared |}.


(** The handle a labelled plot queues for the legend. *)
Definition queued (label : option string) (cl : string) : list Mpl.Line2D :=
  if truthy label
  then [{| Mpl.label := or_else label ""; Mpl.color := cl |}]
  else [].

(** Fifty-one fields on the 2 by 3 grid, the [i]-th shifted by [v + i]. *)
Definition ramps23 (v : Z) : Np.stack :=
  map (fun i => {| Np.shape := [6];
                   Np.data := map (fun j => inject_Z (v + Z.of_nat i + Z.of_nat j))
                                  (seq 0 6) |})
      (seq 0 51).

(** * Properties *)

(** ** Contour levels *)

Section LevelFacts.

Lemma Qltb_lt (a b : Q) : Mpl.Qltb a b = true <-> (a < b)%Q.
Proof.
  unfold Mpl.Qltb. rewrite negb_true_iff.
  split; intro H.
  - apply Qnot_le_lt. intro Hle. apply Qle_bool_iff in Hle. congruence.
  - destruct (Qle_bool b a) eqn:E; [|reflexivity].
    apply Qle_bool_iff in E. apply Qle_not_lt in E. contradiction.
Qed.


Lemma inject_succ (i : nat) :
  (inject_Z (Z.of_nat (S i)) == inject_Z (Z.of_nat i) + 1)%Q.
Proof.
  rewrite Nat2Z.inj_succ. unfold Z.succ. rewrite inject_Z_plus. reflexivity.
Qed.

(** An arithmetic progression with a positive step, closed by a value
    above its last term, is increasing. *)
Lemma increasing_ramp (step start stop : Q) (m a : nat) :
  (0 < step)%Q ->
  (inject_Z (Z.of_nat (a + m)) * step + start < stop)%Q ->
  Mpl.increasing
    (map (fun i => (inject_Z (Z.of_nat i) * step + start)%Q) (seq a (S m))
       ++ [stop]) = true.
Proof.
  intros Hstep. revert a. induction m as [|m IH]; intros a Hlast.
  - cbn. rewrite Nat.add_0_r in Hlast.
    apply Qltb_lt in Hlast. rewrite Hlast. reflexivity.
  - change (seq a (S (S m))) with (a :: seq (S a) (S m)).
    cbn [map app]. change (seq (S a) (S m)) with (S a :: seq (S (S a)) m).
    cbn [map app Mpl.increasing].
    apply andb_true_intro. split.
    + apply Qltb_lt. rewrite inject_succ. lra.
    + apply (IH (S a)). replace (S a + m) with (a + S m) by lia. exact Hlast.
Qed.

Lemma linspace_increasing (lo hi : Q) (d : nat) :
  (lo < hi)%Q -> Mpl.increasing (Np.linspace lo hi (S (S d))) = true.
Proof.
  intro H. unfold Np.linspace.
  set (step := ((hi - lo) / inject_Z (Z.of_nat (S d)))%Q).
  assert (Hd : (0 < inject_Z (Z.of_nat (S d)))%Q).
  { change 0%Q with (inject_Z 0). rewrite <- Zlt_Qlt. lia. }
  assert (Hmul : (inject_Z (Z.of_nat (S d)) * step == hi - lo)%Q).
  { unfold step. apply Qmult_div_r. intro E. rewrite E in Hd.
    exact (Qlt_irrefl _ Hd). }
  assert (Hstep : (0 < step)%Q).
  { unfold step. apply Qlt_shift_div_l; [exact Hd | lra]. }
  apply increasing_ramp; [exact Hstep|].
  cbn [Nat.add]. rewrite inject_succ in Hmul. lra.
Qed.





(** The level processing rejects a flat array of several levels. *)
Lemma levels_rejected (l : list Q) (z : Np.ndarray) :
  1 < length l -> Mpl.increasing l = false ->
  Mpl.process_levels (Mpl.LArr l) z = Raise ValueError.
Proof.
  intros Hlen Hinc. unfold Mpl.process_levels.
  apply Nat.ltb_lt in Hlen. rewrite Hlen, Hinc. reflexivity.
Qed.







End LevelFacts.

(** ** The figure registry *)

Section Registry.

Lemma on_figure_head (n : nat) (g : Mpl.Figure -> Mpl.Figure) sz a cv rest k :
  Mpl.on_figure n g
    {| Mpl.figures := {| Mpl.number := n; Mpl.figsize := sz; Mpl.ax := a;
                         Mpl.canvas := cv |} :: rest;
       Mpl.serial := k |}
  = {| Mpl.figures :=
         g {| Mpl.number := n; Mpl.figsize := sz; Mpl.ax := a;
              Mpl.canvas := cv |}
         :: Mpl.figures (Mpl.on_figure n g
                           {| Mpl.figures := rest; Mpl.serial := k |});
       Mpl.serial := k |}.
Proof.
  unfold Mpl.on_figure. cbn. rewrite Nat.eqb_refl. reflexivity.
Qed.

Lemma on_axes_head (n : nat) (g : Mpl.Axes -> Mpl.Axes) sz a cv rest k :
  Mpl.on_axes n g
    {| Mpl.figures := {| Mpl.number := n; Mpl.figsize := sz; Mpl.ax := a;
                         Mpl.canvas := cv |} :: rest;
       Mpl.serial := k |}
  = {| Mpl.figures :=
         {| Mpl.number := n; Mpl.figsize := sz; Mpl.ax := g a;
            Mpl.canvas := cv |}
         :: Mpl.figures (Mpl.on_axes n g
                           {| Mpl.figures := rest; Mpl.serial := k |});
       Mpl.serial := k |}.
Proof.
  unfold Mpl.on_axes. rewrite on_figure_head. reflexivity.
Qed.

Lemma on_figure_length (n : nat) (g : Mpl.Figure -> Mpl.Figure) p :
  length (Mpl.figures (Mpl.on_figure n g p)) = length (Mpl.figures p).
Proof. unfold Mpl.on_figure. cbn. apply length_map. Qed.

Lemma on_axes_length (n : nat) (g : Mpl.Axes -> Mpl.Axes) p :
  length (Mpl.figures (Mpl.on_axes n g p)) = length (Mpl.figures p).
Proof. unfold Mpl.on_axes. apply on_figure_length. Qed.

(** Whatever [plt.legend] is given becomes the legend of the current
    axes. *)
Lemma legend_current (hs : list Mpl.Line2D) (p : Mpl.Pyplot) :
  current_legend (Mpl.legend hs p) = Some hs.
Proof.
  unfold Mpl.legend, Mpl.gca, current_legend.
  destruct p as [[|[n sz a cv] rest] k]; cbn.
  - reflexivity.
  - rewrite Nat.eqb_refl. reflexivity.
Qed.

End Registry.

(** ** One plot, one comparison, one frame on a running animator *)

Section Running.

Variables (da : Xr.DataArray) (xs ys : list Q) (r c : nat) (l : list Q)
          (n : nat) (lg : option (list Mpl.Line2D)).
Hypothesis Hx : Xr.major_radius da = Some xs.
Hypothesis Hy : Xr.z da = Some ys.
Hypothesis Hlx : length xs = c.
Hypothesis Hly : length ys = r.
Hypothesis Hr : 2 <= r.
Hypothesis Hc : 2 <= c.

Local Abbreviation state := (st da r c l n lg).
Local Abbreviation part := (piece xs ys r c l n).

Lemma reshape_grid (a : Np.ndarray) :
  Np.size a = r * c ->
  Np.reshape a (r, c) = Ok {| Np.shape := [r; c]; Np.data := Np.data a |}.
Proof.
  intro Ha. unfold Np.reshape. cbn [fst snd].
  rewrite Ha, Nat.eqb_refl. reflexivity.
Qed.

Lemma check_grid (dat : list Q) :
  Mpl.check_xyz xs ys {| Np.shape := [r; c]; Np.data := dat |} = Ok tt.
Proof.
  unfold Mpl.check_xyz. cbn [Np.shape].
  destruct (Nat.ltb_spec r 2); [lia|].
  destruct (Nat.ltb_spec c 2); [lia|].
  rewrite Hlx, Hly, !Nat.eqb_refl. reflexivity.
Qed.

(** The first plot after [del self.axes] when the levels are rejected:
    the new figure is there, no contour set is. *)
Lemma plot_rejected (a : Np.ndarray) (lab : option string) (cl : string)
    h fg figs k d :
  1 < length l -> Mpl.increasing l = false ->
  Np.size a = r * c ->
  exists s',
    plot (Ndarray a) lab (colors_ cl)
      {| self := {| magnetic_flux := Some da; levels := Mpl.LArr l;
                    _handles := h; fig := fg; axes := None;
                    shape := Some (r, c) |};
         plt := {| Mpl.figures := figs; Mpl.serial := k |};
         disk := d |}
    = (Raise ValueError, s')
    /\ levels (self s') = Mpl.LArr l /\ disk s' = d.
Proof.
  intros Hlen Hinc Ha.
  unfold plot, try_except, bind, get_axes, get_shape, the, ret, lift,
    pyplot_, pyplot, set_levels, set_handles, set_fig, set_axes, set_self,
    modify.
  cbn. rewrite Hx, Hy. cbn.
  rewrite (reshape_grid a Ha).
  unfold Mpl.contour. rewrite check_grid, (levels_rejected l _ Hlen Hinc).
  eexists. split; [reflexivity|]. split; reflexivity.
Qed.

Hypothesis Hl : Mpl.increasing l = true.

Lemma levels_accepted (z : Np.ndarray) :
  Mpl.process_levels (Mpl.LArr l) z = Ok (Mpl.LArr l).
Proof.
  unfold Mpl.process_levels. rewrite Hl, andb_false_r. reflexivity.
Qed.

Lemma plot_st (a : Np.ndarray) (lab cl : string) h cs cv rest k d :
  Np.size a = r * c -> lab <> "" ->
  exists rest',
    length rest' = length rest /\
    plot (Ndarray a) (Some lab) (colors_ cl) (state h cs cv rest k d)
    = (Ok (part k a cl),
       state (h ++ [{| Mpl.label := lab; Mpl.color := cl |}])
             (cs ++ [part k a cl]) cv rest' (S k) d).
Proof.
  intros Ha Hlab.
  apply String.eqb_neq in Hlab.
  unfold plot, try_except, bind, get_axes, get_shape, the, ret, lift, pyplot,
    set_levels, set_handles, set_self, modify, st, inst.
  cbn. rewrite Hx, Hy. cbn.
  rewrite (reshape_grid a Ha).
  unfold Mpl.contour. rewrite check_grid, levels_accepted.
  rewrite on_axes_head.
  cbn. rewrite Hlab. cbn.
  eexists. split; [|reflexivity]. apply length_map.
Qed.

(** The first plot after [del self.axes]: the axes property makes a new
    figure, which becomes the head of the registry. *)
Lemma plot_fresh (a : Np.ndarray) (lab cl : string) h fg figs k d :
  n = S (length figs) -> lg = None ->
  Np.size a = r * c -> lab <> "" ->
  exists rest',
    length rest' = length figs /\
    plot (Ndarray a) (Some lab) (colors_ cl)
      {| self := {| magnetic_flux := Some da; levels := Mpl.LArr l;
                    _handles := h; fig := fg; axes := None;
                    shape := Some (r, c) |};
         plt := {| Mpl.figures := figs; Mpl.serial := k |};
         disk := d |}
    = (Ok (part k a cl),
       state (h ++ [{| Mpl.label := lab; Mpl.color := cl |}])
             [part k a cl] blank rest' (S k) d).
Proof.
  intros Hn Hlg Ha Hlab.
  apply String.eqb_neq in Hlab.
  unfold plot, try_except, bind, get_axes, get_shape, the, ret, lift,
    pyplot_, pyplot, set_levels, set_handles, set_fig, set_axes, set_self,
    modify, st, inst, sheet, blank.
  cbn. rewrite Hx, Hy. cbn.
  rewrite (reshape_grid a Ha).
  unfold Mpl.contour. rewrite check_grid, levels_accepted.
  unfold Mpl.set_axis_off, Mpl.set_aspect, Mpl.new_axes.
  rewrite !on_axes_head.
  cbn. rewrite Hlab. cbn.
  rewrite <- Hn, Hlg. eexists. split; [|reflexivity].
  rewrite !length_map. reflexivity.
Qed.

Lemma call_st (e p : Np.ndarray) h cs cv rest k d :
  Np.size e = r * c -> Np.size p = r * c ->
  exists rest',
    length rest' = length rest /\
    __call__ (Ndarray e) (Ndarray p) (state h cs cv rest k d)
    = (Ok [part k e "gray"; part (S k) p "C0"],
       state (h ++ key) (cs ++ [part k e "gray"; part (S k) p "C0"])
             cv rest' (S (S k)) d).
Proof.
  intros He Hp. unfold __call__.
  destruct (plot_st e "EFIT++" "gray" h cs cv rest k d He) as (r1 & L1 & E1);
    [discriminate|].
  destruct (plot_st p "Prediction" "C0"
              (h ++ [{| Mpl.label := "EFIT++"; Mpl.color := "gray" |}])
              (cs ++ [part k e "gray"]) cv r1 (S k) d Hp) as (r2 & L2 & E2);
    [discriminate|].
  exists r2. split; [congruence|].
  unfold bind at 1. rewrite E1. unfold bind at 1. rewrite E2.
  unfold ret, key. rewrite <- !app_assoc. reflexivity.
Qed.

Lemma remove_st (x : Mpl.ContourSet) h cs cv rest k d :
  Mpl.host x = n ->
  existsb (fun y => Mpl.ident y =? Mpl.ident x) cs = true ->
  exists rest',
    length rest' = length rest /\
    pyplot (Mpl.remove x) (state h cs cv rest k d)
    = (Ok tt,
       state h (filter (fun y => negb (Mpl.ident y =? Mpl.ident x)) cs)
             cv rest' k d).
Proof.
  intros Hh Hin.
  unfold pyplot, Mpl.remove, Mpl.drawn_on, Mpl.find_figure, st.
  cbn. rewrite Hh, Nat.eqb_refl. cbn. rewrite Hin. cbn.
  rewrite on_axes_head. eexists. split; [|reflexivity].
  first [apply on_axes_length | apply length_map].
Qed.

Lemma remove_two (c1 c2 : Mpl.ContourSet) h cv rest k d :
  Mpl.host c1 = n -> Mpl.host c2 = n -> Mpl.ident c1 <> Mpl.ident c2 ->
  exists rest',
    length rest' = length rest /\
    for_each [c1; c2] (fun x => pyplot (Mpl.remove x))
      (state h [c1; c2] cv rest k d)
    = (Ok tt, state h [] cv rest' k d).
Proof.
  intros H1 H2 Hne.
  assert (E21 : (Mpl.ident c2 =? Mpl.ident c1) = false)
    by (apply Nat.eqb_neq; intro E; apply Hne; symmetry; exact E).
  destruct (remove_st c1 h [c1; c2] cv rest k d H1) as (r1 & L1 & E1).
  { cbn. rewrite Nat.eqb_refl. reflexivity. }
  cbn [filter] in E1. rewrite Nat.eqb_refl, E21 in E1. cbn [negb] in E1.
  destruct (remove_st c2 h [c2] cv r1 k d H2) as (r2 & L2 & E2).
  { cbn. rewrite Nat.eqb_refl. reflexivity. }
  cbn [filter] in E2. rewrite Nat.eqb_refl in E2. cbn [negb] in E2.
  exists r2. split; [congruence|].
  cbn [for_each]. unfold bind at 1. rewrite E1.
  unfold bind at 1. rewrite E2. reflexivity.
Qed.

(** One pass of the loop body: the two contour sets of the previous pass
    leave the axes, the two of this pair come on, and the frame yielded
    shows exactly those two. *)
Lemma body_st (e p e0 p0 : Np.ndarray) (cl0 cl1 : string) j h cv rest k d :
  Np.size e = r * c -> Np.size p = r * c ->
  exists rest',
    length rest' = length rest /\
    body [part j e0 cl0; part (S j) p0 cl1] e p
      (state h [part j e0 cl0; part (S j) p0 cl1] cv rest k d)
    = (Ok (frame lg [part k e "gray"; part (S k) p "C0"],
           [part k e "gray"; part (S k) p "C0"]),
       state (h ++ key) [part k e "gray"; part (S k) p "C0"]
             (frame lg [part k e "gray"; part (S k) p "C0"])
             rest' (S (S k)) d).
Proof.
  intros He Hp. unfold body.
  destruct (remove_two (part j e0 cl0) (part (S j) p0 cl1) h cv rest k d)
    as (r1 & L1 & E1); [reflexivity | reflexivity | cbn; lia |].
  destruct (call_st e p h [] cv r1 k d He Hp) as (r2 & L2 & E2).
  unfold bind at 1. rewrite E1. unfold bind at 1. rewrite E2.
  unfold bind, the, pyplot_, pyplot, ret, Mpl.draw, Mpl.buffer_rgba,
    Mpl.find_figure, Mpl.on_figure, st, frame.
  cbn. rewrite !Nat.eqb_refl. cbn.
  eexists. split; [|reflexivity].
  rewrite length_map. congruence.
Qed.

(** The whole loop, by induction on the pairs still to come. *)
Lemma sweep_st (pairs : list (Np.ndarray * Np.ndarray)) :
  forall e0 p0 cl0 cl1 j h cv rest k d,
    on_grid r c (map fst pairs) = true ->
    on_grid r c (map snd pairs) = true ->
    exists cs' cv' rest',
      length rest' = length rest /\
      sweep [part j e0 cl0; part (S j) p0 cl1] pairs
        (state h [part j e0 cl0; part (S j) p0 cl1] cv rest k d)
      = (Ok (reel xs ys r c l n lg k pairs),
         state (h ++ flat_map (fun _ => key) pairs) cs' cv' rest'
               (k + 2 * length pairs) d).
Proof.
  induction pairs as [|[e p] t IH]; intros e0 p0 cl0 cl1 j h cv rest k d He Hp.
  - cbn. rewrite Nat.add_0_r, app_nil_r. do 3 eexists.
    split; reflexivity.
  - cbn [map fst snd on_grid forallb] in He, Hp.
    apply andb_prop in He, Hp. destruct He as [He Het], Hp as [Hp Hpt].
    apply Nat.eqb_eq in He, Hp.
    destruct (body_st e p e0 p0 cl0 cl1 j h cv rest k d He Hp)
      as (r1 & L1 & E1).
    cbn [sweep]. unfold bind at 1. rewrite E1. cbn [fst snd].
    edestruct (IH e p "gray" "C0" k) as (cs' & cv' & r2 & L2 & E2);
      [exact Het | exact Hpt |].
    unfold bind at 1. rewrite E2. unfold ret. cbn [reel length flat_map].
    replace (k + 2 * S (length t)) with (S (S k) + 2 * length t) by lia.
    rewrite <- app_assoc.
    do 3 eexists. split; [|reflexivity]. congruence.
Qed.

End Running.

(** ** The animation as a whole *)

Section Animation.

(** [legend()] on a running instance whose figure is the current one. *)
Lemma legend_st da r c l n lg h cs cv rest k d :
  exists rest',
    length rest' = length rest /\
    legend (st da r c l n lg h cs cv rest k d)
    = (Ok tt, st da r c l n (Some h) [] cs cv rest' k d).
Proof.
  unfold legend, bind, the, pyplot_, pyplot, set_handles, set_self, modify,
    Mpl.legend, Mpl.gca, st, inst, sheet.
  cbn. rewrite on_axes_head. cbn. eexists. split; [|reflexivity].
  apply length_map.
Qed.

Lemma last_on_grid (r c : nat) (a : Np.stack) :
  on_grid r c a = true -> a <> [] ->
  exists e, Np.last a = Ok e /\ Np.size e = r * c.
Proof.
  intros Hg Hne. unfold Np.last.
  destruct (rev a) as [|e t] eqn:E.
  - exfalso. apply Hne. rewrite <- (rev_involutive a), E. reflexivity.
  - exists e. split; [reflexivity|].
    unfold on_grid in Hg. rewrite forallb_forall in Hg.
    apply Nat.eqb_eq, Hg, in_rev. rewrite E. left. reflexivity.
Qed.

Lemma on_grid_combine (r c : nat) (a b : Np.stack) :
  on_grid r c a = true -> on_grid r c b = true ->
  on_grid r c (map fst (combine a b)) = true
  /\ on_grid r c (map snd (combine a b)) = true.
Proof.
  unfold on_grid.
  revert b. induction a as [|x a IH]; intros [|y b] Ha Hb;
    cbn [combine map forallb fst snd]; auto.
  cbn [forallb] in Ha, Hb. apply andb_prop in Ha, Hb.
  destruct Ha as [Hx Ha], Hb as [Hy Hb].
  destruct (IH b Ha Hb) as [H1 H2].
  rewrite Hx, Hy, H1, H2. auto.
Qed.

Lemma spread_inv (a : Np.stack) :
  spread a = true ->
  exists lo hi, Np.min a = Ok lo /\ Np.max a = Ok hi /\ (lo < hi)%Q.
Proof.
  unfold spread. destruct (Np.min a) as [lo|]; [|discriminate].
  destruct (Np.max a) as [hi|]; [|discriminate].
  intro H. exists lo, hi. repeat split. apply Qltb_lt. exact H.
Qed.

Lemma levelled_inv (E : Env) (a : Np.stack) :
  levelled E a = true ->
  exists lo hi, Np.min a = Ok lo /\ Np.max a = Ok hi
                /\ Mpl.increasing (linspace E lo hi 51) = true.
Proof.
  unfold levelled. destruct (Np.min a) as [lo|]; [|discriminate].
  destruct (Np.max a) as [hi|]; [|discriminate].
  intro H. exists lo, hi. repeat split. exact H.
Qed.

(** In exact arithmetic the levels increase as soon as the ground truth
    takes two values. *)
Lemma spread_levelled (a : Np.stack) : spread a = true -> levelled ideal a = true.
Proof.
  intro H. destruct (spread_inv a H) as (lo & hi & Hlo & Hhi & Hlt).
  unfold levelled. rewrite Hlo, Hhi. apply linspace_increasing. exact Hlt.
Qed.


Lemma min_nonempty (a : Np.stack) (lo : Q) : Np.min a = Ok lo -> a <> [].
Proof. intros H E. subst a. discriminate. Qed.

(** A bound state, taken apart. *)
Lemma bound_inv (r c : nat) (s : State) :
  bound r c s = true ->
  exists da xs ys lv h fg n0,
    self s = {| magnetic_flux := Some da; levels := lv; _handles := h;
                fig := fg; axes := Some n0; shape := Some (r, c) |}
    /\ Xr.major_radius da = Some xs /\ Xr.z da = Some ys
    /\ length xs = c /\ length ys = r /\ 2 <= r /\ 2 <= c.
Proof.
  intro Hb. destruct s as [[mf lv h fg axs sh] p d].
  unfold bound in Hb. cbn [self axes shape magnetic_flux] in Hb.
  destruct axs as [n0|]; [|discriminate].
  destruct sh as [[nz nr]|]; [|discriminate].
  destruct mf as [da|]; [|discriminate].
  destruct (Xr.major_radius da) as [xs|] eqn:Hx; [|discriminate].
  destruct (Xr.z da) as [ys|] eqn:Hy; [|discriminate].
  repeat (apply andb_prop in Hb; destruct Hb as [Hb ?]).
  repeat match goal with
         | H : (_ =? _) = true |- _ => apply Nat.eqb_eq in H
         | H : (_ <=? _) = true |- _ => apply Nat.leb_le in H
         end.
  subst nz nr. exists da, xs, ys, lv, h, fg, n0.
  repeat split; assumption.
Qed.

(** The statements before the loop, up to the first plot. *)
Lemma prelude_head (E : Env) (s : State) (efit prediction : Np.stack)
    (lo hi : Q) (e p : Np.ndarray) mf lv h fg n0 sh :
  self s = {| magnetic_flux := mf; levels := lv; _handles := h;
              fig := fg; axes := Some n0; shape := sh |} ->
  Np.min efit = Ok lo -> Np.max efit = Ok hi ->
  Np.last efit = Ok e -> Np.last prediction = Ok p ->
  prelude_in E efit prediction s
  = (contours <- __call__ (Ndarray e) (Ndarray p) ;; legend ;; ret contours)
      {| self := {| magnetic_flux := mf;
                    levels := Mpl.LArr (linspace E lo hi 51);
                    _handles := []; fig := fg; axes := None; shape := sh |};
         plt := {| Mpl.figures := Mpl.figures (plt s);
                   Mpl.serial := Mpl.serial (plt s) |};
         disk := disk s |}.
Proof.
  intros Hs Hlo Hhi He Hp. destruct s as [slf [figs k] d].
  cbn [self] in Hs. subst slf.
  unfold prelude_in.
  unfold bind at 1. unfold del_axes, bind at 1, the, set_axes, set_self,
    modify. cbn [self axes].
  unfold bind at 1. unfold set_handles, set_self, modify.
  unfold bind at 1. unfold lift. rewrite Hlo.
  unfold bind at 1. rewrite Hhi.
  unfold bind at 1. unfold set_levels, set_self, modify.
  unfold bind at 1. rewrite He.
  unfold bind at 1. rewrite Hp.
  reflexivity.
Qed.

Lemma prelude_st (E : Env) (r c : nat) (s : State)
    (efit prediction : Np.stack) (lo hi : Q) (e p : Np.ndarray) :
  bound r c s = true ->
  Np.min efit = Ok lo -> Np.max efit = Ok hi ->
  Mpl.increasing (linspace E lo hi 51) = true ->
  Np.last efit = Ok e -> Np.last prediction = Ok p ->
  Np.size e = r * c -> Np.size p = r * c ->
  exists da xs ys rest,
    magnetic_flux (self s) = Some da /\
    Xr.major_radius da = Some xs /\ Xr.z da = Some ys /\
    length xs = c /\ length ys = r /\ 2 <= r /\ 2 <= c /\
    length rest = length (Mpl.figures (plt s)) /\
    let n := S (length (Mpl.figures (plt s))) in
    let k := Mpl.serial (plt s) in
    let l := linspace E lo hi 51 in
    let cs := [piece xs ys r c l n k e "gray";
               piece xs ys r c l n (S k) p "C0"] in
    prelude_in E efit prediction s
    = (Ok cs, st da r c l n (Some key) [] cs blank rest (S (S k)) (disk s)).
Proof.
  intros Hb Hlo Hhi Hinc He Hp Hse Hsp.
  destruct (bound_inv r c s Hb)
    as (da & xs & ys & lv & h & fg & n0 & Hs & Hx & Hy & Hlx & Hly & Hr & Hc).
  rewrite (prelude_head E s efit prediction lo hi e p _ _ _ _ _ _
             Hs Hlo Hhi He Hp).
  cbv zeta.
  remember (linspace E lo hi 51) as l eqn:El.
  remember (Mpl.figures (plt s)) as figs eqn:Ef.
  remember (Mpl.serial (plt s)) as k eqn:Ek.
  destruct (plot_fresh da xs ys r c l (S (length figs)) None
              Hx Hy Hlx Hly Hr Hc Hinc
              e "EFIT++" "gray" [] fg figs k (disk s) eq_refl eq_refl Hse)
    as (r1 & L1 & E1); [discriminate|].
  destruct (plot_st da xs ys r c l (S (length figs)) None
              Hx Hy Hlx Hly Hr Hc Hinc
              p "Prediction" "C0"
              [{| Mpl.label := "EFIT++"; Mpl.color := "gray" |}]
              [piece xs ys r c l (S (length figs)) k e "gray"]
              blank r1 (S k) (disk s) Hsp)
    as (r2 & L2 & E2); [discriminate|].
  cbn [app] in E1, E2.
  destruct (legend_st da r c l (S (length figs)) None key
              [piece xs ys r c l (S (length figs)) k e "gray";
               piece xs ys r c l (S (length figs)) (S k) p "C0"]
              blank r2 (S (S k)) (disk s)) as (r3 & L3 & E3).
  exists da, xs, ys, r3.
  rewrite Hs. cbn [magnetic_flux].
  repeat (split; [first [reflexivity | assumption | congruence]|]).
  unfold __call__, bind. rewrite E1, E2. fold key.
  unfold ret. rewrite E3. reflexivity.
Qed.

(** The animation run to its end on a bound animator: the frames are the
    reel of the zipped pairs, and the handles of every comparison of the
    sweep are still waiting in [_handles]. *)
Lemma animate_st (E : Env) (r c : nat) (s : State)
    (efit prediction : Np.stack) :
  bound r c s = true ->
  on_grid r c efit = true -> on_grid r c prediction = true ->
  levelled E efit = true -> prediction <> [] ->
  exists da xs ys lo hi cs cv rest,
    magnetic_flux (self s) = Some da /\
    Xr.major_radius da = Some xs /\ Xr.z da = Some ys /\
    length xs = c /\ length ys = r /\ 2 <= r /\ 2 <= c /\
    Np.min efit = Ok lo /\ Np.max efit = Ok hi /\
    Mpl.increasing (linspace E lo hi 51) = true /\
    length rest = length (Mpl.figures (plt s)) /\
    let n := S (length (Mpl.figures (plt s))) in
    let k := S (S (Mpl.serial (plt s))) in
    let l := linspace E lo hi 51 in
    let pairs := combine efit prediction in
    images_in E (_next_image efit prediction) s
    = (Ok (reel xs ys r c l n (Some key) k pairs),
       st da r c l n (Some key) (flat_map (fun _ => key) pairs) cs cv rest
          (k + 2 * length pairs) (disk s)).
Proof.
  intros Hb Hge Hgp Hsp Hne.
  destruct (levelled_inv E efit Hsp) as (lo & hi & Hlo & Hhi & Hinc).
  destruct (last_on_grid r c efit Hge (min_nonempty efit lo Hlo))
    as (e & He & Hse).
  destruct (last_on_grid r c prediction Hgp Hne) as (p & Hp & Hps).
  destruct (prelude_st E r c s efit prediction lo hi e p
              Hb Hlo Hhi Hinc He Hp Hse Hps)
    as (da & xs & ys & r1 & Hmf & Hx & Hy & Hlx & Hly & Hr & Hc & L1 & E1).
  cbv zeta in E1.
  destruct (on_grid_combine r c efit prediction Hge Hgp) as [G1 G2].
  destruct (sweep_st da xs ys r c (linspace E lo hi 51)
              (S (length (Mpl.figures (plt s)))) (Some key)
              Hx Hy Hlx Hly Hr Hc Hinc
              (combine efit prediction) e p "gray" "C0"
              (Mpl.serial (plt s)) [] blank r1
              (S (S (Mpl.serial (plt s)))) (disk s) G1 G2)
    as (cs' & cv' & r2 & L2 & E2).
  exists da, xs, ys, lo, hi, cs', cv', r2.
  repeat (split; [first [assumption | congruence]|]).
  cbv zeta. unfold images_in, _next_image, bind. rewrite E1, E2. reflexivity.
Qed.


(** The frames obtained [next] after [next] are those of the list
    comprehension whenever that returns. *)
Lemma reap_sweep (cs : list Mpl.ContourSet) rest (s s' : State) frames :
  sweep cs rest s = (Ok frames, s') -> reap cs rest s = frames.
Proof.
  revert cs s s' frames.
  induction rest as [|[e p] rest IH]; intros cs s s' frames.
  - cbn. intro H. injection H as <- _. reflexivity.
  - cbn [sweep reap]. unfold bind, ret.
    destruct (body cs e p s) as [[r|err] s1]; [|discriminate].
    destruct (sweep (snd r) rest s1) as [[imgs|err] s2] eqn:S; [|discriminate].
    intro H. injection H as <- _. rewrite (IH _ _ _ _ S). reflexivity.
Qed.

Lemma yielded_images (E : Env) (g : Generator) (s s' : State) frames :
  images_in E g s = (Ok frames, s') -> yielded_in E g s = frames.
Proof.
  destruct g as [efit prediction|cs rest|]; cbn [images_in yielded_in].
  - unfold bind.
    destruct (prelude_in E efit prediction s) as [[cs|err] s1]; [|discriminate].
    apply reap_sweep.
  - apply reap_sweep.
  - intro H. injection H as <- _. reflexivity.
Qed.


Lemma prelude_needs_fields (E : Env) (s s1 : State)
    (efit prediction : Np.stack) (cs : list Mpl.ContourSet) :
  prelude_in E efit prediction s = (Ok cs, s1) ->
  combine efit prediction <> [].
Proof.
  destruct s as [[mf lv h fg axs sh0] p d].
  unfold prelude_in, bind, del_axes, the, set_axes, set_handles, set_levels,
    set_self, modify, lift.
  cbn [self axes fst snd]. destruct axs; [|discriminate].
  destruct efit as [|e efit]; [discriminate|].
  destruct prediction as [|q prediction]; [|discriminate].
  destruct (Np.min (e :: efit)); [|discriminate].
  destruct (Np.max (e :: efit)); [|discriminate].
  destruct (Np.last (e :: efit)); discriminate.
Qed.

Lemma sweep_some (cs : list Mpl.ContourSet) rest (s s' : State) l :
  rest <> [] -> sweep cs rest s = (Ok l, s') -> l <> [].
Proof.
  destruct rest as [|[e p] rest]; [congruence|]. intros _.
  cbn [sweep]. unfold bind, ret.
  destruct (body cs e p s) as [[r|err] s1]; [|discriminate].
  destruct (sweep (snd r) rest s1) as [[imgs|err] s2]; [|discriminate].
  intro E. injection E as <- _. discriminate.
Qed.

(** An animation that returns has at least one frame. *)
Lemma images_some (E : Env) (s s' : State) (efit prediction : Np.stack) l :
  images_in E (_next_image efit prediction) s = (Ok l, s') -> l <> [].
Proof.
  unfold images_in, _next_image, bind.
  destruct (prelude_in E efit prediction s) as [[cs|err] s1] eqn:P;
    [|discriminate].
  apply sweep_some. exact (prelude_needs_fields E s s1 efit prediction cs P).
Qed.

End Animation.

(** ** What the frames of a reel show *)

Section Reel.

Variables (xs ys : list Q) (r c : nat) (l : list Q) (n : nat)
          (lg : option (list Mpl.Line2D)).

Lemma reel_length k pairs :
  length (reel xs ys r c l n lg k pairs) = length pairs.
Proof.
  revert k. induction pairs as [|[e p] t IH]; intro k; cbn [reel length].
  - reflexivity.
  - rewrite IH. reflexivity.
Qed.

Lemma reel_drawn k pairs :
  map drawn (reel xs ys r c l n lg k pairs) = map comparison pairs.
Proof.
  revert k. induction pairs as [|[e p] t IH]; intro k; cbn [reel map].
  - reflexivity.
  - rewrite IH. reflexivity.
Qed.


Lemma reel_legend k pairs :
  Forall (fun img => legend_drawn img = lg) (reel xs ys r c l n lg k pairs).
Proof.
  revert k. induction pairs as [|[e p] t IH]; intro k; cbn [reel].
  - constructor.
  - constructor; [reflexivity | apply IH].
Qed.

Lemma reel_raster k pairs :
  Forall (fun img => Mpl.extent img = (3, 9 # 2)%Q /\ Mpl.content img <> None)
         (reel xs ys r c l n lg k pairs).
Proof.
  revert k. induction pairs as [|[e p] t IH]; intro k; cbn [reel].
  - constructor.
  - constructor; [split; [reflexivity | discriminate] | apply IH].
Qed.

End Reel.

Lemma nth_error_combine {A B} (a : list A) (b : list B) i x y :
  nth_error a i = Some x -> nth_error b i = Some y ->
  nth_error (combine a b) i = Some (x, y).
Proof.
  revert b i. induction a as [|x0 a IH]; intros [|y0 b] [|i] Ha Hb;
    try discriminate; cbn in *.
  - congruence.
  - apply IH; assumption.
Qed.

(** From the list of what the frames show to the frame at one index. *)
Lemma drawn_at (frames : list Mpl.Image) (efit prediction : Np.stack) i e p :
  map drawn frames = map comparison (combine efit prediction) ->
  nth_error efit i = Some e -> nth_error prediction i = Some p ->
  option_map drawn (nth_error frames i)
  = Some [("gray", Np.data e); ("C0", Np.data p)].
Proof.
  intros Hm He Hp.
  rewrite <- nth_error_map, Hm, nth_error_map.
  rewrite (nth_error_combine efit prediction i e p He Hp). reflexivity.
Qed.

(** ** Frames of an animation *)

Lemma positive_length {A} (a : list A) : 0 < length a -> a <> [].
Proof. intros H E. subst a. cbn in H. lia. Qed.

(** C1, as the code has it. On an animator that has drawn before (axes
    live, shape cached, flux field with both coordinates), for
    ground-truth and predicted sequences of the same length [N > 0] whose
    fields have as many elements as the animator's grid, and when the 51
    levels that [linspace] returns for the least and greatest
    ground-truth value come out strictly increasing, the animation yields
    exactly [N] frames; the frame at index [i] shows the ground truth of
    index [i] in gray and the prediction of index [i] in C0, first index
    first, and every frame is a drawn raster of the figure's size. *)
Theorem animate_one_frame_per_index (E : Env) (r c N : nat) (s : State)
    (efit prediction : Np.stack) :
  bound r c s = true ->
  on_grid r c efit = true -> on_grid r c prediction = true ->
  levelled E efit = true ->
  length efit = N -> length prediction = N -> 0 < N ->
  exists frames s',
    images_in E (_next_image efit prediction) s = (Ok frames, s')
    /\ yielded_in E (_next_image efit prediction) s = frames
    /\ length frames = N
    /\ (forall i e p,
           nth_error efit i = Some e -> nth_error prediction i = Some p ->
           option_map drawn (nth_error frames i)
           = Some [("gray", Np.data e); ("C0", Np.data p)])
    /\ Forall (fun img => Mpl.extent img = (3, 9 # 2)%Q
                          /\ Mpl.content img <> None) frames.
Proof.
  intros Hb Hge Hgp Hsp Le Lp HN.
  assert (Hne : prediction <> []) by (apply positive_length; lia).
  destruct (animate_st E r c s efit prediction Hb Hge Hgp Hsp Hne)
    as (da & xs & ys & lo & hi & cs & cv & rest
        & _ & _ & _ & _ & _ & _ & _ & _ & _ & _ & _ & Eq).
  cbv zeta in Eq. do 2 eexists. split; [exact Eq|].
  split; [exact (yielded_images E _ _ _ _ Eq)|].
  split; [|split].
  - rewrite reel_length, length_combine. lia.
  - intros i e p He Hp. eapply drawn_at; [apply reel_drawn | exact He | exact Hp].
  - apply reel_raster.
Qed.

Lemma animate_one_frame_per_index_witness :
  (bound 2 3 compared = true
   /\ on_grid 2 3 efit2 = true /\ on_grid 2 3 prediction2 = true
   /\ levelled ideal efit2 = true
   /\ length efit2 = 2 /\ length prediction2 = 2 /\ 0 < 2)
  /\ exists frames s',
       images_in ideal (_next_image efit2 prediction2) compared = (Ok frames, s')
       /\ yielded_in ideal (_next_image efit2 prediction2) compared = frames
       /\ length frames = 2
       /\ (forall i e p,
              nth_error efit2 i = Some e -> nth_error prediction2 i = Some p ->
              option_map drawn (nth_error frames i)
              = Some [("gray", Np.data e); ("C0", Np.data p)])
       /\ Forall (fun img => Mpl.extent img = (3, 9 # 2)%Q
                             /\ Mpl.content img <> None) frames.
Proof.
  split.
  - repeat split; try (vm_compute; reflexivity). lia.
  - apply (animate_one_frame_per_index ideal 2 3 2 compared efit2 prediction2);
      try (vm_compute; reflexivity). lia.
Defined.

(** C1, counterexample. Two ground-truth and two predicted fields, all of
    constant value 5, on the grid of 2 rows by 3 columns the animator is
    bound to: the first frame request raises [ValueError] and no frame is
    yielded, where the claim has two. On an instance that has not drawn
    yet the first frame request raises [AttributeError] whatever the
    fields. *)
Lemma animate_constant_yields_nothing :
  length (repeat (constant 5 2 3) 2) = 2
  /\ on_grid 2 3 (repeat (constant 5 2 3) 2) = true
  /\ bound 2 3 compared = true
  /\ fst (next (_next_image (repeat (constant 5 2 3) 2)
                            (repeat (constant 5 2 3) 2)) compared)
     = Raise ValueError
  /\ yielded_in ideal (_next_image (repeat (constant 5 2 3) 2)
                                   (repeat (constant 5 2 3) 2)) compared = []
  /\ fst (next (_next_image efit2 prediction2) (created psi))
     = Raise AttributeError
  /\ yielded_in ideal (_next_image efit2 prediction2) (created psi) = [].
Proof. repeat split; vm_compute; reflexivity. Qed.

(** C2, as the code has it. Nothing compares the two lengths. On an
    animator that has drawn before, for sequences of fields with as many
    elements as its grid, the prediction not empty, and when the 51
    levels [linspace] returns for the ground truth come out strictly
    increasing: the plot before the loop shows the last field of each
    sequence, whatever their indices; the animation then raises nothing
    and yields as many frames as the shorter sequence has fields, one per
    index of the shorter sequence, in order. *)
Theorem animate_stops_with_shorter (E : Env) (r c : nat) (s : State)
    (efit prediction : Np.stack) :
  bound r c s = true ->
  on_grid r c efit = true -> on_grid r c prediction = true ->
  levelled E efit = true -> 0 < length prediction ->
  exists e p cs0 s1 frames s',
    Np.last efit = Ok e /\ Np.last prediction = Ok p
    /\ prelude_in E efit prediction s = (Ok cs0, s1)
    /\ shown cs0 = comparison (e, p)
    /\ sweep cs0 (combine efit prediction) s1 = (Ok frames, s')
    /\ images_in E (_next_image efit prediction) s = (Ok frames, s')
    /\ length frames = Nat.min (length efit) (length prediction)
    /\ map drawn frames = map comparison (combine efit prediction).
Proof.
  intros Hb Hge Hgp Hsp Lp.
  pose proof (positive_length prediction Lp) as Hne.
  destruct (levelled_inv E efit Hsp) as (lo & hi & Hlo & Hhi & Hinc).
  destruct (last_on_grid r c efit Hge (min_nonempty efit lo Hlo))
    as (e & He & Hse).
  destruct (last_on_grid r c prediction Hgp Hne) as (p & Hp & Hps).
  destruct (prelude_st E r c s efit prediction lo hi e p
              Hb Hlo Hhi Hinc He Hp Hse Hps)
    as (da & xs & ys & r1 & Hmf & Hx & Hy & Hlx & Hly & Hr & Hc & L1 & E1).
  cbv zeta in E1.
  destruct (on_grid_combine r c efit prediction Hge Hgp) as [G1 G2].
  destruct (sweep_st da xs ys r c (linspace E lo hi 51)
              (S (length (Mpl.figures (plt s)))) (Some key)
              Hx Hy Hlx Hly Hr Hc Hinc
              (combine efit prediction) e p "gray" "C0"
              (Mpl.serial (plt s)) [] blank r1
              (S (S (Mpl.serial (plt s)))) (disk s) G1 G2)
    as (cs' & cv' & r2 & L2 & E2).
  exists e, p. do 4 eexists.
  split; [exact He|]. split; [exact Hp|]. split; [exact E1|].
  split; [reflexivity|]. split; [exact E2|].
  split; [unfold images_in, _next_image, bind; rewrite E1; exact E2|].
  split; [rewrite reel_length; apply length_combine | apply reel_drawn].
Qed.

Lemma animate_stops_with_shorter_witness :
  (bound 2 3 compared = true
   /\ on_grid 2 3 efit2 = true /\ on_grid 2 3 prediction3 = true
   /\ levelled ideal efit2 = true /\ 0 < length prediction3)
  /\ exists e p cs0 s1 frames s',
       Np.last efit2 = Ok e /\ Np.last prediction3 = Ok p
       /\ prelude_in ideal efit2 prediction3 compared = (Ok cs0, s1)
       /\ shown cs0 = comparison (e, p)
       /\ sweep cs0 (combine efit2 prediction3) s1 = (Ok frames, s')
       /\ images_in ideal (_next_image efit2 prediction3) compared
          = (Ok frames, s')
       /\ length frames = Nat.min (length efit2) (length prediction3)
       /\ map drawn frames = map comparison (combine efit2 prediction3).
Proof.
  split.
  - repeat split; try (vm_compute; reflexivity). cbn. lia.
  - apply (animate_stops_with_shorter ideal 2 3 compared efit2 prediction3);
      try (vm_compute; reflexivity). cbn. lia.
Defined.

(** C2, counterexample. With two ground-truth fields and three predicted
    fields the first [next] yields a frame instead of raising, and the
    whole animation yields two frames: the prefix is processed silently. *)
Lemma animate_mismatch_yields :
  length efit2 <> length prediction3
  /\ (exists img g s',
         next (_next_image efit2 prediction3) compared = (Ok (Some img, g), s'))
  /\ exists frames s',
       images (_next_image efit2 prediction3) compared = (Ok frames, s')
       /\ length frames = 2.
Proof.
  split; [cbn; lia|]. split.
  - destruct (next (_next_image efit2 prediction3) compared)
      as [[[[img|] g]|e] s'] eqn:E; try (vm_compute in E; discriminate).
    exists img, g, s'. reflexivity.
  - destruct (images (_next_image efit2 prediction3) compared)
      as [[frames|e] s'] eqn:E; try (vm_compute in E; discriminate).
    exists frames, s'. split; [reflexivity|].
    assert (H : frames_of (fst (images (_next_image efit2 prediction3) compared))
                = frames) by (rewrite E; reflexivity).
    rewrite <- H. vm_compute. reflexivity.
Qed.

(** ** The order of events in an animation *)

(** C7, as the code has it. On an animator that has drawn before, for
    sequences of the same length [N > 0] of fields with as many elements
    as its grid, and when the 51 levels [linspace] returns for the ground
    truth come out strictly increasing: the statements before the loop
    leave a new figure as the instance's axes and the current figure,
    showing the last ground truth and the last prediction under the
    legend of their two handles, with the handle list emptied again; the
    loop then yields, for each index in order, a frame showing the two
    contour sets of that index and no earlier one, under that same
    legend; the handles the loop's plots add stay in the handle list, no
    further legend consuming them. *)
Theorem animate_resets_then_sweeps (E : Env) (r c N : nat) (s : State)
    (efit prediction : Np.stack) :
  bound r c s = true ->
  on_grid r c efit = true -> on_grid r c prediction = true ->
  levelled E efit = true ->
  length efit = N -> length prediction = N -> 0 < N ->
  exists e p cs0 s1 a1 n frames s',
    Np.last efit = Ok e /\ Np.last prediction = Ok p
    /\ prelude_in E efit prediction s = (Ok cs0, s1)
    /\ axes (self s1) = Some n /\ fig (self s1) = Some n
    /\ length (Mpl.figures (plt s1)) = S (length (Mpl.figures (plt s)))
    /\ option_map Mpl.number (hd_error (Mpl.figures (plt s1))) = Some n
    /\ _handles (self s1) = []
    /\ current_axes (plt s1) = Some a1
    /\ Mpl.collections a1 = cs0
    /\ shown cs0 = comparison (e, p)
    /\ Mpl.legend_ a1 = Some key
    /\ sweep cs0 (combine efit prediction) s1 = (Ok frames, s')
    /\ images_in E (_next_image efit prediction) s = (Ok frames, s')
    /\ length frames = N
    /\ map drawn frames = map comparison (combine efit prediction)
    /\ Forall (fun img => legend_drawn img = Some key) frames
    /\ _handles (self s') = concat (repeat key N).
Proof.
  intros Hb Hge Hgp Hsp Le Lp HN.
  assert (Hne : prediction <> []) by (apply positive_length; lia).
  destruct (levelled_inv E efit Hsp) as (lo & hi & Hlo & Hhi & Hinc).
  destruct (last_on_grid r c efit Hge (min_nonempty efit lo Hlo))
    as (e & He & Hse).
  destruct (last_on_grid r c prediction Hgp Hne) as (p & Hp & Hps).
  destruct (prelude_st E r c s efit prediction lo hi e p
              Hb Hlo Hhi Hinc He Hp Hse Hps)
    as (da & xs & ys & r1 & Hmf & Hx & Hy & Hlx & Hly & Hr & Hc & L1 & E1).
  cbv zeta in E1.
  destruct (on_grid_combine r c efit prediction Hge Hgp) as [G1 G2].
  destruct (sweep_st da xs ys r c (linspace E lo hi 51)
              (S (length (Mpl.figures (plt s)))) (Some key)
              Hx Hy Hlx Hly Hr Hc Hinc
              (combine efit prediction) e p "gray" "C0"
              (Mpl.serial (plt s)) [] blank r1
              (S (S (Mpl.serial (plt s)))) (disk s) G1 G2)
    as (cs' & cv' & r2 & L2 & E2).
  exists e, p. do 6 eexists.
  split; [exact He|]. split; [exact Hp|]. split; [exact E1|].
  split; [reflexivity|]. split; [reflexivity|].
  split; [cbn; rewrite L1; reflexivity|].
  split; [reflexivity|]. split; [reflexivity|].
  split; [reflexivity|]. split; [reflexivity|].
  split; [reflexivity|]. split; [reflexivity|].
  split; [exact E2|].
  split; [unfold images_in, _next_image, bind; rewrite E1; exact E2|].
  split; [rewrite reel_length, length_combine; lia|].
  split; [apply reel_drawn|].
  split; [apply reel_legend|].
  cbn [self st inst _handles app].
  assert (Lc : length (combine efit prediction) = N)
    by (rewrite length_combine; lia).
  clear - Lc. revert N Lc.
  induction (combine efit prediction) as [|x t IH]; intros N Lc;
    cbn in Lc; subst N; cbn [flat_map repeat concat length].
  - reflexivity.
  - rewrite (IH (length t) eq_refl). reflexivity.
Qed.

Lemma animate_resets_then_sweeps_witness :
  (bound 2 3 compared = true
   /\ on_grid 2 3 efit2 = true /\ on_grid 2 3 prediction2 = true
   /\ levelled ideal efit2 = true
   /\ length efit2 = 2 /\ length prediction2 = 2 /\ 0 < 2)
  /\ exists e p cs0 s1 a1 n frames s',
       Np.last efit2 = Ok e /\ Np.last prediction2 = Ok p
       /\ prelude_in ideal efit2 prediction2 compared = (Ok cs0, s1)
       /\ axes (self s1) = Some n /\ fig (self s1) = Some n
       /\ length (Mpl.figures (plt s1))
          = S (length (Mpl.figures (plt compared)))
       /\ option_map Mpl.number (hd_error (Mpl.figures (plt s1))) = Some n
       /\ _handles (self s1) = []
       /\ current_axes (plt s1) = Some a1
       /\ Mpl.collections a1 = cs0
       /\ shown cs0 = comparison (e, p)
       /\ Mpl.legend_ a1 = Some key
       /\ sweep cs0 (combine efit2 prediction2) s1 = (Ok frames, s')
       /\ images_in ideal (_next_image efit2 prediction2) compared
          = (Ok frames, s')
       /\ length frames = 2
       /\ map drawn frames = map comparison (combine efit2 prediction2)
       /\ Forall (fun img => legend_drawn img = Some key) frames
       /\ _handles (self s') = concat (repeat key 2).
Proof.
  split.
  - repeat split; try (vm_compute; reflexivity). lia.
  - apply (animate_resets_then_sweeps ideal 2 3 2 compared efit2 prediction2);
      try (vm_compute; reflexivity). lia.
Defined.

(** C7, counterexample. Two ground-truth and two predicted fields, all
    of constant value 7, on the bound animator: the drawing surface is
    reset and the handles are cleared, but the plot of the last pair
    raises [ValueError], so that the new figure shows nothing, no legend
    is built and no frame follows. On an instance that has not drawn yet
    the reset itself raises [AttributeError]. *)
Lemma animate_constant_builds_no_legend :
  length (repeat (constant 7 2 3) 2) = 2
  /\ bound 2 3 compared = true
  /\ fst (prelude (repeat (constant 7 2 3) 2) (repeat (constant 7 2 3) 2)
            compared) = Raise ValueError
  /\ option_map Mpl.collections
       (current_axes (plt (snd (prelude (repeat (constant 7 2 3) 2)
                                  (repeat (constant 7 2 3) 2) compared))))
     = Some []
  /\ current_legend (plt (snd (prelude (repeat (constant 7 2 3) 2)
                                 (repeat (constant 7 2 3) 2) compared)))
     = None
  /\ fst (next (_next_image (repeat (constant 7 2 3) 2)
                            (repeat (constant 7 2 3) 2)) compared)
     = Raise ValueError
  /\ fst (prelude efit2 prediction2 (created psi)) = Raise AttributeError.
Proof. repeat split; vm_compute; reflexivity. Qed.

(** ** Export to GIF *)

Section Writer.

Variable same : Mpl.Image -> Mpl.Image -> bool.

(** Images that all differ from their predecessor are all written, each
    for the duration asked. *)
Lemma merge_changing (d : nat) (prev : Mpl.Image * nat) (l : list Mpl.Image) :
  changing same (fst prev :: l) = true ->
  Pil.merge same d prev l = prev :: map (fun x => (x, d)) l.
Proof.
  revert prev. induction l as [|x l IH]; intros prev H.
  - reflexivity.
  - cbn [changing] in H. apply andb_prop in H. destruct H as [H1 H2].
    apply negb_true_iff in H1.
    cbn [Pil.merge map]. rewrite H1. f_equal. apply (IH (x, d)). exact H2.
Qed.

(** Merging loses no time: the durations add up to one duration per
    image. *)
Lemma merge_time (d : nat) (prev : Mpl.Image * nat) (l : list Mpl.Image) :
  fold_right (fun f t => snd f + t) 0 (Pil.merge same d prev l)
  = snd prev + d * length l.
Proof.
  revert prev. induction l as [|x l IH]; intros prev; cbn [Pil.merge length].
  - cbn. lia.
  - destruct (same (fst prev) x).
    + rewrite IH. cbn [snd]. lia.
    + cbn [fold_right]. rewrite IH. cbn [snd]. lia.
Qed.

Lemma merge_length (d : nat) (prev : Mpl.Image * nat) (l : list Mpl.Image) :
  length (Pil.merge same d prev l) <= S (length l).
Proof.
  revert prev. induction l as [|x l IH]; intros prev; cbn [Pil.merge length].
  - lia.
  - destruct (same (fst prev) x).
    + specialize (IH (fst prev, snd prev + d)). lia.
    + cbn [length]. specialize (IH (x, d)). lia.
Qed.

Lemma merge_head (d : nat) (prev : Mpl.Image * nat) (l : list Mpl.Image) :
  exists t rest,
    Pil.merge same d prev l = (fst prev, t) :: rest /\ snd prev <= t.
Proof.
  revert prev. induction l as [|x l IH]; intros [f t0]; cbn [Pil.merge fst snd].
  - exists t0, []. split; [reflexivity | lia].
  - destruct (same f x).
    + destruct (IH (f, t0 + d)) as (t & rest & E & Ht). cbn [fst snd] in *.
      exists t, rest. split; [exact E | lia].
    + eexists t0, _. split; [reflexivity | lia].
Qed.

End Writer.

Lemma same_values_refl (l : list Q) : Mpl.same_values l l = true.
Proof.
  unfold Mpl.same_values. rewrite Nat.eqb_refl. cbn [andb].
  induction l as [|x l IH]; cbn [combine forallb fst snd]; [reflexivity|].
  rewrite Qeq_bool_refl, IH. reflexivity.
Qed.

Lemma same_levels_refl (lv : Mpl.Levels) : Mpl.same_levels lv lv = true.
Proof.
  destruct lv as [n|l|n lo hi]; cbn [Mpl.same_levels].
  - apply Nat.eqb_refl.
  - apply same_values_refl.
  - rewrite Nat.eqb_refl, !Qeq_bool_refl. reflexivity.
Qed.

Lemma same_contours_refl (x : Mpl.ContourSet) : Mpl.same_contours x x = true.
Proof.
  unfold Mpl.same_contours.
  rewrite !same_values_refl, !String.eqb_refl, same_levels_refl. reflexivity.
Qed.

Lemma same_axes_refl (a : Mpl.Axes) : Mpl.same_axes a a = true.
Proof.
  unfold Mpl.same_axes.
  rewrite String.eqb_refl, Bool.eqb_reflx, Nat.eqb_refl. cbn [andb].
  assert (H1 : forallb (fun p => Mpl.same_contours (fst p) (snd p))
                 (combine (Mpl.collections a) (Mpl.collections a)) = true).
  { induction (Mpl.collections a) as [|x l IH];
      cbn [combine forallb fst snd]; [reflexivity|].
    rewrite same_contours_refl, IH. reflexivity. }
  rewrite H1. cbn [andb].
  destruct (Mpl.legend_ a) as [h|]; [|reflexivity].
  rewrite Nat.eqb_refl. cbn [andb].
  induction h as [|x l IH]; cbn [combine forallb fst snd]; [reflexivity|].
  unfold Mpl.same_handles at 1. rewrite !String.eqb_refl, IH. reflexivity.
Qed.

(** A raster shows the same picture as itself. *)
Lemma same_picture_refl : same_as_itself Mpl.same_picture.
Proof.
  intros [[w h] [a|]]; unfold Mpl.same_picture; cbn [Mpl.extent Mpl.content fst snd];
    rewrite !Qeq_bool_refl; cbn [andb]; [apply same_axes_refl | reflexivity].
Qed.

(** The export once the frames are there. *)
Lemma to_gif_after_images (E : Env) (s s0 : State) (efit prediction : Np.stack)
    (f0 : Mpl.Image) (more : list Mpl.Image) :
  images_in E (_next_image efit prediction) s = (Ok (f0 :: more), s0) ->
  to_gif_in E efit prediction s
  = if writable E gif_name
    then (Ok tt,
          {| self := self s0; plt := plt s0;
             disk := (gif_name,
                      {| Pil.frames :=
                           Pil.merge (same_pixels E) 100 (f0, 100) (f0 :: more);
                         Pil.loop := 0 |})
                     :: disk s0 |})
    else (Raise OSError, s0).
Proof.
  intro H. unfold to_gif_in, bind. rewrite H. unfold Pil.save.
  destruct (writable E gif_name); reflexivity.
Qed.

(** C5, as the code has it. On an animator that has drawn before, for ten
    ground-truth and ten predicted fields with as many elements as its
    grid, when the 51 levels [linspace] returns for the ground truth come
    out strictly increasing, the file can be created and no frame has the
    same pixels as the one before it: [to_gif] writes the file
    [equilibrium_animation.gif], which holds exactly the ten frames of
    the animation, in order, with loop count 0 (loop forever), every
    frame after the first being shown for 100 ms. *)
Theorem to_gif_writes_animation (E : Env) (r c : nat) (s : State)
    (efit prediction : Np.stack) :
  bound r c s = true ->
  on_grid r c efit = true -> on_grid r c prediction = true ->
  levelled E efit = true ->
  length efit = 10 -> length prediction = 10 ->
  writable E gif_name = true ->
  same_as_itself (same_pixels E) ->
  changing (same_pixels E) (yielded_in E (_next_image efit prediction) s)
  = true ->
  exists frames s0 s' g,
    images_in E (_next_image efit prediction) s = (Ok frames, s0)
    /\ length frames = 10
    /\ to_gif_in E efit prediction s = (Ok tt, s')
    /\ disk s' = (gif_name, g) :: disk s
    /\ Pil.read gif_name (disk s') = Some g
    /\ map fst (Pil.frames g) = frames
    /\ Forall (fun f => snd f = 100) (tl (Pil.frames g))
    /\ Pil.loop g = 0.
Proof.
  intros Hb Hge Hgp Hsp Le Lp Hw Hrefl Hch.
  assert (Hne : prediction <> []) by (apply positive_length; lia).
  destruct (animate_st E r c s efit prediction Hb Hge Hgp Hsp Hne)
    as (da & xs & ys & lo & hi & cs & cv & rest
        & _ & _ & _ & _ & _ & _ & _ & _ & _ & _ & _ & Eq).
  cbv zeta in Eq.
  rewrite (yielded_images E _ _ _ _ Eq) in Hch.
  remember (reel xs ys r c (linspace E lo hi 51)
              (S (length (Mpl.figures (plt s)))) (Some key)
              (S (S (Mpl.serial (plt s)))) (combine efit prediction))
    as frames eqn:Ef.
  assert (Lf : length frames = 10)
    by (rewrite Ef, reel_length, length_combine; lia).
  destruct frames as [|f0 more]; [discriminate|].
  do 4 eexists.
  split; [exact Eq|]. split; [exact Lf|].
  split; [rewrite (to_gif_after_images E _ _ _ _ _ _ Eq), Hw; reflexivity|].
  cbn [disk Pil.read st]. rewrite String.eqb_refl.
  split; [reflexivity|]. split; [reflexivity|].
  cbn [Pil.frames Pil.loop Pil.merge fst snd]. rewrite (Hrefl f0).
  rewrite (merge_changing (same_pixels E) 100 (f0, 100 + 100) more Hch).
  cbn [map fst tl]. rewrite map_map. cbn [fst]. rewrite map_id.
  split; [reflexivity|]. split; [|reflexivity].
  apply Forall_forall. intros x Hx. apply in_map_iff in Hx.
  destruct Hx as (y & <- & _). reflexivity.
Qed.

Lemma to_gif_writes_animation_witness :
  (bound 8 6 compared86 = true
   /\ on_grid 8 6 (ramps86 0) = true /\ on_grid 8 6 (ramps86 1) = true
   /\ levelled ideal (ramps86 0) = true
   /\ length (ramps86 0) = 10 /\ length (ramps86 1) = 10
   /\ writable ideal gif_name = true
   /\ same_as_itself (same_pixels ideal)
   /\ changing (same_pixels ideal)
        (yielded_in ideal (_next_image (ramps86 0) (ramps86 1)) compared86)
      = true)
  /\ exists frames s0 s' g,
       images_in ideal (_next_image (ramps86 0) (ramps86 1)) compared86
       = (Ok frames, s0)
       /\ length frames = 10
       /\ to_gif_in ideal (ramps86 0) (ramps86 1) compared86 = (Ok tt, s')
       /\ disk s' = (gif_name, g) :: disk compared86
       /\ Pil.read gif_name (disk s') = Some g
       /\ map fst (Pil.frames g) = frames
       /\ Forall (fun f => snd f = 100) (tl (Pil.frames g))
       /\ Pil.loop g = 0.
Proof.
  split.
  - repeat (split; [first [exact same_picture_refl | vm_compute; reflexivity]|]).
    vm_compute. reflexivity.
  - apply (to_gif_writes_animation ideal 8 6 compared86 (ramps86 0) (ramps86 1));
      first [exact same_picture_refl | vm_compute; reflexivity].
Defined.

(** C5, counterexample. Ten identical fields of constant value 1 for the
    ground truth and for the prediction, on the 8 by 6 grid the animator
    is bound to: [to_gif] raises [ValueError] and writes no file. *)
Lemma to_gif_constant_fields_raises :
  bound 8 6 compared86 = true
  /\ fst (to_gif (repeat (constant 1 8 6) 10) (repeat (constant 1 8 6) 10)
            compared86) = Raise ValueError
  /\ disk (snd (to_gif (repeat (constant 1 8 6) 10)
                  (repeat (constant 1 8 6) 10) compared86)) = [].
Proof. repeat split; vm_compute; reflexivity. Qed.

(** ** Empty sequences *)

(** C6, as the code has it. For an empty ground-truth sequence the first
    frame request raises, [ValueError] from the minimum of an empty array
    when the drawing surface exists and [AttributeError] from the axes
    deletion when it does not; no frame is yielded, and [to_gif] raises
    the same error without writing a file. *)
Theorem animate_empty_raises (s : State) (prediction : Np.stack) :
  let e := match axes (self s) with
           | Some _ => ValueError
           | None => AttributeError
           end in
  exists s',
    next (_next_image [] prediction) s = (Raise e, s')
    /\ images (_next_image [] prediction) s = (Raise e, s')
    /\ to_gif [] prediction s = (Raise e, s')
    /\ disk s' = disk s.
Proof.
  destruct s as [[mf lv h fg [n0|] sh] [figs k] d]; cbn;
    eexists; repeat split; reflexivity.
Qed.

(** C6, counterexample. With both sequences empty the first frame
    request on the bound animator raises [ValueError]: the animation does
    not end quietly with zero frames. *)
Lemma animate_empty_not_silent :
  fst (next (_next_image [] []) compared) = Raise ValueError
  /\ fst (images (_next_image [] []) compared) = Raise ValueError.
Proof. split; vm_compute; reflexivity. Qed.

(** ** A constant ground truth *)




(** ** One call of [plot] in any state *)

Ltac quiet := cbn -[Xr.getattr Xr.getitem Np.reshape Mpl.contour].

(** Case analysis along the body of [plot]. *)
Ltac branch_plot :=
  repeat match goal with
         | |- context [match Xr.getattr ?m ?f with _ => _ end] =>
             destruct (Xr.getattr m f); quiet
         | |- context [match Xr.getitem ?m ?f with _ => _ end] =>
             let G := fresh "G" in destruct (Xr.getitem m f) eqn:G; quiet
         | |- context [match Np.reshape ?a ?s with _ => _ end] =>
             let E := fresh "E" in destruct (Np.reshape a s) eqn:E; quiet
         | |- context [Mpl.contour ?n ?x ?y ?z ?cl ?ls ?lv ?p] =>
             let E := fresh "E" in
             destruct (Mpl.contour n x y z cl ls lv p) as [[?|?] ?] eqn:E;
             quiet
         | |- context [truthy ?l] => destruct (truthy l); quiet
         end.

Ltac run_plot :=
  unfold plot, try_except, bind, get_axes, get_shape, the, ret, raise, lift,
    pyplot_, pyplot, set_levels, set_handles, set_fig, set_axes, set_shape,
    set_magnetic_flux, set_self, modify.

Lemma plot_without_grid (s : State) (data : Data) (label : option string)
    (kwargs : Kwargs) :
  has_grid (flux_after data s) = false ->
  fst (plot data label kwargs s) = Raise AttributeError.
Proof.
  intro H. destruct s as [[mf lv h fg axs sh] [figs k] d].
  assert (G : forall mf', has_grid mf' = false ->
              Xr.getattr mf' Xr.major_radius = Raise AttributeError
              \/ exists x, Xr.getattr mf' Xr.major_radius = Ok x
                           /\ Xr.getattr mf' Xr.z = Raise AttributeError).
  { intros [da|] G; cbn in *; [|left; reflexivity].
    destruct (Xr.major_radius da); [|left; reflexivity].
    destruct (Xr.z da); [discriminate|]. right. eexists. split; reflexivity. }
  destruct data as [da|a|]; cbn [flux_after self magnetic_flux] in H;
    apply G in H; run_plot; cbn -[Xr.getattr];
    destruct axs; cbn -[Xr.getattr];
    destruct H as [H|[x [H1 H2]]]; rewrite ?H, ?H1; cbn -[Xr.getattr];
    rewrite ?H2; reflexivity.
Qed.

Lemma plot_wrong_count (s : State) (data : Data) (label : option string)
    (kwargs : Kwargs) (a : Np.ndarray) (sh : nat * nat) :
  has_grid (flux_after data s) = true ->
  payload data = Some a ->
  shape (self s) = Some sh ->
  Np.size a <> fst sh * snd sh ->
  fst (plot data label kwargs s) = Raise ValueError.
Proof.
  intros H Hp Hs Hn. destruct s as [[mf lv h fg axs sh0] [figs k] d].
  cbn [self shape] in Hs. subst sh0.
  apply Nat.eqb_neq in Hn.
  assert (G : forall mf', has_grid mf' = true ->
              exists x y, Xr.getattr mf' Xr.major_radius = Ok x
                          /\ Xr.getattr mf' Xr.z = Ok y).
  { intros [da|] G; cbn in *; [|discriminate].
    destruct (Xr.major_radius da); [|discriminate].
    destruct (Xr.z da); [|discriminate]. do 2 eexists. split; reflexivity. }
  apply G in H. destruct H as (x & y & H1 & H2).
  destruct data as [da|a0|]; cbn in Hp; [| |discriminate Hp];
    injection Hp as <-; cbn [flux_after self magnetic_flux] in H1, H2;
    run_plot; cbn -[Xr.getattr Np.reshape];
    destruct axs; cbn -[Xr.getattr Np.reshape];
    rewrite H1; cbn -[Xr.getattr Np.reshape];
    rewrite H2; cbn -[Xr.getattr Np.reshape];
    unfold Np.reshape; rewrite Hn; reflexivity.
Qed.

Lemma reshape_shape (a z : Np.ndarray) (sh : nat * nat) :
  Np.reshape a sh = Ok z ->
  Np.shape z = [fst sh; snd sh] /\ Np.data z = Np.data a.
Proof.
  unfold Np.reshape. destruct (Np.size a =? fst sh * snd sh); [|discriminate].
  intro E. injection E as <-. split; reflexivity.
Qed.

Lemma contour_Z n x y z cl ls lv p cs p' :
  Mpl.contour n x y z cl ls lv p = (Ok cs, p') -> Mpl.Z cs = z.
Proof.
  unfold Mpl.contour. destruct (Mpl.check_xyz x y z); [|discriminate].
  destruct (Mpl.process_levels lv z); [|discriminate].
  intro E. injection E as <- _. reflexivity.
Qed.

Lemma plot_result_shape (s : State) (data : Data) (label : option string)
    (kwargs : Kwargs) (sh : nat * nat) (cs : Mpl.ContourSet) :
  shape (self s) = Some sh ->
  fst (plot data label kwargs s) = Ok cs ->
  Np.shape (Mpl.Z cs) = [fst sh; snd sh].
Proof.
  intros Hs. destruct s as [[mf lv h fg axs sh0] [figs k] d].
  cbn [self shape] in Hs. subst sh0.
  run_plot.
  destruct data as [da|a|]; quiet;
    destruct axs; quiet;
    branch_plot;
    intro H; try discriminate H; try (destruct e; discriminate H);
    injection H as <-;
    match goal with
    | E1 : Np.reshape _ _ = Ok _, E2 : Mpl.contour _ _ _ _ _ _ _ _ = _ |- _ =>
        rewrite (contour_Z _ _ _ _ _ _ _ _ _ _ E2);
        exact (proj1 (reshape_shape _ _ _ E1))
    end.
Qed.

Section Keeps.

Lemma keeps_ret {A} (a : A) : keeps_shape (ret a).
Proof. intros s sh H. exact H. Qed.

Lemma keeps_raise {A} (e : exn) : keeps_shape (@raise State A e).
Proof. intros s sh H. exact H. Qed.

Lemma keeps_lift {A} (r : result A) : keeps_shape (lift r).
Proof. intros s sh H. exact H. Qed.

Lemma keeps_the {A} (f : t -> A) : keeps_shape (the f).
Proof. intros s sh H. exact H. Qed.

Lemma keeps_bind {A B} (m : M State A) (k : A -> M State B) :
  keeps_shape m -> (forall a, keeps_shape (k a)) -> keeps_shape (bind m k).
Proof.
  intros Hm Hk s sh H. unfold bind.
  specialize (Hm s sh H). destruct (m s) as [[a|e] s1]; cbn [snd] in *.
  - apply Hk. exact Hm.
  - exact Hm.
Qed.

Lemma keeps_try {A} (m h : M State A) (e : exn) :
  keeps_shape m -> keeps_shape h -> keeps_shape (try_except m e h).
Proof.
  intros Hm Hh s sh H. unfold try_except.
  specialize (Hm s sh H). destruct (m s) as [[a|e'] s1]; cbn [snd] in *.
  - exact Hm.
  - destruct e, e'; first [apply Hh; exact Hm | exact Hm].
Qed.

Lemma keeps_pyplot {A} (f : Mpl.Pyplot -> result A * Mpl.Pyplot) :
  keeps_shape (pyplot f).
Proof.
  intros s sh H. unfold pyplot. destruct (f (plt s)). exact H.
Qed.

Lemma keeps_pyplot_ (f : Mpl.Pyplot -> Mpl.Pyplot) : keeps_shape (pyplot_ f).
Proof. apply keeps_pyplot. Qed.

Lemma keeps_set_self (f : t -> t) :
  (forall x, shape (f x) = shape x) -> keeps_shape (set_self f).
Proof. intros Hf s sh H. cbn. rewrite Hf. exact H. Qed.

Lemma keeps_for_each {A} (l : list A) (f : A -> M State unit) :
  (forall a, keeps_shape (f a)) -> keeps_shape (for_each l f).
Proof.
  intro Hf. induction l as [|x l IH]; cbn [for_each].
  - apply keeps_ret.
  - apply keeps_bind; [apply Hf | intros _; exact IH].
Qed.

Lemma keeps_get_shape : keeps_shape get_shape.
Proof.
  intros s sh H. unfold get_shape, bind, the. rewrite H. exact H.
Qed.

Create HintDb keeps.

#[local] Hint Resolve keeps_ret keeps_raise keeps_lift keeps_the keeps_pyplot
  keeps_pyplot_ keeps_get_shape : keeps.

Ltac keeps :=
  repeat first
    [ solve [auto with keeps]
    | apply keeps_set_self; intro; reflexivity
    | apply keeps_try
    | apply keeps_for_each; intro
    | apply keeps_bind; [|intro]
    | match goal with
      | |- keeps_shape (match ?x with _ => _ end) => destruct x
      | |- keeps_shape (if ?x then _ else _) => destruct x
      end ].

Lemma keeps_get_axes : keeps_shape get_axes.
Proof. unfold get_axes, pyplot_, set_fig, set_axes. keeps. Qed.

Lemma keeps_del_axes : keeps_shape del_axes.
Proof. unfold del_axes, set_axes. keeps. Qed.

Lemma keeps_plot data label kwargs : keeps_shape (plot data label kwargs).
Proof.
  pose proof keeps_get_axes.
  unfold plot, set_magnetic_flux, set_levels, set_handles. keeps.
Qed.

Lemma keeps_legend : keeps_shape legend.
Proof. unfold legend, pyplot_, set_handles. keeps. Qed.

Lemma keeps_call e p : keeps_shape (__call__ e p).
Proof.
  pose proof keeps_plot. unfold __call__. keeps.
Qed.

Lemma keeps_prelude E e p : keeps_shape (prelude_in E e p).
Proof.
  pose proof keeps_call. pose proof keeps_legend. pose proof keeps_del_axes.
  unfold prelude_in, set_handles, set_levels. keeps.
Qed.

Lemma keeps_body cs e p : keeps_shape (body cs e p).
Proof.
  pose proof keeps_call. unfold body, pyplot_. keeps.
Qed.

Lemma keeps_sweep cs rest : keeps_shape (sweep cs rest).
Proof.
  revert cs. induction rest as [|[e p] rest IH]; intro cs; cbn [sweep].
  - apply keeps_ret.
  - pose proof keeps_body. keeps.
Qed.

Lemma keeps_next E g : keeps_shape (next_in E g).
Proof.
  pose proof (keeps_prelude E). pose proof keeps_body.
  destruct g as [e p|cs rest|]; cbn [next_in]; unfold resume; keeps.
Qed.

Lemma keeps_images E g : keeps_shape (images_in E g).
Proof.
  pose proof (keeps_prelude E). pose proof keeps_sweep.
  destruct g as [e p|cs rest|]; cbn [images_in]; keeps.
Qed.

Lemma keeps_to_gif E e p : keeps_shape (to_gif_in E e p).
Proof.
  pose proof (keeps_images E). unfold to_gif_in. keeps.
  intros s sh H0.
  cbv beta. destruct (Pil.save _ _ _ _ _ _ _ _); exact H0.
Qed.

End Keeps.

Lemma plot_first_shape (s s' : State) (data : Data) (label : option string)
    (kwargs : Kwargs) (cs : Mpl.ContourSet) :
  shape (self s) = None ->
  plot data label kwargs s = (Ok cs, s') ->
  exists da nz nr,
    flux_after data s = Some da
    /\ Xr.getitem (Xr.sizes da) "z" = Ok nz
    /\ Xr.getitem (Xr.sizes da) "major_radius" = Ok nr
    /\ shape (self s') = Some (nz, nr)
    /\ Np.shape (Mpl.Z cs) = [nz; nr].
Proof.
  intros Hs. destruct s as [[mf lv h fg axs sh0] [figs k] d].
  cbn [self shape] in Hs. subst sh0.
  run_plot.
  destruct data as [da|a|]; [|destruct mf as [da|]..];
    quiet;
    destruct axs; quiet;
    branch_plot;
    intro H; try discriminate H; try (destruct e; discriminate H);
    injection H as <- <-;
    match goal with
    | E1 : Np.reshape _ _ = Ok _, E2 : Mpl.contour _ _ _ _ _ _ _ _ = _ |- _ =>
        do 3 eexists; cbn [flux_after self magnetic_flux shape];
        repeat (split; [first [reflexivity | eassumption]|]);
        rewrite (contour_Z _ _ _ _ _ _ _ _ _ _ E2);
        exact (proj1 (reshape_shape _ _ _ E1))
    end.
Qed.

Lemma plot_rebinds (s : State) (da : Xr.DataArray) (label : option string)
    (kwargs : Kwargs) :
  magnetic_flux (self (snd (plot (DataArray da) label kwargs s))) = Some da.
Proof.
  destruct s as [[mf lv h fg axs sh0] [figs k] d].
  run_plot.
  quiet;
    destruct axs, sh0; quiet;
    branch_plot;
    repeat match goal with
           | |- context [match ?e with AttributeError => _ | _ => _ end] =>
               destruct e; quiet
           end; reflexivity.
Qed.

Lemma process_levels_ok (lv : Mpl.Levels) (z : Np.ndarray) :
  levels_ok lv = true -> exists lv', Mpl.process_levels lv z = Ok lv'.
Proof.
  destruct lv as [n|l|n lo hi]; unfold levels_ok, Mpl.process_levels;
    intro H; try (eexists; reflexivity).
  apply orb_prop in H. destruct H as [H|H].
  - apply Nat.leb_le in H. destruct (Nat.ltb_spec 1 (length l)); [lia|].
    eexists. reflexivity.
  - rewrite H, andb_false_r. eexists. reflexivity.
Qed.

Lemma plot_reshapes (r c : nat) (s : State) (a : Np.ndarray)
    (label : option string) (kwargs : Kwargs) :
  bound r c s = true ->
  levels_ok (or_else (kw_levels kwargs) (levels (self s))) = true ->
  Np.size a = r * c ->
  exists cs s',
    plot (Ndarray a) label kwargs s = (Ok cs, s')
    /\ Mpl.Z cs = {| Np.shape := [r; c]; Np.data := Np.data a |}.
Proof.
  intros Hb Hlv Ha.
  destruct (bound_inv r c s Hb)
    as (da & xs & ys & lv & h & fg & n0 & Hs & Hx & Hy & Hlx & Hly & Hr & Hc).
  destruct s as [slf [figs k] d]. cbn [self] in Hs, Hlv. subst slf.
  cbn [levels] in Hlv.
  destruct (process_levels_ok _ {| Np.shape := [r; c]; Np.data := Np.data a |}
              Hlv) as [lv' Hp].
  run_plot. cbn -[Np.reshape Mpl.contour]. rewrite Hx, Hy.
  cbn -[Np.reshape Mpl.contour]. rewrite (reshape_grid r c a Ha).
  unfold Mpl.contour. rewrite (check_grid xs ys r c Hlx Hly Hr Hc), Hp.
  cbn. destruct (truthy label); cbn; do 2 eexists; split; reflexivity.
Qed.

Lemma plot_unlabelled (s : State) (data : Data) (label : option string)
    (kwargs : Kwargs) :
  truthy label = false ->
  _handles (self (snd (plot data label kwargs s))) = _handles (self s).
Proof.
  intro Hl. destruct s as [[mf lv h fg axs sh0] [figs k] d].
  run_plot. rewrite Hl.
  destruct data as [da|a|]; [|destruct mf as [da|]..]; quiet;
    destruct axs, sh0; quiet; branch_plot;
    repeat match goal with
           | |- context [match ?e with AttributeError => _ | _ => _ end] =>
               destruct e; quiet
           end; reflexivity.
Qed.

Lemma contour_inv n x y z cl ls lv p cs p' :
  Mpl.contour n x y z cl ls lv p = (Ok cs, p') ->
  Mpl.colors cs = cl /\ Mpl.linestyles cs = ls /\ Mpl.host cs = n
  /\ Mpl.ident cs = Mpl.serial p /\ Mpl.serial p' = S (Mpl.serial p)
  /\ Mpl.process_levels lv z = Ok (Mpl.cs_levels cs).
Proof.
  unfold Mpl.contour. destruct (Mpl.check_xyz x y z); [|discriminate].
  destruct (Mpl.process_levels lv z); [|discriminate].
  intro E. injection E as <- <-. repeat split; reflexivity.
Qed.

Lemma contour_err n x y z cl ls lv p e p' :
  Mpl.contour n x y z cl ls lv p = (Raise e, p') -> p' = p.
Proof.
  unfold Mpl.contour. destruct (Mpl.check_xyz x y z).
  - destruct (Mpl.process_levels lv z); [discriminate|].
    intro E. injection E as _ <-. reflexivity.
  - intro E. injection E as _ <-. reflexivity.
Qed.

(** Levels that came out of the level processing go through it again
    unchanged, whatever the data. *)
Lemma process_levels_stable lv z lv' z' :
  Mpl.process_levels lv z = Ok lv' -> Mpl.process_levels lv' z' = Ok lv'.
Proof.
  destruct lv as [n|l|n lo hi]; unfold Mpl.process_levels.
  - intro E. injection E as <-. reflexivity.
  - destruct ((1 <? length l) && negb (Mpl.increasing l)) eqn:C; [discriminate|].
    intro E. injection E as <-. rewrite C. reflexivity.
  - intro E. injection E as <-. reflexivity.
Qed.

Lemma plot_ok_inv (s s' : State) (data : Data) (label : option string)
    (kwargs : Kwargs) (cs : Mpl.ContourSet) :
  plot data label kwargs s = (Ok cs, s') ->
  Mpl.colors cs = or_else (kw_colors kwargs) "gray"
  /\ Mpl.linestyles cs = or_else (kw_linestyles kwargs) "-"
  /\ levels (self s') = Mpl.cs_levels cs
  /\ (exists z, Mpl.process_levels
                   (or_else (kw_levels kwargs) (levels (self s))) z
                 = Ok (Mpl.cs_levels cs))
  /\ _handles (self s')
     = _handles (self s) ++ queued label (or_else (kw_colors kwargs) "gray")
  /\ axes (self s') = Some (Mpl.host cs)
  /\ Mpl.ident cs = Mpl.serial (plt s)
  /\ Mpl.serial (plt s') = S (Mpl.serial (plt s))
  /\ magnetic_flux (self s') = flux_after data s
  /\ disk s' = disk s.
Proof.
  destruct s as [[mf lv h fg axs sh0] [figs k] d].
  run_plot. unfold queued.
  destruct data as [da|a|]; [|destruct mf as [da|]..]; quiet;
    destruct axs, sh0; quiet; branch_plot;
    intro H; try discriminate H;
    try match type of H with
        | context [match ?e with AttributeError => _ | _ => _ end] =>
            destruct e; discriminate H
        end;
    injection H as <- <-;
    match goal with
    | E2 : Mpl.contour _ _ _ _ _ _ _ _ = _ |- _ =>
        destruct (contour_inv _ _ _ _ _ _ _ _ _ _ E2)
          as (Hc & Hls & Hh & Hi & Hser & Hlv);
        cbn [self plt disk levels _handles axes magnetic_flux Mpl.serial
             Mpl.set_axis_off Mpl.set_aspect Mpl.on_axes Mpl.on_figure
             Mpl.subplots Mpl.new_figure fst snd] in *;
        rewrite ?app_nil_r;
        repeat split;
        first [ assumption | reflexivity | congruence
              | eexists; eassumption ]
    end.
Qed.

Lemma plot_err_inv (s s' : State) (data : Data) (label : option string)
    (kwargs : Kwargs) (e : exn) :
  plot data label kwargs s = (Raise e, s') ->
  levels (self s') = levels (self s)
  /\ _handles (self s') = _handles (self s)
  /\ Mpl.serial (plt s') = Mpl.serial (plt s)
  /\ magnetic_flux (self s') = flux_after data s
  /\ disk s' = disk s.
Proof.
  destruct s as [[mf lv h fg axs sh0] [figs k] d].
  run_plot.
  destruct data as [da|a|]; [|destruct mf as [da|]..]; quiet;
    destruct axs, sh0; quiet; branch_plot;
    repeat match goal with
           | |- context [match ?x with AttributeError => _ | _ => _ end] =>
               destruct x; quiet
           end;
    intro H; try discriminate H;
    injection H as <- <-;
    try match goal with
        | E2 : Mpl.contour _ _ _ _ _ _ _ _ = _ |- _ =>
            apply contour_err in E2; subst
        end;
    repeat split; reflexivity.
Qed.

(** ** Grid errors of [plot] *)

(** C3, as the code has it. [plot] raises [AttributeError] when the flux
    field it works with is missing or lacks the [major_radius] or [z]
    coordinate; it raises [ValueError] when the array has another number
    of elements than the shape established on the instance; an array
    with that number of elements, whatever its own shape, is reshaped to
    the established shape and plotted without an error. *)
Theorem plot_grid_errors (s : State) (data : Data) (label : option string)
    (kwargs : Kwargs) :
  (has_grid (flux_after data s) = false ->
   fst (plot data label kwargs s) = Raise AttributeError)
  /\ (forall a sh,
         has_grid (flux_after data s) = true ->
         payload data = Some a ->
         shape (self s) = Some sh ->
         Np.size a <> fst sh * snd sh ->
         fst (plot data label kwargs s) = Raise ValueError)
  /\ (forall r c a,
         data = Ndarray a ->
         bound r c s = true ->
         levels_ok (or_else (kw_levels kwargs) (levels (self s))) = true ->
         Np.size a = r * c ->
         exists cs s',
           plot data label kwargs s = (Ok cs, s')
           /\ Mpl.Z cs = {| Np.shape := [r; c]; Np.data := Np.data a |}).
Proof.
  split; [apply plot_without_grid|]. split.
  - intros a sh. apply plot_wrong_count.
  - intros r c a -> Hb Hlv Ha. apply plot_reshapes; assumption.
Qed.

Lemma plot_grid_errors_witness :
  fst (plot (Ndarray tall) None no_kwargs unbound) = Raise AttributeError
  /\ fst (plot (Ndarray (flat_array [1; 2; 3]%Z)) None no_kwargs compared)
     = Raise ValueError
  /\ exists cs s',
       plot (Ndarray tall) None no_kwargs compared = (Ok cs, s')
       /\ Mpl.Z cs = {| Np.shape := [2; 3]; Np.data := Np.data tall |}.
Proof.
  split; [|split].
  - apply (proj1 (plot_grid_errors unbound (Ndarray tall) None no_kwargs)).
    reflexivity.
  - apply (proj1 (proj2 (plot_grid_errors compared
                           (Ndarray (flat_array [1; 2; 3]%Z)) None no_kwargs))
             (flat_array [1; 2; 3]%Z) (2, 3));
      [reflexivity | reflexivity | reflexivity | vm_compute; lia].
  - apply (proj2 (proj2 (plot_grid_errors compared (Ndarray tall) None
                           no_kwargs)) 2 3 tall);
      vm_compute; reflexivity.
Defined.

(** C3, counterexample. The animator is bound to a grid of 2 rows by 3
    columns; a field of 3 rows by 2 columns is then plotted without any
    error, silently reshaped to 2 by 3. *)
Lemma plot_reshapes_silently :
  shape (self compared) = Some (2, 3)
  /\ Np.shape tall = [3; 2]
  /\ is_ok (fst (plot (Ndarray tall) None no_kwargs compared)) = true
  /\ exists cs s',
       plot (Ndarray tall) None no_kwargs compared = (Ok cs, s')
       /\ Np.shape (Mpl.Z cs) = [2; 3].
Proof.
  split; [vm_compute; reflexivity|]. split; [reflexivity|].
  split; [vm_compute; reflexivity|].
  destruct (plot (Ndarray tall) None no_kwargs compared) as [[cs|e] s'] eqn:E;
    [|vm_compute in E; discriminate].
  exists cs, s'. split; [reflexivity|].
  apply (plot_result_shape compared (Ndarray tall) None no_kwargs (2, 3) cs);
    [vm_compute; reflexivity | rewrite E; reflexivity].
Qed.

(** The first access to [shape] caches it, whatever becomes of the plot
    that made the access. *)
Lemma plot_reads_shape (s : State) (data : Data) (label : option string)
    (kwargs : Kwargs) :
  shape (self s) = None ->
  shape (self (snd (plot data label kwargs s)))
  = if reads_shape data s then sized (flux_after data s) else None.
Proof.
  intros Hs. destruct s as [[mf lv h fg axs sh0] [figs k] d].
  cbn [self shape] in Hs. subst sh0.
  unfold reads_shape, has_grid, sized, flux_after, payload.
  cbn [self magnetic_flux].
  run_plot.
  destruct data as [da|a|]; [|destruct mf as [da|]..]; quiet;
    destruct axs; quiet; unfold Xr.getattr;
    try (destruct (Xr.major_radius da); quiet; [|reflexivity];
         destruct (Xr.z da); quiet; [|reflexivity]);
    try reflexivity;
    (destruct (Xr.getitem (Xr.sizes da) "z"); quiet;
     [destruct (Xr.getitem (Xr.sizes da) "major_radius"); quiet|]);
    branch_plot;
    repeat match goal with
           | |- context [match ?e with AttributeError => _ | _ => _ end] =>
               destruct e; quiet
           end; reflexivity.
Qed.

(** ** The cached shape *)

(** C9. The shape is computed at the first access, from the sizes of the
    flux field bound at that moment, and stored on the instance then,
    whether the plot that made the access goes on to return or to raise;
    once it is stored, no operation of the class changes it, and every
    array a later [plot] draws has been reshaped to it, also when that
    [plot] rebinds the instance to another [DataArray]. *)
Theorem shape_computed_once (s : State) :
  (forall data label kwargs,
      shape (self s) = None ->
      shape (self (snd (plot data label kwargs s)))
      = (if reads_shape data s then sized (flux_after data s) else None))
  /\ (forall data label kwargs cs s',
         shape (self s) = None ->
         plot data label kwargs s = (Ok cs, s') ->
         exists da nz nr,
           flux_after data s = Some da
           /\ Xr.getitem (Xr.sizes da) "z" = Ok nz
           /\ Xr.getitem (Xr.sizes da) "major_radius" = Ok nr
           /\ shape (self s') = Some (nz, nr)
           /\ Np.shape (Mpl.Z cs) = [nz; nr])
  /\ (forall sh,
         shape (self s) = Some sh ->
         (forall data label kwargs,
             shape (self (snd (plot data label kwargs s))) = Some sh
             /\ forall cs, fst (plot data label kwargs s) = Ok cs ->
                           Np.shape (Mpl.Z cs) = [fst sh; snd sh])
         /\ (forall da label kwargs,
                magnetic_flux (self (snd (plot (DataArray da) label kwargs s)))
                = Some da)
         /\ shape (self (snd (legend s))) = Some sh
         /\ (forall e p, shape (self (snd (__call__ e p s))) = Some sh)
         /\ (forall E g, shape (self (snd (next_in E g s))) = Some sh)
         /\ (forall E g, shape (self (snd (images_in E g s))) = Some sh)
         /\ (forall E e p, shape (self (snd (to_gif_in E e p s))) = Some sh)).
Proof.
  split; [|split].
  - intros data label kwargs Hs. apply plot_reads_shape. exact Hs.
  - intros data label kwargs cs s' Hs E.
    exact (plot_first_shape s s' data label kwargs cs Hs E).
  - intros sh Hs. repeat split.
    + apply keeps_plot. exact Hs.
    + intros cs E. exact (plot_result_shape s data label kwargs sh cs Hs E).
    + intros da label kwargs. apply plot_rebinds.
    + apply keeps_legend. exact Hs.
    + intros e p. apply keeps_call. exact Hs.
    + intros E g. apply keeps_next. exact Hs.
    + intros E g. apply keeps_images. exact Hs.
    + intros E e p. apply keeps_to_gif. exact Hs.
Qed.

Lemma shape_computed_once_witness :
  (exists cs s',
      plot (DataArray psi0) None no_kwargs (created psi) = (Ok cs, s')
      /\ shape (self s') = Some (2, 3))
  /\ fst (plot (Ndarray (flat_array [1; 2; 3]%Z)) None no_kwargs (created psi))
     = Raise ValueError
  /\ shape (self (snd (plot (Ndarray (flat_array [1; 2; 3]%Z)) None no_kwargs
                         (created psi))))
     = Some (2, 3)
  /\ shape (self (snd (plot (DataArray psi32) None no_kwargs
                         (snd (plot (Ndarray (flat_array [1; 2; 3]%Z)) None
                                 no_kwargs (created psi))))))
     = Some (2, 3)
  /\ shape (self (snd (plot (DataArray psi32) None no_kwargs compared)))
     = Some (2, 3)
  /\ magnetic_flux (self (snd (plot (DataArray psi32) None no_kwargs compared)))
     = Some psi32
  /\ shape (self (snd (to_gif_in ideal efit2 prediction2 compared)))
     = Some (2, 3).
Proof.
  assert (H1 : shape (self (snd (plot (Ndarray (flat_array [1; 2; 3]%Z)) None
                                   no_kwargs (created psi))))
               = Some (2, 3)).
  { rewrite (proj1 (shape_computed_once (created psi))
               (Ndarray (flat_array [1; 2; 3]%Z)) None no_kwargs eq_refl).
    vm_compute. reflexivity. }
  split; [|split; [|split; [|split; [|split; [|split]]]]].
  - destruct (plot (DataArray psi0) None no_kwargs (created psi))
      as [[cs|e] s'] eqn:E; [|vm_compute in E; discriminate].
    exists cs, s'. split; [reflexivity|].
    destruct (proj1 (proj2 (shape_computed_once (created psi)))
                (DataArray psi0) None no_kwargs cs s' eq_refl E)
      as (da & nz & nr & Hda & Hz & Hr & Hsh & _).
    cbn in Hda. injection Hda as <-.
    vm_compute in Hz. vm_compute in Hr.
    injection Hz as <-. injection Hr as <-. exact Hsh.
  - vm_compute. reflexivity.
  - exact H1.
  - apply (proj2 (proj2 (shape_computed_once _)) (2, 3) H1).
  - apply (proj2 (proj2 (shape_computed_once compared)) (2, 3));
      vm_compute; reflexivity.
  - apply (proj2 (proj2 (shape_computed_once compared)) (2, 3));
      vm_compute; reflexivity.
  - apply (proj2 (proj2 (shape_computed_once compared)) (2, 3));
      vm_compute; reflexivity.
Defined.

(** ** The legend *)

(** C10. [legend()] hands the accumulated handles to the legend of the
    current axes and leaves the handle list empty; no other field of the
    instance changes, and no file does. A second call right after it, or
    after plots without a label, therefore draws an empty legend. *)
Theorem legend_empties_handles (s : State) :
  exists s1 s2,
    legend s = (Ok tt, s1)
    /\ _handles (self s1) = []
    /\ magnetic_flux (self s1) = magnetic_flux (self s)
    /\ levels (self s1) = levels (self s)
    /\ fig (self s1) = fig (self s)
    /\ axes (self s1) = axes (self s)
    /\ shape (self s1) = shape (self s)
    /\ disk s1 = disk s
    /\ current_legend (plt s1) = Some (_handles (self s))
    /\ legend s1 = (Ok tt, s2)
    /\ self s2 = self s1
    /\ current_legend (plt s2) = Some []
    /\ (forall data label kwargs,
           truthy label = false ->
           current_legend
             (plt (snd (legend (snd (plot data label kwargs s1)))))
           = Some []).
Proof.
  do 2 eexists.
  split; [reflexivity|].
  repeat (split; [reflexivity|]).
  split; [apply legend_current|].
  split; [reflexivity|]. split; [reflexivity|].
  split; [apply legend_current|].
  intros data label kwargs Hl.
  unfold legend at 1. unfold bind, the, pyplot_, pyplot, set_handles,
    set_self, modify. cbn [snd plt].
  rewrite (plot_unlabelled _ data label kwargs Hl). apply legend_current.
Qed.

Lemma legend_empties_handles_witness :
  _handles (self compared) = key
  /\ current_legend (plt (snd (legend compared))) = Some key
  /\ current_legend
       (plt (snd (legend (snd (plot (Ndarray tall) None no_kwargs
                                 (snd (legend compared)))))))
     = Some [].
Proof.
  split; [vm_compute; reflexivity|].
  destruct (legend_empties_handles compared)
    as (s1 & s2 & E1 & _ & _ & _ & _ & _ & _ & _ & L1 & _ & _ & _ & Hn).
  rewrite E1. cbn [snd]. split.
  - rewrite L1. vm_compute. reflexivity.
  - apply Hn. reflexivity.
Defined.

(** ** The level set of an animation *)

Section HeadLevels.

Variable l : list Q.

Local Abbreviation lv := (Mpl.LArr l).
Local Abbreviation fine := (fun x : Mpl.ContourSet => Mpl.cs_levels x = Mpl.LArr l).



Lemma heads_serial (n k : nat) p :
  heads n lv p -> heads n lv {| Mpl.figures := Mpl.figures p; Mpl.serial := k |}.
Proof. intro H. exact H. Qed.













End HeadLevels.








(** * Further properties of the class *)

(** ** What a call of [plot] does and does not change *)

(** X1. A [plot] that returns has drawn one contour set in the requested
    colour and line style on the instance's axes, stored that contour
    set's levels on the instance, queued one legend handle (label and
    colour) when the label is truthy and none otherwise, and written no
    file; a [plot] that raises has changed neither the levels nor the
    handle list, drawn nothing and written nothing, though a [DataArray]
    argument stays bound either way. *)
Theorem plot_effects (s : State) (data : Data) (label : option string)
    (kwargs : Kwargs) :
  (forall cs s',
      plot data label kwargs s = (Ok cs, s') ->
      Mpl.colors cs = or_else (kw_colors kwargs) "gray"
      /\ Mpl.linestyles cs = or_else (kw_linestyles kwargs) "-"
      /\ axes (self s') = Some (Mpl.host cs)
      /\ levels (self s') = Mpl.cs_levels cs
      /\ _handles (self s')
         = _handles (self s) ++ queued label (or_else (kw_colors kwargs) "gray")
      /\ Mpl.serial (plt s') = S (Mpl.serial (plt s))
      /\ magnetic_flux (self s') = flux_after data s
      /\ disk s' = disk s)
  /\ (forall e s',
         plot data label kwargs s = (Raise e, s') ->
         levels (self s') = levels (self s)
         /\ _handles (self s') = _handles (self s)
         /\ Mpl.serial (plt s') = Mpl.serial (plt s)
         /\ magnetic_flux (self s') = flux_after data s
         /\ disk s' = disk s).
Proof.
  split.
  - intros cs s' E.
    destruct (plot_ok_inv s s' data label kwargs cs E)
      as (H1 & H2 & H3 & _ & H5 & H6 & _ & H8 & H9 & H10).
    repeat split; assumption.
  - intros e s' E. exact (plot_err_inv s s' data label kwargs e E).
Qed.

Lemma plot_effects_witness :
  _handles (self (snd (plot (Ndarray tall) (Some "again") (colors_ "C1")
                         compared)))
  = key ++ [{| Mpl.label := "again"; Mpl.color := "C1" |}]
  /\ _handles (self (snd (plot (Ndarray (flat_array [1; 2; 3]%Z)) (Some "again")
                            (colors_ "C1") compared)))
     = key.
Proof.
  split.
  - destruct (plot (Ndarray tall) (Some "again") (colors_ "C1") compared)
      as [[cs|e] s'] eqn:E; [|vm_compute in E; discriminate].
    destruct (proj1 (plot_effects compared (Ndarray tall) (Some "again")
                       (colors_ "C1")) cs s' E)
      as (_ & _ & _ & _ & H & _).
    cbn [snd]. rewrite H. vm_compute. reflexivity.
  - destruct (plot (Ndarray (flat_array [1; 2; 3]%Z)) (Some "again")
                (colors_ "C1") compared)
      as [[cs|e] s'] eqn:E; [vm_compute in E; discriminate|].
    destruct (proj2 (plot_effects compared (Ndarray (flat_array [1; 2; 3]%Z))
                       (Some "again") (colors_ "C1")) e s' E)
      as (_ & H & _).
    cbn [snd]. rewrite H. vm_compute. reflexivity.
Defined.

(** X2. The levels of the first successful [plot] stay: every later
    successful [plot] that passes no [levels] keyword draws the same
    levels and leaves them on the instance. *)
Theorem plot_levels_persist (s s1 s2 : State) (d1 d2 : Data)
    (l1 l2 : option string) (k1 k2 : Kwargs) (cs1 cs2 : Mpl.ContourSet) :
  plot d1 l1 k1 s = (Ok cs1, s1) ->
  kw_levels k2 = None ->
  plot d2 l2 k2 s1 = (Ok cs2, s2) ->
  Mpl.cs_levels cs2 = Mpl.cs_levels cs1
  /\ levels (self s2) = Mpl.cs_levels cs1.
Proof.
  intros E1 Hk E2.
  destruct (plot_ok_inv s s1 d1 l1 k1 cs1 E1)
    as (_ & _ & L1 & (z1 & P1) & _).
  destruct (plot_ok_inv s1 s2 d2 l2 k2 cs2 E2)
    as (_ & _ & L2 & (z2 & P2) & _).
  rewrite Hk, L1 in P2. cbn [or_else] in P2.
  rewrite (process_levels_stable _ _ _ z2 P1) in P2.
  injection P2 as P2. split; congruence.
Qed.

Lemma plot_levels_persist_witness :
  exists cs1 cs2 s1 s2,
    plot (DataArray psi0) None no_kwargs (created psi) = (Ok cs1, s1)
    /\ plot (Ndarray tall) (Some "again") (colors_ "C1") s1 = (Ok cs2, s2)
    /\ Mpl.cs_levels cs2 = Mpl.cs_levels cs1
    /\ levels (self s2) = Mpl.cs_levels cs1.
Proof.
  destruct (plot (DataArray psi0) None no_kwargs (created psi))
    as [[cs1|e] s1] eqn:E1; [|vm_compute in E1; discriminate].
  destruct (plot (Ndarray tall) (Some "again") (colors_ "C1") s1)
    as [[cs2|e] s2] eqn:E2.
  - exists cs1, cs2, s1, s2. split; [reflexivity|]. split; [exact E2|].
    exact (plot_levels_persist (created psi) s1 s2 (DataArray psi0)
             (Ndarray tall) None (Some "again") no_kwargs (colors_ "C1")
             cs1 cs2 E1 eq_refl E2).
  - exfalso. vm_compute in E1. injection E1 as _ <-.
    vm_compute in E2. discriminate.
Defined.

(** ** Errors of [plot] beyond the grid coordinates *)

(** X3. [plot] called without data raises [AttributeError] in every
    state, whether or not a flux field with its coordinates is bound. *)
Theorem plot_without_data (s : State) (label : option string)
    (kwargs : Kwargs) :
  fst (plot NoData label kwargs s) = Raise AttributeError.
Proof.
  destruct s as [[mf lv h fg axs sh0] [figs k] d].
  run_plot. destruct mf as [da|]; quiet; destruct axs; quiet;
    try reflexivity; unfold Xr.getattr;
    (destruct (Xr.major_radius da); quiet; [|reflexivity]);
    destruct (Xr.z da); quiet; reflexivity.
Qed.

Lemma getitem_error (m : list (string * nat)) (key : string) (e : exn) :
  Xr.getitem m key = Raise e -> e = KeyError.
Proof.
  induction m as [|[k v] m IH]; cbn.
  - intro E. injection E as <-. reflexivity.
  - destruct (String.eqb k key); [discriminate | exact IH].
Qed.

(** X4. When no shape is cached yet and the flux field carries both
    coordinates but lacks the [z] or the [major_radius] dimension, [plot]
    of an array raises [KeyError], which the handler for the missing
    coordinates does not catch; no shape is cached. *)
Theorem plot_missing_dimension (s : State) (data : Data)
    (label : option string) (kwargs : Kwargs) (da : Xr.DataArray)
    (a : Np.ndarray) :
  shape (self s) = None ->
  flux_after data s = Some da -> has_grid (Some da) = true ->
  has_dims da = false ->
  payload data = Some a ->
  fst (plot data label kwargs s) = Raise KeyError
  /\ shape (self (snd (plot data label kwargs s))) = None.
Proof.
  intros Hs Hf Hg Hd Hp. destruct s as [[mf lv h fg axs sh0] [figs k] d].
  cbn [self shape] in Hs. subst sh0.
  unfold has_grid in Hg. unfold has_dims in Hd.
  destruct (Xr.major_radius da) as [xs|] eqn:Hx; [|discriminate].
  destruct (Xr.z da) as [ys|] eqn:Hy; [|discriminate].
  assert (G : forall a0,
             match Xr.getitem (Xr.sizes da) "z" with
             | Ok nz =>
                 match Xr.getitem (Xr.sizes da) "major_radius" with
                 | Ok nr => Ok (nz, nr)
                 | Raise e => Raise e
                 end
             | Raise e => Raise e
             end <> Ok a0).
  { intros a0. destruct (Xr.getitem (Xr.sizes da) "z") eqn:G1;
      [destruct (Xr.getitem (Xr.sizes da) "major_radius") eqn:G2|];
      discriminate. }
  run_plot.
  destruct data as [da'|a'|]; cbn in Hf, Hp; try discriminate Hp;
    [injection Hf as ->|subst mf]; quiet;
    destruct axs; quiet; unfold Xr.getattr; rewrite Hx, Hy; quiet;
    (destruct (Xr.getitem (Xr.sizes da) "z") eqn:G1; quiet;
     [destruct (Xr.getitem (Xr.sizes da) "major_radius") eqn:G2; quiet;
      [discriminate Hd|]|]);
    match goal with
    | G : Xr.getitem _ _ = Raise ?e |- _ =>
        rewrite (getitem_error _ _ _ G); split; reflexivity
    end.
Qed.

Lemma check_xyz_mismatch (xs ys : list Q) (r c : nat) (dat : list Q) :
  (length xs =? c) && (length ys =? r) = false ->
  Mpl.check_xyz xs ys {| Np.shape := [r; c]; Np.data := dat |}
  = Raise TypeError.
Proof.
  intro H. unfold Mpl.check_xyz. cbn [Np.shape].
  destruct ((r <? 2) || (c <? 2)); [reflexivity|].
  destruct (length xs =? c); [|reflexivity].
  cbn [andb negb] in *. rewrite H. reflexivity.
Qed.

Lemma plot_off_grid (s : State) (data : Data) (label : option string)
    (kwargs : Kwargs) (da : Xr.DataArray) (xs ys : list Q) (r c : nat)
    (a : Np.ndarray) :
  shape (self s) = Some (r, c) ->
  flux_after data s = Some da ->
  Xr.major_radius da = Some xs -> Xr.z da = Some ys ->
  (length xs =? c) && (length ys =? r) = false ->
  payload data = Some a -> Np.size a = r * c ->
  fst (plot data label kwargs s) = Raise TypeError.
Proof.
  intros Hs Hf Hx Hy Hm Hp Ha.
  destruct s as [[mf lv h fg axs sh0] [figs k] d].
  cbn [self shape] in Hs. subst sh0.
  run_plot.
  destruct data as [da'|a'|]; cbn in Hf, Hp; try discriminate Hp;
    injection Hp as ->; [injection Hf as ->|subst mf]; quiet;
    destruct axs; quiet; unfold Xr.getattr; rewrite Hx, Hy; quiet;
    unfold Np.reshape; cbn [fst snd]; rewrite Ha, Nat.eqb_refl; quiet;
    unfold Mpl.contour; rewrite (check_xyz_mismatch xs ys r c _ Hm);
    reflexivity.
Qed.

(** X5. On an instance whose shape is cached, [plot] of a [DataArray]
    with the cached number of elements but coordinates of other lengths
    raises [TypeError] from the contour call, and leaves that field
    bound while the cached shape stays: from then on [plot] of any plain
    array of the cached size raises [TypeError] as well. *)
Theorem plot_rebind_mismatch (s : State) (da : Xr.DataArray)
    (xs ys : list Q) (r c : nat) (label : option string) (kwargs : Kwargs) :
  shape (self s) = Some (r, c) ->
  Xr.major_radius da = Some xs -> Xr.z da = Some ys ->
  (length xs =? c) && (length ys =? r) = false ->
  Np.size (Xr.values da) = r * c ->
  fst (plot (DataArray da) label kwargs s) = Raise TypeError
  /\ magnetic_flux (self (snd (plot (DataArray da) label kwargs s))) = Some da
  /\ shape (self (snd (plot (DataArray da) label kwargs s))) = Some (r, c)
  /\ forall a label' kwargs',
       Np.size a = r * c ->
       fst (plot (Ndarray a) label' kwargs'
              (snd (plot (DataArray da) label kwargs s)))
       = Raise TypeError.
Proof.
  intros Hs Hx Hy Hm Ha.
  pose proof (plot_off_grid s (DataArray da) label kwargs da xs ys r c
                (Xr.values da) Hs eq_refl Hx Hy Hm eq_refl Ha) as E.
  pose proof (plot_rebinds s da label kwargs) as Hb.
  pose proof (keeps_plot (DataArray da) label kwargs s (r, c) Hs) as Hk.
  repeat split; try assumption.
  intros a label' kwargs' Hsz.
  exact (plot_off_grid _ (Ndarray a) label' kwargs' da xs ys r c a
           Hk Hb Hx Hy Hm eq_refl Hsz).
Qed.

Lemma plot_missing_dimension_witness :
  fst (plot (DataArray psi_stacked) None no_kwargs (created psi_stacked))
  = Raise KeyError
  /\ shape (self (snd (plot (DataArray psi_stacked) None no_kwargs
                         (created psi_stacked)))) = None.
Proof.
  apply (plot_missing_dimension (created psi_stacked) (DataArray psi_stacked)
           None no_kwargs psi_stacked tall); reflexivity.
Defined.

Lemma plot_rebind_mismatch_witness :
  fst (plot (DataArray psi32) None no_kwargs compared) = Raise TypeError
  /\ magnetic_flux (self (snd (plot (DataArray psi32) None no_kwargs compared)))
     = Some psi32
  /\ shape (self (snd (plot (DataArray psi32) None no_kwargs compared)))
     = Some (2, 3)
  /\ forall a label' kwargs',
       Np.size a = 2 * 3 ->
       fst (plot (Ndarray a) label' kwargs'
              (snd (plot (DataArray psi32) None no_kwargs compared)))
       = Raise TypeError.
Proof.
  apply (plot_rebind_mismatch compared psi32 (ints [1; 2]%Z)
           (ints [-1; 0; 1]%Z) 2 3 None no_kwargs);
    vm_compute; reflexivity.
Defined.

(** ** The [axes] property *)

(** X6. The first access to [axes] opens one new figure of 3 by 4.5
    inches, which becomes the current figure, with an empty axes of equal
    aspect and hidden axis, and records it as [fig] and as the cached
    [axes]; the access repeated returns the same axes and opens nothing. *)
Theorem axes_created_once (s : State) :
  axes (self s) = None ->
  exists n s1 f,
    get_axes s = (Ok n, s1)
    /\ n = S (length (Mpl.figures (plt s)))
    /\ axes (self s1) = Some n /\ fig (self s1) = Some n
    /\ hd_error (Mpl.figures (plt s1)) = Some f
    /\ Mpl.number f = n /\ Mpl.figsize f = (3, 9 # 2)%Q
    /\ Mpl.ax f = sheet None []
    /\ length (Mpl.figures (plt s1)) = S (length (Mpl.figures (plt s)))
    /\ get_axes s1 = (Ok n, s1).
Proof.
  intro H. destruct s as [[mf lv h fg axs sh0] [figs k] d].
  cbn [self axes] in H. subst axs.
  unfold get_axes, bind, the, pyplot_, pyplot, set_fig, set_axes, set_self,
    modify, ret, Mpl.subplots, Mpl.new_figure.
  cbn [self plt disk axes fig fst snd Mpl.figures Mpl.serial].
  unfold Mpl.set_axis_off, Mpl.set_aspect, Mpl.new_axes.
  rewrite !on_axes_head.
  cbn [self plt disk axes fig fst snd Mpl.figures Mpl.serial Mpl.aspect
       Mpl.axis_on Mpl.collections Mpl.legend_].
  do 3 eexists. split; [reflexivity|].
  repeat (split; [reflexivity|]).
  split; [|reflexivity].
  cbn; rewrite ?on_axes_length, ?length_map; reflexivity.
Qed.

Lemma axes_created_once_witness :
  exists n s1 f,
    get_axes (created psi) = (Ok n, s1)
    /\ n = S (length (Mpl.figures (plt (created psi))))
    /\ axes (self s1) = Some n /\ fig (self s1) = Some n
    /\ hd_error (Mpl.figures (plt s1)) = Some f
    /\ Mpl.number f = n /\ Mpl.figsize f = (3, 9 # 2)%Q
    /\ Mpl.ax f = sheet None []
    /\ length (Mpl.figures (plt s1))
       = S (length (Mpl.figures (plt (created psi))))
    /\ get_axes s1 = (Ok n, s1).
Proof. apply (axes_created_once (created psi)). reflexivity. Defined.

(** ** Animations that cannot start *)

(** X7. On an instance whose axes was never created (or was deleted and
    not re-created), the first frame request raises [AttributeError] for
    any input, and so does [to_gif]; the state is left exactly as it was. *)
Theorem animate_needs_axes (s : State) (efit prediction : Np.stack) :
  axes (self s) = None ->
  next (_next_image efit prediction) s = (Raise AttributeError, s)
  /\ images (_next_image efit prediction) s = (Raise AttributeError, s)
  /\ to_gif efit prediction s = (Raise AttributeError, s).
Proof.
  intro H. destruct s as [[mf lv h fg axs sh0] p d].
  cbn [self axes] in H. subst axs. repeat split.
Qed.

Lemma animate_needs_axes_witness :
  next (_next_image efit2 prediction2) (created psi)
  = (Raise AttributeError, created psi)
  /\ images (_next_image efit2 prediction2) (created psi)
     = (Raise AttributeError, created psi)
  /\ to_gif efit2 prediction2 (created psi)
     = (Raise AttributeError, created psi).
Proof.
  apply (animate_needs_axes (created psi) efit2 prediction2). reflexivity.
Defined.

Lemma reduce_nonempty (op : Q -> Q -> Q) (l : list Q) :
  l <> [] -> exists v, Np.reduce op l = Ok v.
Proof.
  destruct l as [|x t]; [congruence|]. intros _. eexists. reflexivity.
Qed.

(** X8. On an instance with a live axes, an animation whose ground truth
    has no element, or whose prediction is empty, raises ([ValueError]
    from the minimum, [IndexError] from the last prediction) after the
    axes entry was deleted and the handles cleared: the instance is left
    without axes, so every later [to_gif] raises [AttributeError]. *)
Theorem failed_animation_drops_axes (s : State) (efit prediction : Np.stack)
    (n0 : nat) :
  axes (self s) = Some n0 ->
  Np.elements efit = [] \/ prediction = [] ->
  exists e s1,
    to_gif efit prediction s = (Raise e, s1)
    /\ e = (if match Np.elements efit with [] => true | _ => false end
            then ValueError else IndexError)
    /\ axes (self s1) = None /\ _handles (self s1) = []
    /\ plt s1 = plt s /\ disk s1 = disk s
    /\ forall efit' prediction',
         to_gif efit' prediction' s1 = (Raise AttributeError, s1).
Proof.
  intros H Hc. destruct s as [[mf lv h fg axs sh0] p d].
  cbn [self axes] in H. subst axs.
  unfold to_gif, to_gif_in, images_in, _next_image, prelude_in, bind,
    del_axes, the, set_axes, set_handles, set_levels, set_self, modify, lift,
    Np.min, Np.max.
  cbn [self axes fst snd].
  destruct (Np.elements efit) as [|x t] eqn:El.
  - cbn. do 2 eexists. repeat (split; [reflexivity|]).
    intros. reflexivity.
  - destruct Hc as [Hc|Hc]; [discriminate|]. subst prediction.
    assert (Hne : efit <> []) by (intro E; subst efit; discriminate).
    destruct (Np.last efit) as [e|err] eqn:He.
    2:{ exfalso. unfold Np.last in He.
        destruct (rev efit) eqn:R; [|discriminate].
        apply Hne. rewrite <- (rev_involutive efit), R. reflexivity. }
    cbn. do 2 eexists. repeat (split; [reflexivity|]).
    intros. reflexivity.
Qed.

Lemma failed_animation_drops_axes_witness :
  exists e s1,
    to_gif efit2 [] compared = (Raise e, s1)
    /\ e = IndexError
    /\ axes (self s1) = None /\ _handles (self s1) = []
    /\ plt s1 = plt compared /\ disk s1 = disk compared
    /\ forall efit' prediction',
         to_gif efit' prediction' s1 = (Raise AttributeError, s1).
Proof.
  apply (failed_animation_drops_axes compared efit2 [] 1);
    [vm_compute; reflexivity | right; reflexivity].
Defined.

(** X19. Whatever the ground truth: when the array [linspace] returns has
    several entries and is not strictly increasing, as happens in float64
    for end points too close to each other, the first frame request on an
    animator that has drawn before raises [ValueError] from the contour
    call; no frame is yielded and no file written, and the instance keeps
    these levels. *)
Theorem animate_levels_not_increasing (E : Env) (r c : nat) (s : State)
    (efit prediction : Np.stack) (lo hi : Q) :
  bound r c s = true ->
  on_grid r c efit = true -> 0 < length prediction ->
  Np.min efit = Ok lo -> Np.max efit = Ok hi ->
  1 < length (linspace E lo hi 51) ->
  Mpl.increasing (linspace E lo hi 51) = false ->
  exists s',
    next_in E (_next_image efit prediction) s = (Raise ValueError, s')
    /\ images_in E (_next_image efit prediction) s = (Raise ValueError, s')
    /\ to_gif_in E efit prediction s = (Raise ValueError, s')
    /\ yielded_in E (_next_image efit prediction) s = []
    /\ levels (self s') = Mpl.LArr (linspace E lo hi 51)
    /\ disk s' = disk s.
Proof.
  intros Hb Hge Lp Hlo Hhi Hlen Hinc.
  destruct (last_on_grid r c efit Hge (min_nonempty efit lo Hlo))
    as (e & He & Hse).
  destruct (Np.last prediction) as [p|err] eqn:Hp.
  2:{ exfalso. unfold Np.last in Hp.
      destruct (rev prediction) eqn:R; [|discriminate].
      apply (f_equal (@length _)) in R. rewrite length_rev in R.
      cbn in R. lia. }
  destruct (bound_inv r c s Hb)
    as (da & xs & ys & lv & h & fg & n0 & Hs & Hx & Hy & Hlx & Hly & Hr & Hc).
  pose proof (prelude_head E s efit prediction lo hi e p _ _ _ _ _ _
                Hs Hlo Hhi He Hp) as E0.
  remember (linspace E lo hi 51) as l eqn:El.
  destruct (plot_rejected da xs ys r c l Hx Hy Hlx Hly Hr Hc
              e (Some "EFIT++") "gray" [] fg (Mpl.figures (plt s))
              (Mpl.serial (plt s)) (disk s) Hlen Hinc Hse)
    as (s' & E1 & Hlv & Hd).
  assert (P : prelude_in E efit prediction s = (Raise ValueError, s')).
  { rewrite E0. unfold __call__. unfold bind at 1. unfold bind at 1.
    rewrite E1. reflexivity. }
  exists s'.
  split; [unfold next_in, _next_image, bind; rewrite P; reflexivity|].
  split; [unfold images_in, _next_image, bind; rewrite P; reflexivity|].
  split; [unfold to_gif_in, images_in, _next_image, bind; rewrite P;
          reflexivity|].
  split; [unfold yielded_in, _next_image; rewrite P; reflexivity|].
  split; [exact Hlv | exact Hd].
Qed.

Lemma animate_levels_not_increasing_witness :
  (spread efit2 = true
   /\ bound 2 3 compared = true
   /\ on_grid 2 3 efit2 = true /\ 0 < length prediction2
   /\ Np.min efit2 = Ok 0%Q /\ Np.max efit2 = Ok 6%Q
   /\ 1 < length (linspace collapsing 0 6 51)
   /\ Mpl.increasing (linspace collapsing 0 6 51) = false)
  /\ exists s',
       next_in collapsing (_next_image efit2 prediction2) compared
       = (Raise ValueError, s')
       /\ images_in collapsing (_next_image efit2 prediction2) compared
          = (Raise ValueError, s')
       /\ to_gif_in collapsing efit2 prediction2 compared
          = (Raise ValueError, s')
       /\ yielded_in collapsing (_next_image efit2 prediction2) compared = []
       /\ levels (self s') = Mpl.LArr (linspace collapsing 0 6 51)
       /\ disk s' = disk compared.
Proof.
  split.
  - repeat split; first [vm_compute; reflexivity | cbn; lia].
  - apply (animate_levels_not_increasing collapsing 2 3 compared efit2
             prediction2 0 6);
      first [vm_compute; reflexivity | cbn; lia].
Defined.

(** ** Files *)

Section Disk.

Lemma disk_ret {A} (a : A) : keeps_disk (ret a).
Proof. intro s. reflexivity. Qed.

Lemma disk_raise {A} (e : exn) : keeps_disk (@raise State A e).
Proof. intro s. reflexivity. Qed.

Lemma disk_lift {A} (r : result A) : keeps_disk (lift r).
Proof. intro s. reflexivity. Qed.

Lemma disk_the {A} (f : t -> A) : keeps_disk (the f).
Proof. intro s. reflexivity. Qed.

Lemma disk_bind {A B} (m : M State A) (k : A -> M State B) :
  keeps_disk m -> (forall a, keeps_disk (k a)) -> keeps_disk (bind m k).
Proof.
  intros Hm Hk s. unfold bind.
  specialize (Hm s). destruct (m s) as [[a|e] s1]; cbn [snd] in *.
  - rewrite Hk. exact Hm.
  - exact Hm.
Qed.

Lemma disk_try {A} (m h : M State A) (e : exn) :
  keeps_disk m -> keeps_disk h -> keeps_disk (try_except m e h).
Proof.
  intros Hm Hh s. unfold try_except.
  specialize (Hm s). destruct (m s) as [[a|e'] s1]; cbn [snd] in *.
  - exact Hm.
  - destruct e, e'; first [rewrite Hh; exact Hm | exact Hm].
Qed.

Lemma disk_pyplot {A} (f : Mpl.Pyplot -> result A * Mpl.Pyplot) :
  keeps_disk (pyplot f).
Proof. intro s. unfold pyplot. destruct (f (plt s)). reflexivity. Qed.

Lemma disk_pyplot_ (f : Mpl.Pyplot -> Mpl.Pyplot) : keeps_disk (pyplot_ f).
Proof. apply disk_pyplot. Qed.

Lemma disk_set_self (f : t -> t) : keeps_disk (set_self f).
Proof. intro s. reflexivity. Qed.

Lemma disk_for_each {A} (l : list A) (f : A -> M State unit) :
  (forall a, keeps_disk (f a)) -> keeps_disk (for_each l f).
Proof.
  intro Hf. induction l as [|x l IH]; cbn [for_each].
  - apply disk_ret.
  - apply disk_bind; [apply Hf | intros _; exact IH].
Qed.

Create HintDb disk.

#[local] Hint Resolve disk_ret disk_raise disk_lift disk_the disk_pyplot
  disk_pyplot_ disk_set_self : disk.

Ltac disk :=
  repeat first
    [ solve [auto with disk]
    | apply disk_try
    | apply disk_for_each; intro
    | apply disk_bind; [|intro]
    | match goal with
      | |- keeps_disk (match ?x with _ => _ end) => destruct x
      | |- keeps_disk (if ?x then _ else _) => destruct x
      end ].

Lemma disk_get_axes : keeps_disk get_axes.
Proof. unfold get_axes, set_fig, set_axes. disk. Qed.

Lemma disk_get_shape : keeps_disk get_shape.
Proof. unfold get_shape, set_shape. disk. Qed.

Lemma disk_plot data label kwargs : keeps_disk (plot data label kwargs).
Proof.
  pose proof disk_get_axes. pose proof disk_get_shape.
  unfold plot, set_magnetic_flux, set_levels, set_handles. disk.
Qed.

Lemma disk_legend : keeps_disk legend.
Proof. unfold legend, set_handles. disk. Qed.

Lemma disk_call e p : keeps_disk (__call__ e p).
Proof. pose proof disk_plot. unfold __call__. disk. Qed.

Lemma disk_prelude E e p : keeps_disk (prelude_in E e p).
Proof.
  pose proof disk_call. pose proof disk_legend.
  unfold prelude_in, del_axes, set_axes, set_handles, set_levels. disk.
Qed.

Lemma disk_body cs e p : keeps_disk (body cs e p).
Proof. pose proof disk_call. unfold body. disk. Qed.

Lemma disk_sweep cs rest : keeps_disk (sweep cs rest).
Proof.
  revert cs. induction rest as [|[e p] rest IH]; intro cs; cbn [sweep].
  - apply disk_ret.
  - pose proof disk_body. disk.
Qed.

Lemma disk_next E g : keeps_disk (next_in E g).
Proof.
  pose proof (disk_prelude E). pose proof disk_body.
  destruct g as [e p|cs rest|]; cbn [next_in]; unfold resume; disk.
Qed.

Lemma disk_images E g : keeps_disk (images_in E g).
Proof.
  pose proof (disk_prelude E). pose proof disk_sweep.
  destruct g as [e p|cs rest|]; cbn [images_in]; disk.
Qed.

End Disk.

(** X9. Drawing never writes: [plot], [legend], a comparison, a frame
    request and the draining of the generator all leave the files as they
    are, whether they return or raise. *)
Theorem drawing_writes_nothing (s : State) :
  (forall data label kwargs, disk (snd (plot data label kwargs s)) = disk s)
  /\ disk (snd (legend s)) = disk s
  /\ (forall e p, disk (snd (__call__ e p s)) = disk s)
  /\ (forall g, disk (snd (next g s)) = disk s)
  /\ (forall g, disk (snd (images g s)) = disk s).
Proof.
  split; [intros; apply disk_plot|].
  split; [apply disk_legend|].
  split; [intros; apply disk_call|].
  split; intros; [apply (disk_next ideal) | apply (disk_images ideal)].
Qed.

(** X10. [to_gif] has three outcomes. Either the animation raises, and
    [to_gif] raises the same error with no file written (its own
    [imgs[0]] never fails, an animation that returns having at least one
    frame); or the animation returns its frames but the file cannot be
    created, and [to_gif] raises [OSError] with every frame drawn and no
    file written; or it writes one file, [equilibrium_animation.gif],
    with loop 0, having handed the writer the first frame followed by
    all the frames, the first frame therefore twice: the file has no more
    frames than the animation, plays for 100 ms per frame of the
    animation and 100 ms more, and shows its first frame for at least
    200 ms. *)
Theorem to_gif_outcome (E : Env) (s : State) (efit prediction : Np.stack) :
  same_as_itself (same_pixels E) ->
  (exists e s',
      images_in E (_next_image efit prediction) s = (Raise e, s')
      /\ to_gif_in E efit prediction s = (Raise e, s')
      /\ disk s' = disk s)
  \/ (exists frames s0,
         images_in E (_next_image efit prediction) s = (Ok frames, s0)
         /\ frames <> []
         /\ writable E gif_name = false
         /\ to_gif_in E efit prediction s = (Raise OSError, s0)
         /\ disk s0 = disk s)
  \/ (exists f0 more s0 g,
         images_in E (_next_image efit prediction) s = (Ok (f0 :: more), s0)
         /\ writable E gif_name = true
         /\ to_gif_in E efit prediction s
            = (Ok tt, {| self := self s0; plt := plt s0;
                         disk := (gif_name, g) :: disk s |})
         /\ Pil.frames g = Pil.merge (same_pixels E) 100 (f0, 100) (f0 :: more)
         /\ Pil.loop g = 0
         /\ length (Pil.frames g) <= length (f0 :: more)
         /\ playing_time g = 100 * length (f0 :: more) + 100
         /\ exists t rest, Pil.frames g = (f0, t) :: rest /\ 200 <= t).
Proof.
  intro Hrefl.
  pose proof (disk_images E (_next_image efit prediction) s) as Hd.
  destruct (images_in E (_next_image efit prediction) s) as [[l|e] s0] eqn:Eq.
  - pose proof (images_some E s s0 efit prediction l Eq) as Hne.
    destruct l as [|f0 more]; [congruence|].
    cbn [snd] in Hd.
    pose proof (to_gif_after_images E s s0 efit prediction f0 more Eq) as T.
    destruct (writable E gif_name) eqn:W.
    + right. right. exists f0, more, s0. eexists.
      split; [reflexivity|]. split; [reflexivity|].
      split; [rewrite T, Hd; reflexivity|].
      cbn [Pil.frames Pil.loop]. split; [reflexivity|]. split; [reflexivity|].
      cbn [Pil.merge fst snd]. rewrite (Hrefl f0).
      split; [|split].
      * pose proof (merge_length (same_pixels E) 100 (f0, 100 + 100) more).
        cbn [length]. lia.
      * unfold playing_time. cbn [Pil.frames Pil.merge fst snd].
        rewrite merge_time. cbn [snd length]. lia.
      * destruct (merge_head (same_pixels E) 100 (f0, 100 + 100) more)
          as (t & rest & Em & Ht).
        cbn [fst snd] in Em, Ht. exists t, rest. split; [exact Em | lia].
    + right. left. exists (f0 :: more), s0.
      split; [reflexivity|]. split; [discriminate|]. split; [reflexivity|].
      split; [exact T | exact Hd].
  - left. exists e, s0. split; [reflexivity|]. split; [|exact Hd].
    unfold to_gif_in, bind. rewrite Eq. reflexivity.
Qed.

Lemma to_gif_outcome_witness :
  same_as_itself (same_pixels ideal)
  /\ ((exists e s',
          images_in ideal (_next_image efit2 prediction2) compared
          = (Raise e, s')
          /\ to_gif_in ideal efit2 prediction2 compared = (Raise e, s')
          /\ disk s' = disk compared)
      \/ (exists frames s0,
             images_in ideal (_next_image efit2 prediction2) compared
             = (Ok frames, s0)
             /\ frames <> []
             /\ writable ideal gif_name = false
             /\ to_gif_in ideal efit2 prediction2 compared = (Raise OSError, s0)
             /\ disk s0 = disk compared)
      \/ (exists f0 more s0 g,
             images_in ideal (_next_image efit2 prediction2) compared
             = (Ok (f0 :: more), s0)
             /\ writable ideal gif_name = true
             /\ to_gif_in ideal efit2 prediction2 compared
                = (Ok tt, {| self := self s0; plt := plt s0;
                             disk := (gif_name, g) :: disk compared |})
             /\ Pil.frames g
                = Pil.merge (same_pixels ideal) 100 (f0, 100) (f0 :: more)
             /\ Pil.loop g = 0
             /\ length (Pil.frames g) <= length (f0 :: more)
             /\ playing_time g = 100 * length (f0 :: more) + 100
             /\ exists t rest, Pil.frames g = (f0, t) :: rest /\ 200 <= t)).
Proof.
  split; [exact same_picture_refl|].
  apply (to_gif_outcome ideal compared efit2 prediction2).
  exact same_picture_refl.
Defined.

(** ** From a new instance to a bound one *)

Lemma process_levels_gives_ok lv z lv' :
  Mpl.process_levels lv z = Ok lv' -> levels_ok lv' = true.
Proof.
  destruct lv as [n|l|n lo hi]; unfold Mpl.process_levels.
  - intro E. injection E as <-. reflexivity.
  - destruct ((1 <? length l) && negb (Mpl.increasing l)) eqn:C; [discriminate|].
    intro E. injection E as <-. unfold levels_ok.
    apply andb_false_iff in C. destruct C as [C|C].
    + apply Nat.ltb_ge in C. apply Nat.leb_le in C. rewrite C. reflexivity.
    + apply negb_false_iff in C. rewrite C. apply orb_true_r.
  - intro E. injection E as <-. reflexivity.
Qed.

Lemma bound_ready (r c : nat) (s : State) :
  bound r c s = true -> ready r c s = true.
Proof.
  intro Hb.
  destruct (bound_inv r c s Hb)
    as (da & xs & ys & lv & h & fg & n0 & Hs & Hx & Hy & Hlx & Hly & Hr & Hc).
  unfold ready. rewrite Hs. cbn [magnetic_flux shape]. rewrite Hx, Hy.
  apply Nat.eqb_eq in Hlx, Hly. apply Nat.leb_le in Hr, Hc.
  rewrite Hlx, Hly, Hr, Hc, !Nat.eqb_refl. reflexivity.
Qed.

(** A ready state, taken apart. *)
Lemma ready_inv (r c : nat) (s : State) :
  ready r c s = true ->
  exists da xs ys,
    magnetic_flux (self s) = Some da
    /\ Xr.major_radius da = Some xs /\ Xr.z da = Some ys
    /\ length xs = c /\ length ys = r /\ 2 <= r /\ 2 <= c
    /\ (shape (self s) = Some (r, c)
        \/ (shape (self s) = None
            /\ Xr.getitem (Xr.sizes da) "z" = Ok r
            /\ Xr.getitem (Xr.sizes da) "major_radius" = Ok c)).
Proof.
  unfold ready. destruct (magnetic_flux (self s)) as [da|]; [|discriminate].
  destruct (Xr.major_radius da) as [xs|] eqn:Hx; [|discriminate].
  destruct (Xr.z da) as [ys|] eqn:Hy; [|discriminate].
  intro H.
  apply andb_prop in H. destruct H as [H HE].
  apply andb_prop in H. destruct H as [H HD].
  apply andb_prop in H. destruct H as [H HC].
  apply andb_prop in H. destruct H as [HA HB].
  apply Nat.eqb_eq in HA, HB. apply Nat.leb_le in HC, HD.
  exists da, xs, ys.
  repeat (split; [first [reflexivity | assumption]|]).
  destruct (shape (self s)) as [[nz nr]|].
  - apply andb_prop in HE. destruct HE as [A B].
    apply Nat.eqb_eq in A, B. subst nz nr. left. reflexivity.
  - destruct (Xr.getitem (Xr.sizes da) "z") as [nz|]; [|discriminate].
    destruct (Xr.getitem (Xr.sizes da) "major_radius") as [nr|];
      [|discriminate].
    apply andb_prop in HE. destruct HE as [A B].
    apply Nat.eqb_eq in A, B. subst nz nr. right. repeat split; reflexivity.
Qed.

Lemma plot_from_ready (r c : nat) (s : State) (a : Np.ndarray)
    (label : option string) (kwargs : Kwargs) :
  ready r c s = true ->
  levels_ok (or_else (kw_levels kwargs) (levels (self s))) = true ->
  Np.size a = r * c ->
  exists cs s',
    plot (Ndarray a) label kwargs s = (Ok cs, s')
    /\ bound r c s' = true
    /\ Mpl.Z cs = {| Np.shape := [r; c]; Np.data := Np.data a |}.
Proof.
  intros Hr Hlv Ha.
  destruct (ready_inv r c s Hr)
    as (da & xs & ys & Hmf & Hx & Hy & Hlx & Hly & H2r & H2c & Hsh).
  destruct s as [[mf lv h fg axs sh0] [figs k] d].
  cbn [self magnetic_flux shape levels] in Hmf, Hsh, Hlv. subst mf.
  destruct (process_levels_ok _ {| Np.shape := [r; c]; Np.data := Np.data a |}
              Hlv) as [lv' Hp].
  assert (Hb : forall h' fg' n' lv'',
             bound r c
               {| self := {| magnetic_flux := Some da; levels := lv'';
                             _handles := h'; fig := fg'; axes := Some n';
                             shape := Some (r, c) |};
                  plt := plt {| self := default; plt := no_figures; disk := d |};
                  disk := d |} = true).
  { intros. unfold bound. cbn [self axes shape magnetic_flux].
    rewrite Hx, Hy.
    apply Nat.eqb_eq in Hlx, Hly. apply Nat.leb_le in H2r, H2c.
    rewrite Hlx, Hly, H2r, H2c, !Nat.eqb_refl. reflexivity. }
  destruct Hsh as [Hsh|(Hsh & Gz & Gr)]; subst sh0;
    run_plot; quiet; destruct axs; quiet; unfold Xr.getattr;
    rewrite Hx, Hy; quiet; rewrite ?Gz; quiet; rewrite ?Gr; quiet;
    rewrite (reshape_grid r c a Ha);
    unfold Mpl.contour; rewrite (check_grid xs ys r c Hlx Hly H2r H2c), Hp;
    quiet; destruct (truthy label); quiet;
    do 2 eexists; (split; [reflexivity|]); (split; [|reflexivity]);
    unfold bound; cbn [self axes shape magnetic_flux]; rewrite Hx, Hy;
    apply Nat.eqb_eq in Hlx, Hly; apply Nat.leb_le in H2r, H2c;
    rewrite Hlx, Hly, H2r, H2c, !Nat.eqb_refl; reflexivity.
Qed.

(** A comparison on a ready instance returns and binds it. *)
Lemma compare_ok (r c : nat) (s : State) (e p : Np.ndarray) :
  ready r c s = true ->
  levels_ok (levels (self s)) = true ->
  Np.size e = r * c -> Np.size p = r * c ->
  exists cs s',
    __call__ (Ndarray e) (Ndarray p) s = (Ok cs, s') /\ bound r c s' = true.
Proof.
  intros Hr Hlv He Hp.
  destruct (plot_from_ready r c s e (Some "EFIT++") (colors_ "gray") Hr Hlv He)
    as (c1 & s1 & E1 & B1 & _).
  destruct (plot_ok_inv s s1 _ _ _ c1 E1) as (_ & _ & L1 & (z1 & P1) & _).
  assert (Hlv1 : levels_ok (or_else (kw_levels (colors_ "C0")) (levels (self s1)))
                 = true).
  { cbn [colors_ kw_levels or_else]. rewrite L1.
    exact (process_levels_gives_ok _ _ _ P1). }
  destruct (plot_from_ready r c s1 p (Some "Prediction") (colors_ "C0")
              (bound_ready r c s1 B1) Hlv1 Hp)
    as (c2 & s2 & E2 & B2 & _).
  exists [c1; c2], s2. split; [|exact B2].
  unfold __call__, bind. rewrite E1, E2. reflexivity.
Qed.

(** X11. On an instance carrying a flux field with its coordinates on an
    [r] by [c] grid, drawn on before or not, a comparison of two arrays
    of [r * c] elements returns two contour sets, the ground truth in
    gray and the prediction in C0, both with the same levels, queues
    their two handles, and leaves the instance bound to that grid. *)
Theorem compare_binds (r c : nat) (s : State) (e p : Np.ndarray) :
  ready r c s = true ->
  levels_ok (levels (self s)) = true ->
  Np.size e = r * c -> Np.size p = r * c ->
  exists c1 c2 s',
    __call__ (Ndarray e) (Ndarray p) s = (Ok [c1; c2], s')
    /\ bound r c s' = true
    /\ shown [c1; c2] = comparison (e, p)
    /\ Mpl.cs_levels c2 = Mpl.cs_levels c1
    /\ _handles (self s') = _handles (self s) ++ key.
Proof.
  intros Hr Hlv He Hp.
  destruct (plot_from_ready r c s e (Some "EFIT++") (colors_ "gray") Hr Hlv He)
    as (c1 & s1 & E1 & B1 & Z1).
  destruct (plot_ok_inv s s1 _ _ _ c1 E1)
    as (C1 & _ & L1 & (z1 & P1) & H1 & _).
  assert (Hlv1 : levels_ok (or_else (kw_levels (colors_ "C0")) (levels (self s1)))
                 = true).
  { cbn [colors_ kw_levels or_else]. rewrite L1.
    exact (process_levels_gives_ok _ _ _ P1). }
  destruct (plot_from_ready r c s1 p (Some "Prediction") (colors_ "C0")
              (bound_ready r c s1 B1) Hlv1 Hp)
    as (c2 & s2 & E2 & B2 & Z2).
  destruct (plot_ok_inv s1 s2 _ _ _ c2 E2)
    as (C2 & _ & L2 & _ & H2 & _).
  destruct (plot_ok_inv s1 s2 _ _ _ c2 E2) as (_ & _ & _ & (z2 & P2) & _).
  cbn [colors_ kw_levels or_else] in P2. rewrite L1 in P2.
  rewrite (process_levels_stable _ _ _ z2 P1) in P2. injection P2 as Lp.
  symmetry in Lp.
  exists c1, c2, s2.
  split; [unfold __call__, bind; rewrite E1, E2; reflexivity|].
  split; [exact B2|].
  split; [unfold shown, comparison; cbn [map fst snd];
          rewrite C1, C2, Z1, Z2; reflexivity|].
  split; [exact Lp|].
  rewrite H2, H1, <- app_assoc. reflexivity.
Qed.

Lemma compare_binds_witness :
  exists c1 c2 s',
    __call__ (Ndarray (flat_array [0; 1; 2; 3; 4; 5]%Z))
             (Ndarray (flat_array [0; 1; 2; 3; 5; 5]%Z)) (created psi)
    = (Ok [c1; c2], s')
    /\ bound 2 3 s' = true
    /\ shown [c1; c2]
       = comparison (flat_array [0; 1; 2; 3; 4; 5]%Z,
                     flat_array [0; 1; 2; 3; 5; 5]%Z)
    /\ Mpl.cs_levels c2 = Mpl.cs_levels c1
    /\ _handles (self s') = _handles (self (created psi)) ++ key.
Proof.
  apply (compare_binds 2 3 (created psi)); vm_compute; reflexivity.
Defined.

(** ** Animations one after another *)

Lemma st_bound da xs ys r c l n lg h cs cv rest k d :
  Xr.major_radius da = Some xs -> Xr.z da = Some ys ->
  length xs = c -> length ys = r -> 2 <= r -> 2 <= c ->
  bound r c (st da r c l n lg h cs cv rest k d) = true.
Proof.
  intros Hx Hy Hlx Hly Hr Hc. unfold bound, st, inst.
  cbn [self axes shape magnetic_flux]. rewrite Hx, Hy.
  apply Nat.eqb_eq in Hlx, Hly. apply Nat.leb_le in Hr, Hc.
  rewrite Hlx, Hly, Hr, Hc, !Nat.eqb_refl. reflexivity.
Qed.

(** A [to_gif] that finds the animator bound, the levels increasing and
    the file writable returns and leaves the animator bound. *)
Lemma to_gif_ok (E : Env) (r c : nat) (s : State)
    (efit prediction : Np.stack) :
  bound r c s = true ->
  on_grid r c efit = true -> on_grid r c prediction = true ->
  levelled E efit = true -> 0 < length prediction ->
  writable E gif_name = true ->
  exists s' n,
    to_gif_in E efit prediction s = (Ok tt, s')
    /\ bound r c s' = true
    /\ length (Mpl.figures (plt s')) = S (length (Mpl.figures (plt s)))
    /\ axes (self s') = Some n
    /\ option_map Mpl.number (hd_error (Mpl.figures (plt s'))) = Some n
    /\ length (_handles (self s'))
       = 2 * Nat.min (length efit) (length prediction).
Proof.
  intros Hb Hge Hgp Hsp Lp Hw.
  destruct (animate_st E r c s efit prediction Hb Hge Hgp Hsp
              (positive_length prediction Lp))
    as (da & xs & ys & lo & hi & cs & cv & rest
        & Hmf & Hx & Hy & Hlx & Hly & Hr & Hc & _ & _ & _ & Lr & Eq).
  cbv zeta in Eq.
  pose proof (images_some E _ _ _ _ _ Eq) as Hne.
  remember (reel xs ys r c (linspace E lo hi 51)
              (S (length (Mpl.figures (plt s)))) (Some key)
              (S (S (Mpl.serial (plt s)))) (combine efit prediction))
    as frames eqn:Ef.
  destruct frames as [|f0 more]; [congruence|].
  do 2 eexists.
  split; [rewrite (to_gif_after_images E _ _ _ _ _ _ Eq), Hw; reflexivity|].
  split; [apply (st_bound da xs ys); assumption|].
  split; [cbn; rewrite Lr; reflexivity|].
  split; [reflexivity|]. split; [reflexivity|].
  cbn [self st inst _handles]. rewrite <- length_combine.
  clear. induction (combine efit prediction) as [|x t IH]; cbn [flat_map length].
  - reflexivity.
  - unfold key at 1. cbn [app length]. rewrite IH. lia.
Qed.

(** X12. A successful [to_gif] leaves the animator bound to the same
    grid, so that the same call succeeds again; it also leaves one more
    open figure than it found, the instance now drawing on the newest
    one, and the handles of all its comparisons queued. It succeeds on
    a bound animator whenever the fields fit the grid, the 51 levels
    come out strictly increasing and the file can be created. *)
Theorem to_gif_repeatable (E : Env) (r c : nat) (s : State)
    (efit prediction : Np.stack) :
  bound r c s = true ->
  on_grid r c efit = true -> on_grid r c prediction = true ->
  levelled E efit = true -> 0 < length prediction ->
  writable E gif_name = true ->
  exists s' n s'',
    to_gif_in E efit prediction s = (Ok tt, s')
    /\ bound r c s' = true
    /\ length (Mpl.figures (plt s')) = S (length (Mpl.figures (plt s)))
    /\ axes (self s') = Some n
    /\ option_map Mpl.number (hd_error (Mpl.figures (plt s'))) = Some n
    /\ length (_handles (self s'))
       = 2 * Nat.min (length efit) (length prediction)
    /\ to_gif_in E efit prediction s' = (Ok tt, s'')
    /\ bound r c s'' = true
    /\ length (Mpl.figures (plt s'')) = S (S (length (Mpl.figures (plt s)))).
Proof.
  intros Hb Hge Hgp Hsp Lp Hw.
  destruct (to_gif_ok E r c s efit prediction Hb Hge Hgp Hsp Lp Hw)
    as (s' & n & E1 & B1 & F1 & A1 & N1 & H1).
  destruct (to_gif_ok E r c s' efit prediction B1 Hge Hgp Hsp Lp Hw)
    as (s'' & n' & E2 & B2 & F2 & _).
  exists s', n, s''. repeat (split; [assumption|]). congruence.
Qed.

Lemma to_gif_repeatable_witness :
  exists s' n s'',
    to_gif_in ideal efit2 prediction3 compared = (Ok tt, s')
    /\ bound 2 3 s' = true
    /\ length (Mpl.figures (plt s')) = S (length (Mpl.figures (plt compared)))
    /\ axes (self s') = Some n
    /\ option_map Mpl.number (hd_error (Mpl.figures (plt s'))) = Some n
    /\ length (_handles (self s'))
       = 2 * Nat.min (length efit2) (length prediction3)
    /\ to_gif_in ideal efit2 prediction3 s' = (Ok tt, s'')
    /\ bound 2 3 s'' = true
    /\ length (Mpl.figures (plt s''))
       = S (S (length (Mpl.figures (plt compared)))).
Proof.
  apply (to_gif_repeatable ideal 2 3 compared efit2 prediction3);
    first [vm_compute; reflexivity | cbn; lia].
Defined.

(** X20. When the file cannot be created, [to_gif] on an animator that
    has drawn before still runs the whole animation (fields of the grid's
    size, levels strictly increasing) and only then raises [OSError]: the
    frames are lost, no file is written, and the animator is left bound,
    on a new figure. *)
Theorem to_gif_unwritable (E : Env) (r c : nat) (s : State)
    (efit prediction : Np.stack) :
  bound r c s = true ->
  on_grid r c efit = true -> on_grid r c prediction = true ->
  levelled E efit = true -> 0 < length prediction ->
  writable E gif_name = false ->
  exists frames s',
    images_in E (_next_image efit prediction) s = (Ok frames, s')
    /\ length frames = Nat.min (length efit) (length prediction)
    /\ to_gif_in E efit prediction s = (Raise OSError, s')
    /\ disk s' = disk s
    /\ bound r c s' = true
    /\ length (Mpl.figures (plt s')) = S (length (Mpl.figures (plt s))).
Proof.
  intros Hb Hge Hgp Hsp Lp Hw.
  destruct (animate_st E r c s efit prediction Hb Hge Hgp Hsp
              (positive_length prediction Lp))
    as (da & xs & ys & lo & hi & cs & cv & rest
        & Hmf & Hx & Hy & Hlx & Hly & Hr & Hc & _ & _ & _ & Lr & Eq).
  cbv zeta in Eq.
  pose proof (images_some E _ _ _ _ _ Eq) as Hne.
  remember (reel xs ys r c (linspace E lo hi 51)
              (S (length (Mpl.figures (plt s)))) (Some key)
              (S (S (Mpl.serial (plt s)))) (combine efit prediction))
    as frames eqn:Ef.
  assert (Lf : length frames = Nat.min (length efit) (length prediction))
    by (rewrite Ef, reel_length; apply length_combine).
  destruct frames as [|f0 more]; [congruence|].
  do 2 eexists.
  split; [exact Eq|]. split; [exact Lf|].
  split; [rewrite (to_gif_after_images E _ _ _ _ _ _ Eq), Hw; reflexivity|].
  split; [reflexivity|].
  split; [apply (st_bound da xs ys); assumption|].
  cbn. rewrite Lr. reflexivity.
Qed.

Lemma to_gif_unwritable_witness :
  exists frames s',
    images_in readonly (_next_image efit2 prediction3) compared
    = (Ok frames, s')
    /\ length frames = Nat.min (length efit2) (length prediction3)
    /\ to_gif_in readonly efit2 prediction3 compared = (Raise OSError, s')
    /\ disk s' = disk compared
    /\ bound 2 3 s' = true
    /\ length (Mpl.figures (plt s')) = S (length (Mpl.figures (plt compared))).
Proof.
  apply (to_gif_unwritable readonly 2 3 compared efit2 prediction3);
    first [vm_compute; reflexivity | cbn; lia].
Defined.

(** ** The notebook's two calls *)

Lemma frames_up_to_shorter (E : Env) (r c : nat) (s : State)
    (efit prediction : Np.stack) :
  bound r c s = true ->
  on_grid r c efit = true -> on_grid r c prediction = true ->
  levelled E efit = true -> 0 < length prediction ->
  exists frames s',
    images_in E (_next_image efit prediction) s = (Ok frames, s')
    /\ length frames = Nat.min (length efit) (length prediction).
Proof.
  intros Hb Hge Hgp Hsp Lp.
  destruct (animate_st E r c s efit prediction Hb Hge Hgp Hsp
              (positive_length prediction Lp))
    as (da & xs & ys & lo & hi & cs & cv & rest
        & _ & _ & _ & _ & _ & _ & _ & _ & _ & _ & _ & Eq).
  cbv zeta in Eq. do 2 eexists. split; [exact Eq|].
  rewrite reel_length. apply length_combine.
Qed.

Lemma item_on_grid (r c : nat) (a : Np.stack) (i : nat) :
  on_grid r c a = true -> i < length a ->
  exists x, Notebook.item a i = Ok x /\ Np.size x = r * c.
Proof.
  intros Hg Hi. unfold Notebook.item.
  destruct (nth_error a i) as [x|] eqn:E.
  - exists x. split; [reflexivity|].
    unfold on_grid in Hg. rewrite forallb_forall in Hg.
    apply Nat.eqb_eq, Hg. exact (nth_error_In a i E).
  - apply nth_error_None in E. lia.
Qed.

(** X13. The notebook's sequence on an instance carrying a flux field
    with its coordinates on an [r] by [c] grid: when both sequences have
    a field at [time_index], all fields have [r * c] elements, the 51
    levels [linspace] returns for the ground truth come out strictly
    increasing and the file can be created, the comparison followed by
    [to_gif] runs without an error and writes the animation, looping
    forever: a file of no more frames than the shorter sequence has
    fields, the first of them shown for at least 200 ms, that plays for
    100 ms per field of the shorter sequence and 100 ms more. *)
Theorem notebook_animation_runs (E : Env) (r c : nat) (s : State)
    (y_test y_pred : Np.stack) :
  ready r c s = true ->
  levels_ok (levels (self s)) = true ->
  on_grid r c y_test = true -> on_grid r c y_pred = true ->
  levelled E y_test = true ->
  Notebook.time_index < length y_test ->
  Notebook.time_index < length y_pred ->
  writable E gif_name = true ->
  same_as_itself (same_pixels E) ->
  exists s' g,
    Notebook.compare_then_animate E y_test y_pred s = (Ok tt, s')
    /\ disk s' = (gif_name, g) :: disk s
    /\ Pil.loop g = 0
    /\ length (Pil.frames g) <= Nat.min (length y_test) (length y_pred)
    /\ playing_time g = 100 * Nat.min (length y_test) (length y_pred) + 100
    /\ exists f t rest, Pil.frames g = (f, t) :: rest /\ 200 <= t.
Proof.
  intros Hr Hlv Hgt Hgp Hsp Lt Lp Hw Hrefl.
  destruct (item_on_grid r c y_test _ Hgt Lt) as (e & Ie & Se).
  destruct (item_on_grid r c y_pred _ Hgp Lp) as (p & Ip & Sp).
  destruct (compare_ok r c s e p Hr Hlv Se Sp) as (cs & s1 & E1 & B1).
  pose proof (disk_call (Ndarray e) (Ndarray p) s) as D1.
  rewrite E1 in D1. cbn [snd] in D1.
  assert (Lp' : 0 < length y_pred) by lia.
  destruct (frames_up_to_shorter E r c s1 y_test y_pred
              B1 Hgt Hgp Hsp Lp')
    as (frames & s2 & E2 & Lf).
  pose proof (disk_images E (_next_image y_test y_pred) s1) as D2.
  rewrite E2 in D2. cbn [snd] in D2.
  pose proof (images_some E _ _ _ _ _ E2) as Hne.
  destruct frames as [|f0 more]; [congruence|].
  do 2 eexists.
  split.
  { unfold Notebook.compare_then_animate, bind, lift.
    rewrite Ie, Ip, E1.
    rewrite (to_gif_after_images E _ _ _ _ _ _ E2), Hw. reflexivity. }
  cbn [disk Pil.frames Pil.loop].
  split; [rewrite D2, D1; reflexivity|]. split; [reflexivity|].
  rewrite <- Lf. unfold playing_time.
  cbn [Pil.frames Pil.loop Pil.merge fst snd]. rewrite (Hrefl f0).
  split; [|split].
  - pose proof (merge_length (same_pixels E) 100 (f0, 100 + 100) more).
    cbn [length]. lia.
  - rewrite merge_time. cbn [snd length]. lia.
  - destruct (merge_head (same_pixels E) 100 (f0, 100 + 100) more)
      as (t & rest & Em & Ht).
    cbn [fst snd] in Em, Ht. exists f0, t, rest. split; [exact Em | lia].
Qed.

Lemma notebook_animation_runs_witness :
  exists s' g,
    Notebook.compare_then_animate ideal (ramps23 0) (ramps23 1) (created psi)
    = (Ok tt, s')
    /\ disk s' = (gif_name, g) :: disk (created psi)
    /\ Pil.loop g = 0
    /\ length (Pil.frames g)
       <= Nat.min (length (ramps23 0)) (length (ramps23 1))
    /\ playing_time g
       = 100 * Nat.min (length (ramps23 0)) (length (ramps23 1)) + 100
    /\ exists f t rest, Pil.frames g = (f, t) :: rest /\ 200 <= t.
Proof.
  apply (notebook_animation_runs ideal 2 3 (created psi) (ramps23 0) (ramps23 1));
    first [ exact same_picture_refl | vm_compute; reflexivity
          | unfold Notebook.time_index; cbn; lia ].
Defined.

(** ** Frames, one [next] at a time *)




(** ** The legend and the current figure *)

Lemma find_on_figure_other (m n : nat) (g : Mpl.Figure -> Mpl.Figure) p :
  (forall f, Mpl.number (g f) = Mpl.number f) -> m <> n ->
  Mpl.find_figure n (Mpl.on_figure m g p) = Mpl.find_figure n p.
Proof.
  intros Hg Hne. unfold Mpl.find_figure, Mpl.on_figure. cbn [Mpl.figures].
  induction (Mpl.figures p) as [|f l IH]; cbn [map find]; [reflexivity|].
  destruct (Mpl.number f =? m) eqn:E.
  - rewrite Hg. apply Nat.eqb_eq in E.
    destruct (Nat.eqb_spec (Mpl.number f) n); [congruence | exact IH].
  - destruct (Mpl.number f =? n); [reflexivity | exact IH].
Qed.

(** X14. [legend()] draws on pyplot's current figure, not on the
    instance's axes: when another figure is the current one, the handles
    are consumed and go to that figure's legend, and the instance's own
    figure is left as it was. *)
Theorem legend_goes_to_current_figure (s : State) (n : nat)
    (f : Mpl.Figure) (rest : list Mpl.Figure) :
  axes (self s) = Some n ->
  Mpl.figures (plt s) = f :: rest -> Mpl.number f <> n ->
  Mpl.find_figure n (plt (snd (legend s))) = Mpl.find_figure n (plt s)
  /\ current_legend (plt (snd (legend s))) = Some (_handles (self s))
  /\ _handles (self (snd (legend s))) = []
  /\ axes (self (snd (legend s))) = Some n.
Proof.
  intros Ha Hf Hne. destruct s as [slf [figs k] d].
  cbn [self plt Mpl.figures] in *. subst figs.
  unfold legend, bind, the, pyplot_, pyplot, set_handles, set_self, modify.
  cbn [fst snd self plt disk _handles axes].
  split; [|split; [apply legend_current | split; [reflexivity | exact Ha]]].
  unfold Mpl.legend, Mpl.gca. cbn [Mpl.figures].
  unfold Mpl.on_axes. apply find_on_figure_other; [reflexivity | exact Hne].
Qed.

Lemma legend_goes_to_current_figure_witness :
  Mpl.find_figure 1 (plt (snd (legend overtaken)))
  = Mpl.find_figure 1 (plt overtaken)
  /\ current_legend (plt (snd (legend overtaken)))
     = Some (_handles (self overtaken))
  /\ _handles (self (snd (legend overtaken))) = []
  /\ axes (self (snd (legend overtaken))) = Some 1.
Proof.
  destruct (Mpl.figures (plt overtaken)) as [|f rest] eqn:E;
    [vm_compute in E; discriminate|].
  apply (legend_goes_to_current_figure overtaken 1 f rest);
    [vm_compute; reflexivity | exact E |].
  vm_compute in E. injection E as <- _. cbn. lia.
Defined.

(** ** A comparison that fails half way *)

(** X15. When the ground truth of a comparison is plotted and the
    prediction then raises, the comparison raises that error with the
    ground-truth contour set drawn, its levels stored and its handle
    queued, and nothing of the prediction; when the ground truth raises,
    the prediction is not attempted. *)
Theorem comparison_half_done (s : State) (e p : Data) :
  (forall c1 s1 err s2,
      plot e (Some "EFIT++") (colors_ "gray") s = (Ok c1, s1) ->
      plot p (Some "Prediction") (colors_ "C0") s1 = (Raise err, s2) ->
      __call__ e p s = (Raise err, s2)
      /\ _handles (self s2)
         = _handles (self s)
           ++ [{| Mpl.label := "EFIT++"; Mpl.color := "gray" |}]
      /\ levels (self s2) = Mpl.cs_levels c1
      /\ Mpl.serial (plt s2) = S (Mpl.serial (plt s)))
  /\ (forall err s1,
         plot e (Some "EFIT++") (colors_ "gray") s = (Raise err, s1) ->
         __call__ e p s = (Raise err, s1)
         /\ _handles (self s1) = _handles (self s)
         /\ Mpl.serial (plt s1) = Mpl.serial (plt s)).
Proof.
  split.
  - intros c1 s1 err s2 E1 E2.
    destruct (plot_ok_inv s s1 _ _ _ c1 E1)
      as (_ & _ & L1 & _ & H1 & _ & _ & S1 & _).
    destruct (plot_err_inv s1 s2 _ _ _ err E2) as (L2 & H2 & S2 & _).
    split; [unfold __call__, bind; rewrite E1, E2; reflexivity|].
    split; [rewrite H2, H1; reflexivity|].
    split; congruence.
  - intros err s1 E1.
    destruct (plot_err_inv s s1 _ _ _ err E1) as (_ & H1 & S1 & _).
    split; [unfold __call__, bind; rewrite E1; reflexivity|].
    split; assumption.
Qed.

Lemma comparison_half_done_witness :
  exists s2,
    __call__ (Ndarray tall) (Ndarray (flat_array [1; 2; 3]%Z)) compared
    = (Raise ValueError, s2)
    /\ _handles (self s2)
       = _handles (self compared)
         ++ [{| Mpl.label := "EFIT++"; Mpl.color := "gray" |}]
    /\ Mpl.serial (plt s2) = S (Mpl.serial (plt compared)).
Proof.
  destruct (plot (Ndarray tall) (Some "EFIT++") (colors_ "gray") compared)
    as [[c1|e1] s1] eqn:E1; [|vm_compute in E1; discriminate].
  destruct (plot (Ndarray (flat_array [1; 2; 3]%Z)) (Some "Prediction")
              (colors_ "C0") s1) as [[c2|err] s2] eqn:E2.
  - exfalso. vm_compute in E1. injection E1 as _ <-.
    vm_compute in E2. discriminate.
  - assert (err = ValueError).
    { pose proof E1 as E1'. vm_compute in E1'. injection E1' as _ <-.
      vm_compute in E2. injection E2 as <- _. reflexivity. }
    subst err. exists s2.
    destruct (proj1 (comparison_half_done compared (Ndarray tall)
                       (Ndarray (flat_array [1; 2; 3]%Z)))
                c1 s1 ValueError s2 E1 E2) as (H1 & H2 & _ & H4).
    repeat split; assumption.
Defined.

(** ** Preparing the targets *)

Section Targets.

Lemma chunks_length (m n : nat) (l : list Q) :
  n * m <= length l ->
  length (Notebook.chunks m n l) = n
  /\ Forall (fun d => length d = m) (Notebook.chunks m n l).
Proof.
  revert l. induction n as [|n IH]; intros l H; cbn [Notebook.chunks].
  - split; [reflexivity | constructor].
  - cbn [Nat.mul] in H.
    destruct (IH (skipn m l)) as [L F]; [rewrite length_skipn; lia|].
    split; [cbn [length]; rewrite L; reflexivity|].
    constructor; [|exact F]. rewrite length_firstn. lia.
Qed.

Lemma chunks_concat (m n : nat) (l : list Q) :
  length l = n * m -> concat (Notebook.chunks m n l) = l.
Proof.
  revert l. induction n as [|n IH]; intros l H;
    cbn [Notebook.chunks concat].
  - destruct l; [reflexivity | discriminate].
  - cbn [Nat.mul] in H. rewrite IH; [apply firstn_skipn|].
    rewrite length_skipn. lia.
Qed.

(** X16. For a flux field of [T > 0] time slices of [nz] by [nr] values,
    the flattening of the notebook gives [T] rows that hold all the
    values in their order, each row with [nz * nr] elements; reshaping
    row [i] to [(nz, nr)], as [plot] does, gives back time slice [i]. *)
Theorem targets_round_trip (psi : Xr.DataArray) (T nz nr : nat) :
  Xr.getitem (Xr.sizes psi) "time" = Ok T -> 0 < T ->
  Np.shape (Xr.values psi) = [T; nz; nr] ->
  Np.size (Xr.values psi) = T * (nz * nr) ->
  exists y slices,
    Notebook.targets psi = Ok y
    /\ Notebook.unstack (Xr.values psi) = Ok slices
    /\ length y = T
    /\ Np.elements y = Np.data (Xr.values psi)
    /\ on_grid nz nr y = true
    /\ map (fun e => Np.reshape e (nz, nr)) y = map Ok slices.
Proof.
  intros Ht HT Hsh Hsz.
  unfold Notebook.targets, Notebook.reshape_rows, Notebook.unstack.
  rewrite Ht, Hsh, Hsz.
  assert (T <> 0) by lia.
  rewrite Nat.mul_comm, Nat.Div0.mod_mul, Nat.div_mul by assumption.
  destruct (Nat.eqb_spec T 0); [lia|]. cbn [orb negb Nat.eqb Np.shape Np.data].
  cbn [fold_right]. rewrite !Nat.mul_1_r.
  unfold Np.size in Hsz.
  destruct (chunks_length (nz * nr) T (Np.data (Xr.values psi))) as [L F];
    [lia|].
  do 2 eexists. split; [reflexivity|]. split; [reflexivity|].
  split; [rewrite length_map; exact L|].
  split.
  { unfold Np.elements. rewrite map_map. cbn [Np.data]. rewrite map_id.
    apply chunks_concat. lia. }
  split.
  { unfold on_grid. rewrite forallb_forall. intros x Hx.
    apply in_map_iff in Hx. destruct Hx as (d & <- & Hd).
    rewrite Forall_forall in F. unfold Np.size. cbn [Np.data].
    rewrite (F d Hd). apply Nat.eqb_refl. }
  rewrite !map_map. apply map_ext_in. intros d Hd.
  rewrite Forall_forall in F. unfold Np.reshape, Np.size. cbn [Np.data fst snd].
  rewrite (F d Hd), Nat.eqb_refl. reflexivity.
Qed.

Lemma targets_round_trip_witness :
  exists y slices,
    Notebook.targets psi = Ok y
    /\ Notebook.unstack (Xr.values psi) = Ok slices
    /\ length y = 3
    /\ Np.elements y = Np.data (Xr.values psi)
    /\ on_grid 2 3 y = true
    /\ map (fun e => Np.reshape e (2, 3)) y = map Ok slices.
Proof.
  apply (targets_round_trip psi 3 2 3); first [reflexivity | lia].
Defined.





End Targets.
